(** * Contab-PY: normalizador de DTE y motor de asientos

    Shallow embedding of [procesador_xml.py] (the document normalizer) and
    [logica_contable.py] (the ledger posting engine) over the tables declared
    in [db_config.py].

    Conventions.
    - A Python call that may raise is a value of [resultado]: [Retorna a]
      when it returns [a], [Lanza e] when it raises [e].  An exception is its
      class together with the text [str(exc)] yields.
    - A Python [float] is an IEEE-754 binary64 value, here [spec_float] of the
      standard library with precision 53 and maximal exponent 1024.
    - The tree [xmltodict.parse] builds is a [valor]: [None], [str], [dict]
      (in insertion order) or [list].
    - The relational store is a record of tables, each a list of rows; a
      transaction opened by [SessionLocal.begin()] either commits the store its
      body reaches or, when the body raises, leaves the store it started from. *)

From Stdlib Require Import ZArith String List Bool Ascii Lia.
From Stdlib Require Import SpecFloat.
From Stdlib Require Import Strings.Byte.
Import ListNotations.

Set Warnings "-register-all".

Open Scope Z_scope.
Open Scope string_scope.
Open Scope list_scope.

(** ** Exceptions and results *)

Inductive clase_excepcion : Type :=
| ValueError
| TypeError
| AttributeError
| ExpatError
| IntegrityError
| OperationalError.

Record excepcion : Type := Exc { clase : clase_excepcion; mensaje : string }.

Inductive resultado (A : Type) : Type :=
| Retorna (a : A)
| Lanza (e : excepcion).

Arguments Retorna {A} a.
Arguments Lanza {A} e.

Definition bind {A B : Type} (m : resultado A) (k : A -> resultado B) : resultado B :=
  match m with
  | Retorna a => k a
  | Lanza e => Lanza e
  end.

Declare Scope py_scope.
Delimit Scope py_scope with py.
Notation "x <- m ;; k" := (bind m (fun x => k))
  (at level 61, m at next level, right associativity) : py_scope.
Open Scope py_scope.

(** ** Floats *)

Definition float : Type := spec_float.

(** The literal [0.0]. *)
Definition cero : float := S754_zero false.

(** Python's [a + b] and [a == b] on floats. *)
Definition fadd (a b : float) : float := SFadd 53 1024 a b.
Definition feq (a b : float) : bool := SFeqb a b.

(** The float of an integer literal, as [float(n)] rounds it. *)
Definition float_de_Z (n : Z) : float := binary_normalize 53 1024 n 0 false.

(** ** Dates *)

Record date : Type := Fecha { year : Z; month : Z; day : Z }.

(** ** The document record

    The dictionary [parsear_dte_xml] returns and [generar_asiento] receives.
    [generar_asiento] reads ["razon_social"] with [documento.get], so the key
    may be missing from the dictionary: it is optional here.  Every other key
    is read with [documento[...]]. *)

Record Documento : Type := {
  folio : string;
  tipo_dte : string;
  fecha_emision : date;
  rut_emisor : string;
  razon_social : option string;
  monto_neto : float;
  monto_iva : float;
  monto_total : float;
  url_archivo : string
}.

(** * procesador_xml.py *)

Module ProcesadorXml.

(** The tree produced by [xmltodict.parse]. *)
Inductive valor : Type :=
| VNone
| VStr (s : string)
| VDict (items : list (string * valor))
| VList (elems : list valor).

(** Python truth value: [None], [""], [{}] and [[]] are false. *)
Definition truthy (v : valor) : bool :=
  match v with
  | VNone => false
  | VStr s => negb (String.eqb s "")
  | VDict items => match items with [] => false | _ :: _ => true end
  | VList elems => match elems with [] => false | _ :: _ => true end
  end.

(** Lookup of a key among the items of a [dict]. *)
Fixpoint buscar_item (clave : string) (items : list (string * valor)) : option valor :=
  match items with
  | [] => None
  | (k, v) :: resto => if String.eqb k clave then Some v else buscar_item clave resto
  end.

(** [obj.get(clave, default)]: only a [dict] has the method. *)
Definition get (obj : valor) (clave : string) (default : valor) : resultado valor :=
  match obj with
  | VDict items =>
      Retorna (match buscar_item clave items with Some v => v | None => default end)
  | VNone => Lanza (Exc AttributeError "'NoneType' object has no attribute 'get'")
  | VStr _ => Lanza (Exc AttributeError "'str' object has no attribute 'get'")
  | VList _ => Lanza (Exc AttributeError "'list' object has no attribute 'get'")
  end.

(** Depth-first search of a key; [None] stands for "not found". *)
Fixpoint _buscar_nodo_recursivo (data : valor) (clave_objetivo : string) : valor :=
  match data with
  | VDict items =>
      (fix en_items (l : list (string * valor)) : valor :=
         match l with
         | [] => VNone
         | (key, value) :: resto =>
             if String.eqb key clave_objetivo then value
             else match _buscar_nodo_recursivo value clave_objetivo with
                  | VNone => en_items resto
                  | found => found
                  end
         end) items
  | VList elems =>
      (fix en_lista (l : list valor) : valor :=
         match l with
         | [] => VNone
         | item :: resto =>
             match _buscar_nodo_recursivo item clave_objetivo with
             | VNone => en_lista resto
             | found => found
             end
         end) elems
  | _ => VNone
  end.

(** Whether some mapping of the tree has the key. *)
Fixpoint contiene_clave (data : valor) (clave : string) : bool :=
  match data with
  | VDict items =>
      (fix en_items (l : list (string * valor)) : bool :=
         match l with
         | [] => false
         | (key, value) :: resto =>
             String.eqb key clave || contiene_clave value clave || en_items resto
         end) items
  | VList elems =>
      (fix en_lista (l : list valor) : bool :=
         match l with
         | [] => false
         | item :: resto => contiene_clave item clave || en_lista resto
         end) elems
  | _ => false
  end.

Section Normalizador.

(** Library functions the module calls, taken as given:
    - [xmltodict_parse]: [xmltodict.parse] on the payload;
    - [float_de_str]: the builtin [float] on a [str], [None] when it raises
      [ValueError];
    - [strptime_ymd]: [datetime.strptime(s, "%Y-%m-%d").date()] on a [str];
    - [repr_contenedor]: [str] of a [dict] or a [list];
    - [strip]: [str.strip]. *)
Variable xmltodict_parse : list Byte.byte -> resultado valor.
Variable float_de_str : string -> option float.
Variable strptime_ymd : string -> resultado date.
Variable repr_contenedor : valor -> string.
Variable strip : string -> string.

(** The builtin [float(value)]. *)
Definition py_float (value : valor) : resultado float :=
  match value with
  | VStr s =>
      match float_de_str s with
      | Some f => Retorna f
      | None => Lanza (Exc ValueError ("could not convert string to float: '" ++ s ++ "'"))
      end
  | VNone =>
      Lanza (Exc TypeError "float() argument must be a string or a real number, not 'NoneType'")
  | VDict _ =>
      Lanza (Exc TypeError "float() argument must be a string or a real number, not 'dict'")
  | VList _ =>
      Lanza (Exc TypeError "float() argument must be a string or a real number, not 'list'")
  end.

(** [try: return float(value) / except (TypeError, ValueError): return 0.0] *)
Definition _safe_float (value : valor) : resultado float :=
  match py_float value with
  | Retorna f => Retorna f
  | Lanza e =>
      match clase e with
      | TypeError | ValueError => Retorna cero
      | _ => Lanza e
      end
  end.

(** The builtin [str(value)]. *)
Definition py_str (value : valor) : string :=
  match value with
  | VStr s => s
  | VNone => "None"
  | _ => repr_contenedor value
  end.

(** [datetime.strptime(fecha, "%Y-%m-%d").date()] *)
Definition strptime (fecha : valor) : resultado date :=
  match fecha with
  | VStr s => strptime_ymd s
  | VNone => Lanza (Exc TypeError "strptime() argument 1 must be str, not None")
  | VDict _ => Lanza (Exc TypeError "strptime() argument 1 must be str, not dict")
  | VList _ => Lanza (Exc TypeError "strptime() argument 1 must be str, not list")
  end.

Definition sin_encabezado : excepcion :=
  Exc ValueError "No se encontró nodo 'Encabezado' en el XML".

(** The body of the [try] block of [parsear_dte_xml]. *)
Definition cuerpo_parsear (xml_bytes : list Byte.byte) (nombre_archivo : string)
  : resultado Documento :=
  data <- xmltodict_parse xml_bytes ;;
  let encabezado := _buscar_nodo_recursivo data "Encabezado" in
  if negb (truthy encabezado) then Lanza sin_encabezado
  else
    id_doc <- get encabezado "IdDoc" (VDict []) ;;
    emisor <- get encabezado "Emisor" (VDict []) ;;
    totales <- get encabezado "Totales" (VDict []) ;;
    fecha <- get id_doc "FchEmis" VNone ;;
    fecha_emision <- strptime fecha ;;
    v_folio <- get id_doc "Folio" (VStr "") ;;
    v_tipo <- get id_doc "TipoDTE" (VStr "") ;;
    v_rut <- get emisor "RUTEmisor" (VStr "") ;;
    v_razon <- get emisor "RznSoc" (VStr "Proveedor sin nombre") ;;
    v_neto <- get totales "MntNeto" VNone ;;
    neto <- _safe_float v_neto ;;
    v_iva <- get totales "IVA" VNone ;;
    iva <- _safe_float v_iva ;;
    v_total <- get totales "MntTotal" VNone ;;
    total <- _safe_float v_total ;;
    Retorna {| folio := strip (py_str v_folio);
               tipo_dte := strip (py_str v_tipo);
               fecha_emision := fecha_emision;
               rut_emisor := strip (py_str v_rut);
               razon_social := Some (strip (py_str v_razon));
               monto_neto := neto;
               monto_iva := iva;
               monto_total := total;
               url_archivo := nombre_archivo |}.

(** [except Exception as exc: raise ValueError(f"No se pudo procesar ...")] *)
Definition error_de_proceso (nombre_archivo : string) (exc : excepcion) : excepcion :=
  Exc ValueError ("No se pudo procesar " ++ nombre_archivo ++ ": " ++ mensaje exc).

Definition parsear_dte_xml (xml_bytes : list Byte.byte) (nombre_archivo : string)
  : resultado Documento :=
  match cuerpo_parsear xml_bytes nombre_archivo with
  | Retorna documento => Retorna documento
  | Lanza exc => Lanza (error_de_proceso nombre_archivo exc)
  end.

(** The value [d.get(clave, default)] hands to [str]. *)
Definition texto_o (campo : option valor) (default : string) : valor :=
  match campo with
  | Some v => v
  | None => VStr default
  end.

(** What the lenient coercion is to yield for a monetary field of the
    totals node: [0.0] when the field is absent or is not a number, the
    number it spells otherwise. *)
Definition monto_tolerante (campo : option valor) : float :=
  match campo with
  | Some (VStr s) =>
      match float_de_str s with
      | Some f => f
      | None => cero
      end
  | _ => cero
  end.

(** The payload parses, the search finds a header that is a non-empty
    mapping, each of its children [IdDoc], [Emisor] and [Totales] is a
    mapping (the empty one when the child is absent), and [IdDoc] has an
    issue date that [strptime] reads. *)
Definition encabezado_legible (xml_bytes : list Byte.byte)
    (id_doc emisor totales : list (string * valor)) (fecha : date) : Prop :=
  exists (data : valor) (encabezado : list (string * valor)) (s : string),
    xmltodict_parse xml_bytes = Retorna data /\
    _buscar_nodo_recursivo data "Encabezado" = VDict encabezado /\
    encabezado <> [] /\
    get (VDict encabezado) "IdDoc" (VDict []) = Retorna (VDict id_doc) /\
    get (VDict encabezado) "Emisor" (VDict []) = Retorna (VDict emisor) /\
    get (VDict encabezado) "Totales" (VDict []) = Retorna (VDict totales) /\
    buscar_item "FchEmis" id_doc = Some (VStr s) /\
    strptime_ymd s = Retorna fecha.

End Normalizador.

End ProcesadorXml.

(** * db_config.py *)

Module TblPlanCuentas.
Record fila : Type := Fila {
  id_cuenta : Z;
  codigo : string;
  nombre : string;
  tipo : string
}.
End TblPlanCuentas.

Module TblProveedores.
Record fila : Type := Fila {
  rut : string;
  razon_social : string;
  cuenta_contable_default_id : option Z
}.
End TblProveedores.

Module TblDocumentos.
Record fila : Type := Fila {
  id : Z;
  folio : string;
  tipo_dte : string;
  fecha_emision : date;
  rut_emisor : string;
  monto_neto : float;
  monto_iva : float;
  monto_total : float;
  url_archivo : string
}.
End TblDocumentos.

Module TblAsientos.
Record fila : Type := Fila {
  id : Z;
  id_documento : Z;
  fecha : date
}.
End TblAsientos.

Module TblMovimientosContables.
Record fila : Type := Fila {
  id : Z;
  id_asiento : Z;
  id_cuenta : Z;
  debe : float;
  haber : float;
  glosa : string
}.
End TblMovimientosContables.

(** The store: one list of rows per table, in insertion order. *)
Record BaseDatos : Type := {
  plan_cuentas : list TblPlanCuentas.fila;
  proveedores : list TblProveedores.fila;
  documentos : list TblDocumentos.fila;
  asientos : list TblAsientos.fila;
  movimientos : list TblMovimientosContables.fila
}.

(** A session computation: from the store it sees, its outcome and the
    store the session has reached when it returns or raises. *)
Definition Tx (A : Type) : Type := BaseDatos -> resultado A * BaseDatos.

Definition ret {A : Type} (a : A) : Tx A := fun db => (Retorna a, db).

Definition bind_tx {A B : Type} (m : Tx A) (k : A -> Tx B) : Tx B :=
  fun db =>
    match m db with
    | (Retorna a, db') => k a db'
    | (Lanza e, db') => (Lanza e, db')
    end.

Notation "x <-- m ;; k" := (bind_tx m (fun x => k))
  (at level 61, m at next level, right associativity) : py_scope.

(** [with SessionLocal.begin() as session: ...]: commit when the body
    returns, roll back to the store of entry when it raises. *)
Definition SessionLocal_begin {A : Type} (cuerpo : Tx A) : Tx A :=
  fun db =>
    match cuerpo db with
    | (Retorna a, db') => (Retorna a, db')
    | (Lanza e, _) => (Lanza e, db)
    end.

(** The key an integer primary key receives on INSERT: one more than the
    largest in the table, 1 in an empty table. *)
Definition siguiente_id (ids : list Z) : Z := 1 + fold_right Z.max 0 ids.

(** The columns of [UniqueConstraint("folio", "rut_emisor", "tipo_dte")]. *)
Definition misma_clave (f r t : string) (d : TblDocumentos.fila) : bool :=
  String.eqb (TblDocumentos.folio d) f
  && String.eqb (TblDocumentos.rut_emisor d) r
  && String.eqb (TblDocumentos.tipo_dte d) t.

(** * logica_contable.py *)

Module LogicaContable.

Import TblMovimientosContables.

(** The dictionaries the two functions return. *)
Inductive respuesta : Type :=
| Ok (documento_id asiento_id : Z)
| Duplicado (motivo : string).

(** [session.query(TblPlanCuentas).filter(TblPlanCuentas.nombre == nombre).first()] *)
Definition cuenta_por_nombre (nombre : string) (db : BaseDatos) : option TblPlanCuentas.fila :=
  find (fun c => String.eqb (TblPlanCuentas.nombre c) nombre) (plan_cuentas db).

Definition _obtener_cuenta_por_nombre (nombre : string) : Tx TblPlanCuentas.fila :=
  fun db =>
    match cuenta_por_nombre nombre db with
    | Some cuenta => (Retorna cuenta, db)
    | None => (Lanza (Exc ValueError ("No existe la cuenta obligatoria: " ++ nombre)), db)
    end.

(** [session.get(TblProveedores, rut)] *)
Definition proveedor_por_rut (rut : string) (db : BaseDatos) : option TblProveedores.fila :=
  find (fun p => String.eqb (TblProveedores.rut p) rut) (proveedores db).

Definition session_get (rut : string) : Tx (option TblProveedores.fila) :=
  fun db => (Retorna (proveedor_por_rut rut db), db).

(** [session.add(proveedor); session.flush()]: the INSERT, under the primary
    key of [Tbl_Proveedores]. *)
Definition insertar_proveedor (p : TblProveedores.fila) : Tx unit :=
  fun db =>
    match proveedor_por_rut (TblProveedores.rut p) db with
    | Some _ =>
        (Lanza (Exc IntegrityError "UNIQUE constraint failed: Tbl_Proveedores.rut"), db)
    | None =>
        (Retorna tt,
         {| plan_cuentas := plan_cuentas db;
            proveedores := proveedores db ++ [p];
            documentos := documentos db;
            asientos := asientos db;
            movimientos := movimientos db |})
    end.

(** [TblDocumentos] called with the dictionary unpacked as keyword
    arguments.  The constructor the declarative base gives a mapped class
    takes keyword arguments and raises [TypeError] at a keyword that is not
    an attribute of the class.  [TblDocumentos] maps the columns [id],
    [folio], [tipo_dte], [fecha_emision], [rut_emisor], [monto_neto],
    [monto_iva], [monto_total] and [url_archivo]; it has no [razon_social].
    The row has no [id] until it is flushed. *)
Definition nuevo_TblDocumentos (documento : Documento)
  : resultado (Z -> TblDocumentos.fila) :=
  match razon_social documento with
  | Some _ =>
      Lanza (Exc TypeError "'razon_social' is an invalid keyword argument for TblDocumentos")
  | None =>
      Retorna (fun id =>
        TblDocumentos.Fila id (folio documento) (tipo_dte documento)
          (fecha_emision documento) (rut_emisor documento)
          (monto_neto documento) (monto_iva documento) (monto_total documento)
          (url_archivo documento))
  end.

Definition construir {A : Type} (r : resultado A) : Tx A := fun db => (r, db).

(** A float that is not a number.  SQLite binds it as NULL. *)
Definition es_nan (x : float) : bool :=
  match x with
  | S754_nan => true
  | _ => false
  end.

(** A record one of whose amounts is not a number. *)
Definition con_nan (documento : Documento) : bool :=
  es_nan (monto_neto documento) || es_nan (monto_iva documento)
  || es_nan (monto_total documento).

(** [session.add(doc_db); session.flush()]: the INSERT; returns the new
    [doc_db.id].  The columns are all [nullable=False]: the fields of the
    record are never [None], but an amount that is not a number reaches the
    table as NULL and the INSERT fails at the first such column.  The store
    checks [uq_doc_folio_rut_tipo] after that.  Both failures are
    [IntegrityError]. *)
Definition insertar_documento (nuevo : Z -> TblDocumentos.fila) : Tx Z :=
  fun db =>
    let id := siguiente_id (map TblDocumentos.id (documentos db)) in
    let doc_db := nuevo id in
    if es_nan (TblDocumentos.monto_neto doc_db) then
      (Lanza (Exc IntegrityError "NOT NULL constraint failed: Tbl_Documentos.monto_neto"), db)
    else if es_nan (TblDocumentos.monto_iva doc_db) then
      (Lanza (Exc IntegrityError "NOT NULL constraint failed: Tbl_Documentos.monto_iva"), db)
    else if es_nan (TblDocumentos.monto_total doc_db) then
      (Lanza (Exc IntegrityError "NOT NULL constraint failed: Tbl_Documentos.monto_total"), db)
    else
    if existsb (misma_clave (TblDocumentos.folio doc_db)
                            (TblDocumentos.rut_emisor doc_db)
                            (TblDocumentos.tipo_dte doc_db))
               (documentos db)
    then
      (Lanza (Exc IntegrityError
         "UNIQUE constraint failed: Tbl_Documentos.folio, Tbl_Documentos.rut_emisor, Tbl_Documentos.tipo_dte"),
       db)
    else
      (Retorna id,
       {| plan_cuentas := plan_cuentas db;
          proveedores := proveedores db;
          documentos := documentos db ++ [doc_db];
          asientos := asientos db;
          movimientos := movimientos db |}).

(** [session.add(asiento); session.flush()]; returns the new [asiento.id]. *)
Definition insertar_asiento (id_documento : Z) (fecha : date) : Tx Z :=
  fun db =>
    let id := siguiente_id (map TblAsientos.id (asientos db)) in
    (Retorna id,
     {| plan_cuentas := plan_cuentas db;
        proveedores := proveedores db;
        documentos := documentos db;
        asientos := asientos db ++ [TblAsientos.Fila id id_documento fecha];
        movimientos := movimientos db |}).

(** One INSERT into [Tbl_Movimientos_Contables].  Its amounts are those of
    the document, which is in the table by then, or [0.0]. *)
Definition insertar_movimiento (nuevo : Z -> fila) (db : BaseDatos) : BaseDatos :=
  let id := siguiente_id (map TblMovimientosContables.id (movimientos db)) in
  {| plan_cuentas := plan_cuentas db;
     proveedores := proveedores db;
     documentos := documentos db;
     asientos := asientos db;
     movimientos := movimientos db ++ [nuevo id] |}.

(** [session.add_all(movimientos)]: the rows are inserted, in the order of
    the list, by the flush of the commit that ends the block. *)
Definition session_add_all (nuevos : list (Z -> fila)) : Tx unit :=
  fun db => (Retorna tt, fold_left (fun d nuevo => insertar_movimiento nuevo d) nuevos db).

(** [a or b] where [a] is an [Optional[int]]: [None] and [0] are false. *)
Definition o_bien (a : option Z) (b : Z) : Z :=
  match a with
  | Some x => if Z.eqb x 0 then b else x
  | None => b
  end.

(** [documento.get("razon_social", "Proveedor sin nombre")] *)
Definition razon_social_o_defecto (documento : Documento) : string :=
  match razon_social documento with
  | Some s => s
  | None => "Proveedor sin nombre"
  end.

Definition GASTOS_DEFAULT : string := "Gastos Generales (Por Clasificar)".
Definition IVA_CREDITO : string := "IVA Crédito Fiscal".
Definition PROVEEDORES_POR_PAGAR : string := "Proveedores por Pagar".

Definition glosa_base (documento : Documento) (proveedor : TblProveedores.fila) : string :=
  "Compra DTE " ++ tipo_dte documento ++ " Folio " ++ folio documento
    ++ " - " ++ TblProveedores.razon_social proveedor.

(** The body of the [with] block of [generar_asiento]. *)
Definition cuerpo_generar_asiento (documento : Documento) : Tx respuesta :=
  proveedor <-- session_get (rut_emisor documento) ;;
  cuenta_gastos_default <-- _obtener_cuenta_por_nombre GASTOS_DEFAULT ;;
  cuenta_iva <-- _obtener_cuenta_por_nombre IVA_CREDITO ;;
  cuenta_proveedores <-- _obtener_cuenta_por_nombre PROVEEDORES_POR_PAGAR ;;
  proveedor <--
    match proveedor with
    | Some p => ret p
    | None =>
        let p := TblProveedores.Fila
                   (rut_emisor documento)
                   (razon_social_o_defecto documento)
                   (Some (TblPlanCuentas.id_cuenta cuenta_gastos_default)) in
        _ <-- insertar_proveedor p ;;
        ret p
    end ;;
  let id_cuenta_gasto :=
    o_bien (TblProveedores.cuenta_contable_default_id proveedor)
           (TblPlanCuentas.id_cuenta cuenta_gastos_default) in
  doc_db <-- construir (nuevo_TblDocumentos documento) ;;
  doc_db_id <-- insertar_documento doc_db ;;
  asiento_id <-- insertar_asiento doc_db_id (fecha_emision documento) ;;
  let base := glosa_base documento proveedor in
  _ <-- session_add_all
          [ (fun id => Fila id asiento_id id_cuenta_gasto
                         (monto_neto documento) cero (base ++ " | Gasto Neto"));
            (fun id => Fila id asiento_id (TblPlanCuentas.id_cuenta cuenta_iva)
                         (monto_iva documento) cero (base ++ " | IVA Crédito Fiscal"));
            (fun id => Fila id asiento_id (TblPlanCuentas.id_cuenta cuenta_proveedores)
                         cero (monto_total documento) (base ++ " | Proveedores por Pagar")) ] ;;
  ret (Ok doc_db_id asiento_id).

Definition generar_asiento (documento : Documento) : Tx respuesta :=
  SessionLocal_begin (cuerpo_generar_asiento documento).

(** [try: return ... / except IntegrityError: return {"status": "duplicado", ...}] *)
Definition controlar_duplicado (operacion : Tx respuesta) : Tx respuesta :=
  fun db =>
    match operacion db with
    | (Retorna r, db') => (Retorna r, db')
    | (Lanza e, db') =>
        match clase e with
        | IntegrityError =>
            (Retorna (Duplicado "Documento ya existe (folio, rut, tipo_dte)"), db')
        | _ => (Lanza e, db')
        end
    end.

Definition procesar_documento_con_control_duplicado (documento : Documento) : Tx respuesta :=
  controlar_duplicado (generar_asiento documento).

(** Sum of a column over rows, as [sum(...)] adds: from 0, left to right. *)
Definition suma (xs : list float) : float := fold_left fadd xs cero.

(** The rows a call appended to [Tbl_Movimientos_Contables]. *)
Definition movimientos_creados (antes despues : BaseDatos) : list fila :=
  skipn (length (movimientos antes)) (movimientos despues).

(** The movements of a ledger entry. *)
Definition movimientos_de (asiento_id : Z) (db : BaseDatos) : list fila :=
  filter (fun m => Z.eqb (id_asiento m) asiento_id) (movimientos db).

Definition documentos_con_clave (f r t : string) (db : BaseDatos) : list TblDocumentos.fila :=
  filter (misma_clave f r t) (documentos db).

Definition asientos_de (documento_id : Z) (db : BaseDatos) : list TblAsientos.fila :=
  filter (fun a => Z.eqb (TblAsientos.id_documento a) documento_id) (asientos db).

(** The supplier row a posting works with: the one in the store, or the one
    it creates for an issuer it does not know. *)
Definition proveedor_vigente (documento : Documento) (cuenta_gastos_default : TblPlanCuentas.fila)
    (db : BaseDatos) : TblProveedores.fila :=
  match proveedor_por_rut (rut_emisor documento) db with
  | Some p => p
  | None =>
      TblProveedores.Fila (rut_emisor documento) (razon_social_o_defecto documento)
        (Some (TblPlanCuentas.id_cuenta cuenta_gastos_default))
  end.

(** The three business-rule accounts, in the order they are resolved. *)
Definition cuentas_obligatorias : list string :=
  [GASTOS_DEFAULT; IVA_CREDITO; PROVEEDORES_POR_PAGAR].

(** Referential integrity of the store, as its schema declares it: account
    keys are positive (they are assigned by the store), a supplier's default
    account is an account of the chart, a movement belongs to an entry and an
    entry to a document of the store. *)
Definition bien_formada (db : BaseDatos) : Prop :=
  (forall c, In c (plan_cuentas db) -> 0 < TblPlanCuentas.id_cuenta c) /\
  (forall p a, In p (proveedores db) ->
     TblProveedores.cuenta_contable_default_id p = Some a ->
     In a (map TblPlanCuentas.id_cuenta (plan_cuentas db))) /\
  (forall m, In m (movimientos db) ->
     In (id_asiento m) (map TblAsientos.id (asientos db))) /\
  (forall a, In a (asientos db) ->
     In (TblAsientos.id_documento a) (map TblDocumentos.id (documentos db))).

(** Proof steps that follow the body after the supplier: the INSERT of the
    document, then those of the entry and of its movements. *)
Ltac insertar_el_documento :=
  unfold insertar_documento;
  cbn [TblDocumentos.folio TblDocumentos.rut_emisor TblDocumentos.tipo_dte
       TblDocumentos.monto_neto TblDocumentos.monto_iva TblDocumentos.monto_total documentos].

(** The three amounts, in the order of the columns: a goal where one is
    not a number is left to [tac]. *)
Ltac montos_del_documento documento tac :=
  destruct (es_nan (monto_neto documento)) eqn:?Hneto; [tac|];
  destruct (es_nan (monto_iva documento)) eqn:?Hiva; [tac|];
  destruct (es_nan (monto_total documento)) eqn:?Htotal; [tac|].

Ltac insertar_el_asiento :=
  unfold insertar_asiento, session_add_all;
  cbn [fold_left]; unfold insertar_movimiento;
  cbn [plan_cuentas proveedores documentos asientos movimientos].

End LogicaContable.

(** * Concrete data: the scenario of the DTE 33, folio 123 *)

Module Ejemplos.

Import ProcesadorXml LogicaContable.

(** Instances of the library functions, enough for the documents below:
    a reader of unsigned decimal integers for [float], a reader of
    [dddd-dd-dd] for [strptime], blanks removed at both ends for [strip]. *)

Definition es_digito (c : ascii) : bool :=
  let n := N_of_ascii c in (48 <=? n)%N && (n <=? 57)%N.

Definition valor_digito (c : ascii) : Z := Z.of_N (N_of_ascii c) - 48.

Fixpoint leer_decimal (acc : Z) (s : string) : option Z :=
  match s with
  | EmptyString => Some acc
  | String c resto =>
      if es_digito c then leer_decimal (10 * acc + valor_digito c) resto else None
  end.

Definition entero_de_str (s : string) : option Z :=
  match s with
  | EmptyString => None
  | _ => leer_decimal 0 s
  end.

Definition float_decimal (s : string) : option float :=
  option_map float_de_Z (entero_de_str s).

Definition fecha_ymd (s : string) : resultado date :=
  let mal := Lanza (Exc ValueError
               ("time data '" ++ s ++ "' does not match format '%Y-%m-%d'")) in
  match entero_de_str (substring 0 4 s),
        entero_de_str (substring 5 2 s),
        entero_de_str (substring 8 2 s) with
  | Some y, Some m, Some d =>
      if (String.length s =? 10)%nat
         && String.eqb (substring 4 1 s) "-" && String.eqb (substring 7 1 s) "-"
         && (1 <=? m)%Z && (m <=? 12)%Z && (1 <=? d)%Z && (d <=? 31)%Z
      then Retorna (Fecha y m d)
      else mal
  | _, _, _ => mal
  end.

Definition es_blanco (c : ascii) : bool :=
  let n := N_of_ascii c in ((9 <=? n)%N && (n <=? 13)%N) || (n =? 32)%N.

Fixpoint lstrip (s : string) : string :=
  match s with
  | String c resto => if es_blanco c then lstrip resto else s
  | EmptyString => EmptyString
  end.

Fixpoint invertir (acc s : string) : string :=
  match s with
  | EmptyString => acc
  | String c resto => invertir (String c acc) resto
  end.

Definition quitar_blancos (s : string) : string :=
  invertir "" (lstrip (invertir "" (lstrip s))).

Definition repr_simple (v : valor) : string :=
  match v with
  | VDict [] => "{}"
  | VList [] => "[]"
  | VDict _ => "{...}"
  | VList _ => "[...]"
  | VStr s => "'" ++ s ++ "'"
  | VNone => "None"
  end.

(** The header of the scenario and trees around it. *)
Definition id_doc_123 : valor :=
  VDict [("TipoDTE", VStr "33"); ("Folio", VStr "123"); ("FchEmis", VStr "2024-05-01")].

Definition emisor_acme : valor :=
  VDict [("RUTEmisor", VStr "76543210-1"); ("RznSoc", VStr "Acme")].

Definition totales_1190 : valor :=
  VDict [("MntNeto", VStr "1000"); ("IVA", VStr "190"); ("MntTotal", VStr "1190")].

Definition envolver (encabezado : valor) : valor :=
  VDict [("DTE", VDict [("@version", VStr "1.0");
                        ("Documento", VDict [("@ID", VStr "F123T33");
                                             ("Encabezado", encabezado)])])].

Definition arbol_escenario : valor :=
  envolver (VDict [("IdDoc", id_doc_123); ("Emisor", emisor_acme); ("Totales", totales_1190)]).

(** The totals node has no [IVA] and a net amount that is not a number. *)
Definition arbol_sin_iva : valor :=
  envolver (VDict [("IdDoc", id_doc_123); ("Emisor", emisor_acme);
                   ("Totales", VDict [("MntNeto", VStr "mil"); ("MntTotal", VStr "1190")])]).

(** [<Totales/>]: an element without content parses to [None]. *)
Definition arbol_totales_vacio : valor :=
  envolver (VDict [("IdDoc", id_doc_123); ("Emisor", emisor_acme); ("Totales", VNone)]).

(** No [Totales] element at all. *)
Definition arbol_sin_totales : valor :=
  envolver (VDict [("IdDoc", id_doc_123); ("Emisor", emisor_acme)]).

(** Only the issue date: no folio, no type, no issuer. *)
Definition arbol_solo_fecha : valor :=
  envolver (VDict [("IdDoc", VDict [("FchEmis", VStr "2024-05-01")])]).

(** [<Emisor/>] and only the issue date. *)
Definition arbol_emisor_vacio : valor :=
  envolver (VDict [("IdDoc", VDict [("FchEmis", VStr "2024-05-01")]); ("Emisor", VNone)]).

(** [<Encabezado/>]. *)
Definition arbol_encabezado_vacio : valor := envolver VNone.

(** No header anywhere. *)
Definition arbol_sin_encabezado : valor :=
  VDict [("DTE", VDict [("Documento", VList [VStr "a"; VDict [("Detalle", VNone)]])])].

Definition arbol_sin_fecha : valor :=
  envolver (VDict [("IdDoc", VDict [("Folio", VStr "123")]); ("Emisor", emisor_acme)]).

Definition arbol_fecha_ilegible : valor :=
  envolver (VDict [("IdDoc", VDict [("Folio", VStr "123"); ("FchEmis", VStr "01/05/2024")])]).

(** A parser for the examples: the payload selects one of the trees above by
    its first byte; the empty payload is malformed. *)
Definition parse_ejemplo (xml_bytes : list Byte.byte) : resultado valor :=
  match xml_bytes with
  | [] => Lanza (Exc ExpatError "no element found: line 1, column 0")
  | b :: _ =>
      match Byte.to_N b with
      | 0%N => Retorna arbol_escenario
      | 1%N => Retorna arbol_sin_iva
      | 2%N => Retorna arbol_totales_vacio
      | 3%N => Retorna arbol_sin_totales
      | 4%N => Retorna arbol_solo_fecha
      | 5%N => Retorna arbol_emisor_vacio
      | 6%N => Retorna arbol_encabezado_vacio
      | 7%N => Retorna arbol_sin_fecha
      | 8%N => Retorna arbol_fecha_ilegible
      | _ => Retorna arbol_sin_encabezado
      end
  end.

Definition parsear_ejemplo : list Byte.byte -> string -> resultado Documento :=
  parsear_dte_xml parse_ejemplo float_decimal fecha_ymd repr_simple quitar_blancos.

(** The record the scenario normalizes to. *)
Definition doc_escenario : Documento :=
  {| folio := "123"; tipo_dte := "33"; fecha_emision := Fecha 2024 5 1;
     rut_emisor := "76543210-1"; razon_social := Some "Acme";
     monto_neto := float_de_Z 1000; monto_iva := float_de_Z 190;
     monto_total := float_de_Z 1190; url_archivo := "f123.xml" |}.

(** The same record without the ["razon_social"] key. *)
Definition doc_sin_razon : Documento :=
  {| folio := "123"; tipo_dte := "33"; fecha_emision := Fecha 2024 5 1;
     rut_emisor := "76543210-1"; razon_social := None;
     monto_neto := float_de_Z 1000; monto_iva := float_de_Z 190;
     monto_total := float_de_Z 1190; url_archivo := "f123.xml" |}.

(** The same record again, with a net amount that is not a number. *)
Definition doc_monto_nan : Documento :=
  {| folio := "123"; tipo_dte := "33"; fecha_emision := Fecha 2024 5 1;
     rut_emisor := "76543210-1"; razon_social := None;
     monto_neto := S754_nan; monto_iva := float_de_Z 190;
     monto_total := float_de_Z 1190; url_archivo := "f123.xml" |}.

(** The chart of accounts, seeded; nothing else in the store. *)
Definition cuenta_gastos : TblPlanCuentas.fila :=
  TblPlanCuentas.Fila 1 "5101" "Gastos Generales (Por Clasificar)" "Gasto".
Definition cuenta_iva : TblPlanCuentas.fila :=
  TblPlanCuentas.Fila 2 "1105" "IVA Crédito Fiscal" "Activo".
Definition cuenta_proveedores : TblPlanCuentas.fila :=
  TblPlanCuentas.Fila 3 "2101" "Proveedores por Pagar" "Pasivo".
Definition cuenta_arriendos : TblPlanCuentas.fila :=
  TblPlanCuentas.Fila 4 "5102" "Arriendos" "Gasto".

Definition db_sembrada : BaseDatos :=
  {| plan_cuentas := [cuenta_gastos; cuenta_iva; cuenta_proveedores; cuenta_arriendos];
     proveedores := []; documentos := []; asientos := []; movimientos := [] |}.

(** The supplier is known and classified under "Arriendos". *)
Definition db_con_proveedor : BaseDatos :=
  {| plan_cuentas := [cuenta_gastos; cuenta_iva; cuenta_proveedores; cuenta_arriendos];
     proveedores := [TblProveedores.Fila "76543210-1" "Acme" (Some 4)];
     documentos := []; asientos := []; movimientos := [] |}.

(** "Proveedores por Pagar" was not seeded. *)
Definition db_sin_por_pagar : BaseDatos :=
  {| plan_cuentas := [cuenta_gastos; cuenta_iva; cuenta_arriendos];
     proveedores := []; documentos := []; asientos := []; movimientos := [] |}.

(** The document is in the store, its supplier is not. *)
Definition db_con_documento : BaseDatos :=
  {| plan_cuentas := [cuenta_gastos; cuenta_iva; cuenta_proveedores; cuenta_arriendos];
     proveedores := [];
     documentos := [TblDocumentos.Fila 1 "123" "33" (Fecha 2024 5 1) "76543210-1"
                      (float_de_Z 1000) (float_de_Z 190) (float_de_Z 1190) "f123.xml"];
     asientos := []; movimientos := [] |}.

(** The store after the record without ["razon_social"] is posted to the
    seeded store, and after it is posted where its supplier is classified. *)
Definition db_tras_posteo : BaseDatos :=
  snd (generar_asiento doc_sin_razon db_sembrada).

Definition db_tras_posteo_clasificado : BaseDatos :=
  snd (generar_asiento doc_sin_razon db_con_proveedor).

End Ejemplos.

(** * The search, seen from the tree *)

Module Arbol.

Import ProcesadorXml.

(** The values the items keyed [clave] have, anywhere in the tree, in
    document order. *)
Fixpoint valores_de_clave (data : valor) (clave : string) : list valor :=
  match data with
  | VDict items =>
      (fix en_items (l : list (string * valor)) : list valor :=
         match l with
         | [] => []
         | (key, value) :: resto =>
             (if String.eqb key clave then [value] else [])
               ++ valores_de_clave value clave ++ en_items resto
         end) items
  | VList elems =>
      (fix en_lista (l : list valor) : list valor :=
         match l with
         | [] => []
         | item :: resto => valores_de_clave item clave ++ en_lista resto
         end) elems
  | _ => []
  end.

End Arbol.

(** * The record of a legible header *)

Module Registro.

Import ProcesadorXml.

Section Campos.

Variable float_de_str : string -> option float.
Variable repr_contenedor : valor -> string.
Variable strip : string -> string.

(** The dictionary [parsear_dte_xml] returns, field by field as the source
    builds it from the three children of the header and the issue date. *)
Definition registro_de (nombre_archivo : string)
    (id_doc emisor totales : list (string * valor)) (fecha : date) : Documento :=
  {| folio := strip (py_str repr_contenedor (texto_o (buscar_item "Folio" id_doc) ""));
     tipo_dte := strip (py_str repr_contenedor (texto_o (buscar_item "TipoDTE" id_doc) ""));
     fecha_emision := fecha;
     rut_emisor := strip (py_str repr_contenedor (texto_o (buscar_item "RUTEmisor" emisor) ""));
     razon_social :=
       Some (strip (py_str repr_contenedor
                      (texto_o (buscar_item "RznSoc" emisor) "Proveedor sin nombre")));
     monto_neto := monto_tolerante float_de_str (buscar_item "MntNeto" totales);
     monto_iva := monto_tolerante float_de_str (buscar_item "IVA" totales);
     monto_total := monto_tolerante float_de_str (buscar_item "MntTotal" totales);
     url_archivo := nombre_archivo |}.

End Campos.

End Registro.

(** * Invariants of the store *)

Module Esquema.

Import LogicaContable.

(** The deduplication key of a stored document. *)
Definition clave_de (d : TblDocumentos.fila) : string * string * string :=
  (TblDocumentos.folio d, TblDocumentos.rut_emisor d, TblDocumentos.tipo_dte d).

(** The keys the schema declares unique are so: the primary key of each
    table, the code of the accounts and (folio, rut_emisor, tipo_dte) of
    the documents. *)
Definition llaves_unicas (db : BaseDatos) : Prop :=
  NoDup (map TblPlanCuentas.id_cuenta (plan_cuentas db)) /\
  NoDup (map TblPlanCuentas.codigo (plan_cuentas db)) /\
  NoDup (map TblProveedores.rut (proveedores db)) /\
  NoDup (map TblDocumentos.id (documentos db)) /\
  NoDup (map clave_de (documentos db)) /\
  NoDup (map TblAsientos.id (asientos db)) /\
  NoDup (map TblMovimientosContables.id (movimientos db)).

End Esquema.

(** * db_config.py: the seed of the chart of accounts *)

(** What the statements of [db_config.py] and [app.py] raise: the
    [KeyError] of a subscript with a key the mapping lacks, or an exception
    of the modules above. *)
Inductive error_py : Type :=
| KeyError (clave : string)
| Error (e : excepcion).

Inductive desenlace (A : Type) : Type :=
| Bien (a : A)
| Falla (e : error_py).
Arguments Bien {A} a.
Arguments Falla {A} e.

Module DbConfig.

(** A row of [csv.DictReader]: the mapping from the names of the header to
    the fields of the line, [None] for a name the line is too short to
    reach.  The item a longer line has under the key [None] is not read by
    the code and is left out. *)
Definition fila_csv : Type := list (string * option string).

(** [row[clave]] *)
Definition subscript (row : fila_csv) (clave : string) : desenlace (option string) :=
  match find (fun kv => String.eqb (fst kv) clave) row with
  | Some kv => Bien (snd kv)
  | None => Falla (KeyError clave)
  end.

(** [session.query(TblPlanCuentas).filter(TblPlanCuentas.codigo == codigo).first()];
    compared with [None] the filter is [codigo IS NULL], which no row of a
    [nullable=False] column satisfies. *)
Definition cuenta_por_codigo (codigo : option string) (db : BaseDatos)
  : option TblPlanCuentas.fila :=
  match codigo with
  | Some c => find (fun f => String.eqb (TblPlanCuentas.codigo f) c) (plan_cuentas db)
  | None => None
  end.

(** [session.add(TblPlanCuentas(codigo=..., nombre=..., tipo=...)); session.commit()]:
    the INSERT, under the [nullable=False] of the three columns, checked in
    the order of the columns, and the [unique=True] of [codigo]. *)
Definition insertar_cuenta (codigo nombre tipo : option string) : Tx unit :=
  fun db =>
    match codigo, nombre, tipo with
    | None, _, _ =>
        (Lanza (Exc IntegrityError "NOT NULL constraint failed: Tbl_PlanCuentas.codigo"), db)
    | Some _, None, _ =>
        (Lanza (Exc IntegrityError "NOT NULL constraint failed: Tbl_PlanCuentas.nombre"), db)
    | Some _, Some _, None =>
        (Lanza (Exc IntegrityError "NOT NULL constraint failed: Tbl_PlanCuentas.tipo"), db)
    | Some c, Some n, Some t =>
        if existsb (fun f => String.eqb (TblPlanCuentas.codigo f) c) (plan_cuentas db)
        then (Lanza (Exc IntegrityError "UNIQUE constraint failed: Tbl_PlanCuentas.codigo"), db)
        else
          (Retorna tt,
           {| plan_cuentas :=
                plan_cuentas db ++
                  [TblPlanCuentas.Fila
                     (siguiente_id (map TblPlanCuentas.id_cuenta (plan_cuentas db))) c n t];
              proveedores := proveedores db;
              documentos := documentos db;
              asientos := asientos db;
              movimientos := movimientos db |})
    end.

Definition _upsert_cuenta (codigo nombre tipo : option string) : Tx unit :=
  fun db =>
    match cuenta_por_codigo codigo db with
    | Some _ => (Retorna tt, db)
    | None => insertar_cuenta codigo nombre tipo db
    end.

(** The loop of [seed_plan_cuentas] over the rows of the reader.  Every
    [_upsert_cuenta] commits in a session of its own: what a row inserted
    stays when a later row raises. *)
Fixpoint sembrar (reader : list fila_csv) (db : BaseDatos) : desenlace unit * BaseDatos :=
  match reader with
  | [] => (Bien tt, db)
  | row :: resto =>
      match subscript row "codigo" with
      | Falla e => (Falla e, db)
      | Bien codigo =>
          match subscript row "nombre" with
          | Falla e => (Falla e, db)
          | Bien nombre =>
              match subscript row "tipo" with
              | Falla e => (Falla e, db)
              | Bien tipo =>
                  match _upsert_cuenta codigo nombre tipo db with
                  | (Retorna _, db') => sembrar resto db'
                  | (Lanza e, db') => (Falla (Error e), db')
                  end
              end
          end
      end
  end.

(** [plan_cuentas_csv] is [None] where the file [plan_cuentas.csv] does not
    exist, and the rows [csv.DictReader] reads from it otherwise. *)
Definition seed_plan_cuentas (plan_cuentas_csv : option (list fila_csv))
  : BaseDatos -> desenlace unit * BaseDatos :=
  fun db =>
    match plan_cuentas_csv with
    | None => (Bien tt, db)
    | Some reader => sembrar reader db
    end.

(** [Base.metadata.create_all(engine)] creates the tables that are missing
    and touches no row. *)
Definition init_db (plan_cuentas_csv : option (list fila_csv))
  : BaseDatos -> desenlace unit * BaseDatos :=
  seed_plan_cuentas plan_cuentas_csv.

(** The account of the chart with the code of a row, if the row has one. *)
Definition cuenta_por_codigo_de (row : fila_csv) (db : BaseDatos)
  : option TblPlanCuentas.fila :=
  match subscript row "codigo" with
  | Bien codigo => cuenta_por_codigo codigo db
  | Falla _ => None
  end.

(** The three fields the seed reads of a row, when the row has them. *)
Definition campos_de (row : fila_csv) : option (string * string * string) :=
  match subscript row "codigo", subscript row "nombre", subscript row "tipo" with
  | Bien (Some c), Bien (Some n), Bien (Some t) => Some (c, n, t)
  | _, _, _ => None
  end.

End DbConfig.

(** * app.py *)

Module App.

Import ProcesadorXml LogicaContable.

(** An uploaded file: [archivo.name] and [archivo.getvalue()]. *)
Record UploadedFile : Type := {
  name : string;
  getvalue : list Byte.byte
}.

(** An entry of the log of a run. *)
Record entrada : Type := Entrada {
  archivo : string;
  estado : string;
  detalle : string
}.

(** The counters and the log of the loop over the uploaded files. *)
Record carga : Type := {
  insertados : Z;
  duplicados : Z;
  errores : Z;
  log : list entrada
}.

Section CargaInteligente.

Variable xmltodict_parse : list Byte.byte -> resultado valor.
Variable float_de_str : string -> option float.
Variable strptime_ymd : string -> resultado date.
Variable repr_contenedor : valor -> string.
Variable strip : string -> string.

(** [except Exception as exc]: the file is counted and logged as an error,
    with [str(exc)] as its detail. *)
Definition con_error (c : carga) (a : UploadedFile) (exc : excepcion) : carga :=
  {| insertados := insertados c;
     duplicados := duplicados c;
     errores := errores c + 1;
     log := log c ++ [Entrada (name a) "error" (mensaje exc)] |}.

(** The body of the loop, for one file. *)
Definition procesar_archivo (c : carga) (a : UploadedFile) (db : BaseDatos)
  : carga * BaseDatos :=
  match parsear_dte_xml xmltodict_parse float_de_str strptime_ymd repr_contenedor strip
          (getvalue a) (name a) with
  | Lanza exc => (con_error c a exc, db)
  | Retorna documento =>
      match procesar_documento_con_control_duplicado documento db with
      | (Retorna (Ok _ _), db') =>
          ({| insertados := insertados c + 1;
              duplicados := duplicados c;
              errores := errores c;
              log := log c ++ [Entrada (name a) "insertado" "OK"] |}, db')
      | (Retorna (Duplicado motivo), db') =>
          ({| insertados := insertados c;
              duplicados := duplicados c + 1;
              errores := errores c;
              log := log c ++ [Entrada (name a) "duplicado" motivo] |}, db')
      | (Lanza exc, db') => (con_error c a exc, db')
      end
  end.

(** [for i, archivo in enumerate(archivos, start=1): ...], from the counters
    at 0 and the empty log. *)
Definition procesar_archivos (archivos : list UploadedFile) (db : BaseDatos)
  : carga * BaseDatos :=
  fold_left (fun (s : carga * BaseDatos) a => procesar_archivo (fst s) a (snd s))
    archivos
    ({| insertados := 0; duplicados := 0; errores := 0; log := [] |}, db).

(** What the log says of a file that was not posted: the error of the
    normalizer, that of a missing account, or that of the document row. *)
Definition detalle_de_error (a : UploadedFile) (db : BaseDatos) (texto : string) : Prop :=
  (exists causa : excepcion,
     cuerpo_parsear xmltodict_parse float_de_str strptime_ymd repr_contenedor strip
       (getvalue a) (name a) = Lanza causa /\
     texto = ("No se pudo procesar " ++ name a ++ ": " ++ mensaje causa)%string) \/
  (exists n, In n cuentas_obligatorias /\ cuenta_por_nombre n db = None /\
             texto = ("No existe la cuenta obligatoria: " ++ n)%string) \/
  texto = "'razon_social' is an invalid keyword argument for TblDocumentos".

End CargaInteligente.

(** ** The classification of suppliers *)

(** [f"{c.codigo} - {c.nombre}"] *)
Definition etiqueta (c : TblPlanCuentas.fila) : string :=
  TblPlanCuentas.codigo c ++ " - " ++ TblPlanCuentas.nombre c.

(** [order_by(TblPlanCuentas.codigo)]: by the bytes of the text.  Accounts
    with the same code, which the schema rules out, are left in the order of
    the table. *)
Fixpoint insertar_ordenado (c : TblPlanCuentas.fila) (l : list TblPlanCuentas.fila)
  : list TblPlanCuentas.fila :=
  match l with
  | [] => [c]
  | x :: resto =>
      if String.leb (TblPlanCuentas.codigo c) (TblPlanCuentas.codigo x)
      then c :: l
      else x :: insertar_ordenado c resto
  end.

Definition ordenar_por_codigo (l : list TblPlanCuentas.fila) : list TblPlanCuentas.fila :=
  fold_right insertar_ordenado [] l.

(** [session.query(TblPlanCuentas).order_by(TblPlanCuentas.codigo).all()] *)
Definition cuentas (db : BaseDatos) : list TblPlanCuentas.fila :=
  ordenar_por_codigo (plan_cuentas db).

(** [map_cuentas.get(k, "Sin asignar")], where [map_cuentas] is
    [{c.id_cuenta: etiqueta(c) for c in cuentas}]: of the accounts with the
    key, the last one gives the value. *)
Definition map_cuentas_get (cuentas : list TblPlanCuentas.fila) (k : option Z) : string :=
  match k with
  | None => "Sin asignar"
  | Some id =>
      match find (fun c => Z.eqb (TblPlanCuentas.id_cuenta c) id) (rev cuentas) with
      | Some c => etiqueta c
      | None => "Sin asignar"
      end
  end.

(** [opciones[label]], where [opciones] is
    [{etiqueta(c): c.id_cuenta for c in cuentas}]. *)
Definition opciones_subscript (cuentas : list TblPlanCuentas.fila) (label : string)
  : desenlace Z :=
  match find (fun c => String.eqb (etiqueta c) label) (rev cuentas) with
  | Some c => Bien (TblPlanCuentas.id_cuenta c)
  | None => Falla (KeyError label)
  end.

(** A row of the table of suppliers on the screen. *)
Record fila_prov : Type := FilaProv {
  rut : string;
  razon_social : string;
  nueva_cuenta : string
}.

(** [df_prov], before the filter of the search box. *)
Definition df_prov (db : BaseDatos) : list fila_prov :=
  map (fun p =>
         FilaProv (TblProveedores.rut p) (TblProveedores.razon_social p)
           (map_cuentas_get (cuentas db) (TblProveedores.cuenta_contable_default_id p)))
      (proveedores db).

(** [prov.cuenta_contable_default_id = id], as the commit writes it:
    [UPDATE Tbl_Proveedores SET cuenta_contable_default_id = id WHERE rut = r]. *)
Definition asignar_cuenta (r : string) (id : Z) (db : BaseDatos) : BaseDatos :=
  {| plan_cuentas := plan_cuentas db;
     proveedores :=
       map (fun p =>
              if String.eqb (TblProveedores.rut p) r
              then TblProveedores.Fila (TblProveedores.rut p) (TblProveedores.razon_social p)
                     (Some id)
              else p)
           (proveedores db);
     documentos := documentos db;
     asientos := asientos db;
     movimientos := movimientos db |}.

(** [for _, row in edited.iterrows(): ...], over the rows of the edited
    table, with the [opciones] of the screen. *)
Fixpoint guardar_filas (opciones : list TblPlanCuentas.fila) (edited : list fila_prov)
    (db : BaseDatos) : desenlace unit * BaseDatos :=
  match edited with
  | [] => (Bien tt, db)
  | row :: resto =>
      match proveedor_por_rut (rut row) db with
      | Some _ =>
          match opciones_subscript opciones (nueva_cuenta row) with
          | Bien id => guardar_filas opciones resto (asignar_cuenta (rut row) id db)
          | Falla e => (Falla e, db)
          end
      | None => guardar_filas opciones resto db
      end
  end.

(** The button [Guardar clasificación]: the loop inside
    [with SessionLocal.begin() as session], which commits when the loop
    ends and rolls back when it raises. *)
Definition guardar_clasificacion (edited : list fila_prov) (db : BaseDatos)
  : desenlace unit * BaseDatos :=
  match guardar_filas (cuentas db) edited db with
  | (Bien tt, db') => (Bien tt, db')
  | (Falla e, _) => (Falla e, db)
  end.

(** What a save may have done to a supplier: nothing, or the account of a
    row of the table with its rut. *)
Definition reclasificado (db : BaseDatos) (edited : list fila_prov)
    (p p' : TblProveedores.fila) : Prop :=
  TblProveedores.rut p' = TblProveedores.rut p /\
  TblProveedores.razon_social p' = TblProveedores.razon_social p /\
  (TblProveedores.cuenta_contable_default_id p' = TblProveedores.cuenta_contable_default_id p \/
   exists c row,
     In c (plan_cuentas db) /\ In row edited /\ rut row = TblProveedores.rut p /\
     etiqueta c = nueva_cuenta row /\
     TblProveedores.cuenta_contable_default_id p' = Some (TblPlanCuentas.id_cuenta c)).

End App.

(** * Concrete data: trees, seed files and tables of the screen *)

Module Casos.

Import ProcesadorXml LogicaContable DbConfig App Ejemplos.

(** A parser that returns a given tree, whatever the payload. *)
Definition parse_arbol (arbol : valor) (xml_bytes : list Byte.byte) : resultado valor :=
  Retorna arbol.

(** Two documents in one envelope: the [DTE] elements side by side parse to
    a sequence. *)
Definition arbol_dos_documentos : valor :=
  VDict [("SetDTE",
          VDict [("DTE",
                  VList [VDict [("Documento", VDict [("Encabezado",
                           VDict [("IdDoc", id_doc_123); ("Emisor", emisor_acme)])])];
                         VDict [("Documento", VDict [("Encabezado",
                           VDict [("IdDoc", VDict [("TipoDTE", VStr "33");
                                                   ("Folio", VStr "456");
                                                   ("FchEmis", VStr "2024-05-02")])])])]])])].

(** [<Folio/>] and [<RznSoc/>]: elements that are there and are empty. *)
Definition arbol_folio_vacio : valor :=
  envolver (VDict [("IdDoc", VDict [("TipoDTE", VStr "33"); ("Folio", VNone);
                                    ("FchEmis", VStr "2024-05-01")]);
                   ("Emisor", VDict [("RUTEmisor", VStr "76543210-1"); ("RznSoc", VNone)])]).

(** [<Encabezado>sin datos</Encabezado>]. *)
Definition arbol_encabezado_texto : valor := envolver (VStr "sin datos").

(** The rows of a seed file with the header [codigo,nombre,tipo]. *)
Definition fila_de (c n t : string) : fila_csv :=
  [("codigo", Some c); ("nombre", Some n); ("tipo", Some t)].

Definition plan_csv : list fila_csv :=
  [ fila_de "5101" "Gastos Generales (Por Clasificar)" "Gasto";
    fila_de "1105" "IVA Crédito Fiscal" "Activo";
    fila_de "2101" "Proveedores por Pagar" "Pasivo";
    fila_de "5102" "Arriendos" "Gasto" ].

(** A file whose header has no [tipo]. *)
Definition plan_csv_sin_tipo : list fila_csv :=
  [ [("codigo", Some "5101"); ("nombre", Some "Gastos Generales (Por Clasificar)")] ].

(** A line with a code and a name and nothing after them. *)
Definition fila_corta : fila_csv :=
  [("codigo", Some "1101"); ("nombre", Some "Caja"); ("tipo", None)].

Definition db_vacia : BaseDatos :=
  {| plan_cuentas := []; proveedores := []; documentos := []; asientos := [];
     movimientos := [] |}.

(** A second supplier, which has no account. *)
Definition db_sin_clasificar : BaseDatos :=
  {| plan_cuentas := [cuenta_gastos; cuenta_iva; cuenta_proveedores; cuenta_arriendos];
     proveedores := [TblProveedores.Fila "76543210-1" "Acme" (Some 4);
                     TblProveedores.Fila "11111111-1" "Beta" None];
     documentos := []; asientos := []; movimientos := [] |}.

(** The table of the screen with "Acme" moved to the fallback account. *)
Definition acme_a_gastos : list fila_prov :=
  [FilaProv "76543210-1" "Acme" "5101 - Gastos Generales (Por Clasificar)"].

Definition db_reclasificada : BaseDatos :=
  snd (guardar_clasificacion acme_a_gastos db_con_proveedor).

Definition db_reclasificada_y_contabilizada : BaseDatos :=
  snd (procesar_documento_con_control_duplicado doc_sin_razon db_reclasificada).

End Casos.

(** * Properties of the posting engine *)

Section PropiedadesContables.

Import LogicaContable TblMovimientosContables.

(** ** Float addition with [0.0] *)

Lemma feq_fadd_cero_r (x y : float) : feq (fadd x cero) y = feq x y.
Proof.
  destruct x as [[|]|[|]| |s m e]; destruct y as [[|]|[|]| |s' m' e']; reflexivity.
Qed.

Lemma feq_fadd_cero_l (x y : float) : feq (fadd cero x) y = feq x y.
Proof.
  destruct x as [[|]|[|]| |s m e]; destruct y as [[|]|[|]| |s' m' e']; reflexivity.
Qed.

Lemma feq_a_fadd_cero_l (x y : float) : feq y (fadd cero x) = feq y x.
Proof.
  destruct x as [[|]|[|]| |s m e]; destruct y as [[|]|[|]| |s' m' e']; reflexivity.
Qed.

Lemma feq_fadd_desde_cero (n t y : float) :
  feq (fadd (fadd cero n) t) y = feq (fadd n t) y.
Proof.
  destruct n as [[|]|[|]| |s m e]; try reflexivity.
  destruct t as [[|]|[|]| |s m e]; destruct y as [[|]|[|]| |s' m' e']; reflexivity.
Qed.

Lemma feq_refl_derecha (x y : float) : feq x y = true -> feq y y = true.
Proof.
  intros H. destruct y as [s'|s'| |s' m' e'].
  - reflexivity.
  - destruct s'; reflexivity.
  - destruct x as [[|]|[|]| |[|] m e]; discriminate H.
  - unfold feq, SFeqb, SFcompare.
    destruct s'; rewrite Z.compare_refl, Pos.compare_cont_refl; reflexivity.
Qed.

Lemma suma_debe (n t : float) : suma [n; t; cero] = fadd (fadd (fadd cero n) t) cero.
Proof. reflexivity. Qed.

Lemma suma_haber (total : float) : suma [cero; cero; total] = fadd cero total.
Proof. reflexivity. Qed.

(** ** What a successful posting wrote *)

Lemma generar_asiento_exito (documento : Documento) (db db' : BaseDatos) (r : respuesta) :
  generar_asiento documento db = (Retorna r, db') ->
  exists g i p i1 i2 i3,
    let doc_id := siguiente_id (map TblDocumentos.id (documentos db)) in
    let asiento_id := siguiente_id (map TblAsientos.id (asientos db)) in
    let prov := proveedor_vigente documento g db in
    let base := glosa_base documento prov in
    cuenta_por_nombre GASTOS_DEFAULT db = Some g /\
    cuenta_por_nombre IVA_CREDITO db = Some i /\
    cuenta_por_nombre PROVEEDORES_POR_PAGAR db = Some p /\
    razon_social documento = None /\
    existsb (misma_clave (folio documento) (rut_emisor documento) (tipo_dte documento))
            (documentos db) = false /\
    r = Ok doc_id asiento_id /\
    plan_cuentas db' = plan_cuentas db /\
    proveedores db' =
      match proveedor_por_rut (rut_emisor documento) db with
      | Some _ => proveedores db
      | None => proveedores db ++ [prov]
      end /\
    documentos db' =
      documentos db ++
        [TblDocumentos.Fila doc_id (folio documento) (tipo_dte documento)
           (fecha_emision documento) (rut_emisor documento) (monto_neto documento)
           (monto_iva documento) (monto_total documento) (url_archivo documento)] /\
    asientos db' = asientos db ++ [TblAsientos.Fila asiento_id doc_id (fecha_emision documento)] /\
    movimientos db' =
      movimientos db ++
        [Fila i1 asiento_id
           (o_bien (TblProveedores.cuenta_contable_default_id prov) (TblPlanCuentas.id_cuenta g))
           (monto_neto documento) cero (base ++ " | Gasto Neto");
         Fila i2 asiento_id (TblPlanCuentas.id_cuenta i)
           (monto_iva documento) cero (base ++ " | IVA Crédito Fiscal");
         Fila i3 asiento_id (TblPlanCuentas.id_cuenta p)
           cero (monto_total documento) (base ++ " | Proveedores por Pagar")].
Proof.
  unfold generar_asiento, SessionLocal_begin.
  destruct (cuerpo_generar_asiento documento db) as [[r0|e] db0] eqn:Hc; [|discriminate].
  intros H; inversion H; subst r0 db0; clear H.
  revert Hc.
  unfold cuerpo_generar_asiento, bind_tx, session_get, _obtener_cuenta_por_nombre,
    proveedor_vigente.
  destruct (cuenta_por_nombre GASTOS_DEFAULT db) as [g|] eqn:Hg; [|discriminate].
  destruct (cuenta_por_nombre IVA_CREDITO db) as [i|] eqn:Hi; [|discriminate].
  destruct (cuenta_por_nombre PROVEEDORES_POR_PAGAR db) as [p|] eqn:Hp; [|discriminate].
  unfold construir, nuevo_TblDocumentos.
  destruct (proveedor_por_rut (rut_emisor documento) db) as [pv|] eqn:Hpv;
    [|unfold insertar_proveedor; cbn [TblProveedores.rut]; rewrite Hpv];
    unfold ret;
    (destruct (razon_social documento) eqn:Hrs; [discriminate|]);
    insertar_el_documento;
    montos_del_documento documento discriminate;
    (destruct (existsb _ (documentos db)) eqn:Hex; [discriminate|]);
    insertar_el_asiento;
    intros H; inversion H; subst; clear H;
    do 6 eexists;
    cbn [plan_cuentas proveedores documentos asientos movimientos];
    repeat split; try eassumption; try reflexivity;
    rewrite <- !app_assoc; reflexivity.
Qed.

(** A posting that succeeds has amounts that are numbers. *)
Lemma generar_asiento_sin_nan (documento : Documento) (db db' : BaseDatos) (r : respuesta) :
  generar_asiento documento db = (Retorna r, db') -> con_nan documento = false.
Proof.
  unfold generar_asiento, SessionLocal_begin.
  destruct (cuerpo_generar_asiento documento db) as [[r0|e] db0] eqn:Hc; [|discriminate].
  intros _. revert Hc.
  unfold cuerpo_generar_asiento, bind_tx, session_get, _obtener_cuenta_por_nombre.
  destruct (cuenta_por_nombre GASTOS_DEFAULT db) as [g|]; [|discriminate].
  destruct (cuenta_por_nombre IVA_CREDITO db) as [i|]; [|discriminate].
  destruct (cuenta_por_nombre PROVEEDORES_POR_PAGAR db) as [p|]; [|discriminate].
  unfold construir, nuevo_TblDocumentos, con_nan.
  destruct (proveedor_por_rut (rut_emisor documento) db) as [pv|] eqn:Hpv;
    [|unfold insertar_proveedor; cbn [TblProveedores.rut]; rewrite Hpv];
    unfold ret;
    (destruct (razon_social documento); [discriminate|]);
    insertar_el_documento;
    montos_del_documento documento discriminate;
    reflexivity.
Qed.

(** A failed posting leaves the store it found, and fails in one of three ways. *)
Lemma generar_asiento_fallo (documento : Documento) (db db' : BaseDatos) (e : excepcion) :
  generar_asiento documento db = (Lanza e, db') ->
  db' = db /\
  ((exists n, In n cuentas_obligatorias /\ cuenta_por_nombre n db = None /\
              e = Exc ValueError ("No existe la cuenta obligatoria: " ++ n)) \/
   (razon_social documento <> None /\
    e = Exc TypeError "'razon_social' is an invalid keyword argument for TblDocumentos") \/
   (razon_social documento = None /\
    clase e = IntegrityError /\
    (con_nan documento = true \/
     existsb (misma_clave (folio documento) (rut_emisor documento) (tipo_dte documento))
             (documentos db) = true))).
Proof.
  unfold generar_asiento, SessionLocal_begin.
  destruct (cuerpo_generar_asiento documento db) as [[r0|e0] db0] eqn:Hc; [discriminate|].
  intros H; inversion H; subst e0 db'; clear H. split; [reflexivity|].
  revert Hc.
  unfold cuerpo_generar_asiento, bind_tx, session_get, _obtener_cuenta_por_nombre,
    cuentas_obligatorias.
  destruct (cuenta_por_nombre GASTOS_DEFAULT db) as [g|] eqn:Hg;
    [|intros H; inversion H; subst; left; exists GASTOS_DEFAULT;
      repeat split; [simpl; tauto|assumption]].
  destruct (cuenta_por_nombre IVA_CREDITO db) as [i|] eqn:Hi;
    [|intros H; inversion H; subst; left; exists IVA_CREDITO;
      repeat split; [simpl; tauto|assumption]].
  destruct (cuenta_por_nombre PROVEEDORES_POR_PAGAR db) as [p|] eqn:Hp;
    [|intros H; inversion H; subst; left; exists PROVEEDORES_POR_PAGAR;
      repeat split; [simpl; tauto|assumption]].
  unfold construir, nuevo_TblDocumentos.
  destruct (proveedor_por_rut (rut_emisor documento) db) as [pv|] eqn:Hpv;
    [|unfold insertar_proveedor; cbn [TblProveedores.rut]; rewrite Hpv];
    unfold ret;
    (destruct (razon_social documento) eqn:Hrs;
       [intros H; inversion H; subst; right; left; split; [discriminate|reflexivity]|]);
    insertar_el_documento; unfold con_nan;
    montos_del_documento documento
      ltac:(intros H; inversion H; subst; right; right;
            repeat split; left;
            repeat match goal with Hn : es_nan _ = _ |- _ => rewrite Hn end;
            reflexivity);
    (destruct (existsb _ (documentos db)) eqn:Hex;
       [intros H; inversion H; subst; right; right; auto|]);
    unfold insertar_asiento, session_add_all; discriminate.
Qed.

Lemma skipn_length_app {A : Type} (l l' : list A) : skipn (length l) (l ++ l') = l'.
Proof. induction l as [|x l IH]; simpl; auto. Qed.

Lemma siguiente_id_mayor (ids : list Z) (x : Z) : In x ids -> x < siguiente_id ids.
Proof.
  unfold siguiente_id. induction ids as [|y ids IH]; cbn [fold_right In]; [tauto|].
  intros [->|H]; [lia|]. specialize (IH H). lia.
Qed.

Lemma siguiente_id_nuevo (ids : list Z) : ~ In (siguiente_id ids) ids.
Proof. intros H. apply siguiente_id_mayor in H. lia. Qed.

Lemma filter_nada {A : Type} (f : A -> bool) (l : list A) :
  (forall x, In x l -> f x = false) -> filter f l = [].
Proof.
  induction l as [|x l IH]; simpl; intros H; [reflexivity|].
  rewrite (H x (or_introl eq_refl)). apply IH. intros y Hy. apply H. now right.
Qed.

Lemma find_al_final {A : Type} (f : A -> bool) (l : list A) (x : A) :
  find f l = None -> f x = true -> find f (l ++ [x]) = Some x.
Proof.
  intros Hl Hx. induction l as [|y l IH]; cbn [find app] in *.
  - rewrite Hx. reflexivity.
  - destruct (f y); [discriminate|]. apply IH, Hl.
Qed.

Lemma o_bien_mismo (b : Z) : o_bien (Some b) b = b.
Proof. unfold o_bien. destruct (Z.eqb b 0); reflexivity. Qed.

Lemma o_bien_no_nulo (a b : Z) : a <> 0 -> o_bien (Some a) b = a.
Proof. intros Ha. unfold o_bien. apply Z.eqb_neq in Ha. rewrite Ha. reflexivity. Qed.

(** ** The posting engine against its specification *)

(** The entry of the scenario, posted where the supplier "Acme" is
    classified under account 4: the three movements as they are stored. *)
Example movimientos_del_escenario :
  movimientos Ejemplos.db_tras_posteo_clasificado =
    [ Fila 1 1 4 (float_de_Z 1000) cero "Compra DTE 33 Folio 123 - Acme | Gasto Neto";
      Fila 2 1 2 (float_de_Z 190) cero "Compra DTE 33 Folio 123 - Acme | IVA Crédito Fiscal";
      Fila 3 1 3 cero (float_de_Z 1190) "Compra DTE 33 Folio 123 - Acme | Proveedores por Pagar" ]
  /\ asientos Ejemplos.db_tras_posteo_clasificado = [TblAsientos.Fila 1 1 (Fecha 2024 5 1)]
  /\ feq (fadd (float_de_Z 1000) (float_de_Z 190)) (float_de_Z 1190) = true.
Proof. repeat split; vm_compute; reflexivity. Qed.

(** C1 (double-entry balance).  When a posting succeeds on a record whose net
    amount plus tax amount equals its total, the rows it appended to the
    movements table are exactly three, all of the new ledger entry: a debit of
    the net amount, a debit of the tax amount on the tax-credit account and a
    credit of the total on the payables account.  The sum of their debits
    equals the sum of their credits, and both equal the total.  In a store
    with referential integrity they are all the movements of the entry. *)
Theorem C1_asiento_balanceado
    (documento : Documento) (db db' : BaseDatos) (doc_id asiento_id : Z) :
  generar_asiento documento db = (Retorna (Ok doc_id asiento_id), db') ->
  feq (fadd (monto_neto documento) (monto_iva documento)) (monto_total documento) = true ->
  exists (m1 m2 m3 : fila) (c_iva c_pagar : TblPlanCuentas.fila),
    movimientos db' = movimientos db ++ [m1; m2; m3] /\
    movimientos_creados db db' = [m1; m2; m3] /\
    length (movimientos_creados db db') = 3%nat /\
    (id_asiento m1 = asiento_id /\ id_asiento m2 = asiento_id /\ id_asiento m3 = asiento_id) /\
    (debe m1 = monto_neto documento /\ haber m1 = cero) /\
    (cuenta_por_nombre IVA_CREDITO db = Some c_iva /\
     id_cuenta m2 = TblPlanCuentas.id_cuenta c_iva /\
     debe m2 = monto_iva documento /\ haber m2 = cero) /\
    (cuenta_por_nombre PROVEEDORES_POR_PAGAR db = Some c_pagar /\
     id_cuenta m3 = TblPlanCuentas.id_cuenta c_pagar /\
     debe m3 = cero /\ haber m3 = monto_total documento) /\
    feq (suma (map debe [m1; m2; m3])) (suma (map haber [m1; m2; m3])) = true /\
    feq (suma (map debe [m1; m2; m3])) (monto_total documento) = true /\
    feq (suma (map haber [m1; m2; m3])) (monto_total documento) = true /\
    (bien_formada db -> movimientos_de asiento_id db' = [m1; m2; m3]).
Proof.
  intros Hok Hsum.
  destruct (generar_asiento_exito _ _ _ _ Hok)
    as (g & i & p & i1 & i2 & i3 & Hg & Hi & Hp & _ & _ & Hr & _ & _ & _ & _ & Hm).
  cbv zeta in Hr, Hm. inversion Hr; subst doc_id asiento_id; clear Hr.
  eexists _, _, _, i, p.
  split; [exact Hm|].
  assert (Hc : movimientos_creados db db' = skipn (length (movimientos db)) (movimientos db'))
    by reflexivity.
  rewrite Hm, skipn_length_app in Hc. rewrite Hc.
  cbn [map debe haber id_asiento id_cuenta length].
  rewrite suma_debe, suma_haber.
  assert (Hd : feq (fadd (fadd (fadd cero (monto_neto documento)) (monto_iva documento)) cero)
                   (monto_total documento) = true)
    by (rewrite feq_fadd_cero_r, feq_fadd_desde_cero; exact Hsum).
  repeat split; try assumption.
  - rewrite feq_a_fadd_cero_l. exact Hd.
  - rewrite feq_fadd_cero_l. exact (feq_refl_derecha _ _ Hsum).
  - intros (_ & _ & Hfk & _).
    unfold movimientos_de. rewrite Hm, filter_app.
    rewrite filter_nada.
    + cbn [filter id_asiento app]. rewrite Z.eqb_refl. reflexivity.
    + intros m Hin. apply Z.eqb_neq. intros Heq.
      apply (siguiente_id_nuevo (map TblAsientos.id (asientos db))).
      rewrite <- Heq. apply Hfk, Hin.
Qed.

Lemma C1_asiento_balanceado_testigo :
  exists (m1 m2 m3 : fila) (c_iva c_pagar : TblPlanCuentas.fila),
    movimientos Ejemplos.db_tras_posteo = movimientos Ejemplos.db_sembrada ++ [m1; m2; m3] /\
    movimientos_creados Ejemplos.db_sembrada Ejemplos.db_tras_posteo = [m1; m2; m3] /\
    length (movimientos_creados Ejemplos.db_sembrada Ejemplos.db_tras_posteo) = 3%nat /\
    (id_asiento m1 = 1 /\ id_asiento m2 = 1 /\ id_asiento m3 = 1) /\
    (debe m1 = monto_neto Ejemplos.doc_sin_razon /\ haber m1 = cero) /\
    (cuenta_por_nombre IVA_CREDITO Ejemplos.db_sembrada = Some c_iva /\
     id_cuenta m2 = TblPlanCuentas.id_cuenta c_iva /\
     debe m2 = monto_iva Ejemplos.doc_sin_razon /\ haber m2 = cero) /\
    (cuenta_por_nombre PROVEEDORES_POR_PAGAR Ejemplos.db_sembrada = Some c_pagar /\
     id_cuenta m3 = TblPlanCuentas.id_cuenta c_pagar /\
     debe m3 = cero /\ haber m3 = monto_total Ejemplos.doc_sin_razon) /\
    feq (suma (map debe [m1; m2; m3])) (suma (map haber [m1; m2; m3])) = true /\
    feq (suma (map debe [m1; m2; m3])) (monto_total Ejemplos.doc_sin_razon) = true /\
    feq (suma (map haber [m1; m2; m3])) (monto_total Ejemplos.doc_sin_razon) = true /\
    (bien_formada Ejemplos.db_sembrada ->
     movimientos_de 1 Ejemplos.db_tras_posteo = [m1; m2; m3]).
Proof.
  apply (C1_asiento_balanceado Ejemplos.doc_sin_razon Ejemplos.db_sembrada
           Ejemplos.db_tras_posteo 1 1).
  - vm_compute. reflexivity.
  - vm_compute. reflexivity.
Defined.

(** C3 (fatal configuration).  When one of the three accounts the posting
    resolves by name is missing from the chart, the body of the transaction
    raises the error naming the first missing account while the session is
    still at the store it started from (no INSERT was issued), so does
    [generar_asiento], and the duplicate-control wrapper lets the error
    through: its outcome is that error, not a duplicate. *)
Theorem C3_cuenta_obligatoria_ausente
    (documento : Documento) (db : BaseDatos) (n : string) :
  In n cuentas_obligatorias ->
  cuenta_por_nombre n db = None ->
  exists falta : string,
    In falta cuentas_obligatorias /\
    cuenta_por_nombre falta db = None /\
    cuerpo_generar_asiento documento db =
      (Lanza (Exc ValueError ("No existe la cuenta obligatoria: " ++ falta)), db) /\
    generar_asiento documento db =
      (Lanza (Exc ValueError ("No existe la cuenta obligatoria: " ++ falta)), db) /\
    procesar_documento_con_control_duplicado documento db =
      (Lanza (Exc ValueError ("No existe la cuenta obligatoria: " ++ falta)), db).
Proof.
  intros Hin Hn.
  assert (Hcasos :
    cuenta_por_nombre GASTOS_DEFAULT db = None \/
    (cuenta_por_nombre GASTOS_DEFAULT db <> None /\
     cuenta_por_nombre IVA_CREDITO db = None) \/
    (cuenta_por_nombre GASTOS_DEFAULT db <> None /\
     cuenta_por_nombre IVA_CREDITO db <> None /\
     cuenta_por_nombre PROVEEDORES_POR_PAGAR db = None)).
  { destruct (cuenta_por_nombre GASTOS_DEFAULT db) eqn:Hg; [|now left].
    destruct (cuenta_por_nombre IVA_CREDITO db) eqn:Hi;
      [|right; left; split; [discriminate|reflexivity]].
    destruct (cuenta_por_nombre PROVEEDORES_POR_PAGAR db) eqn:Hp;
      [|right; right; repeat split; discriminate || reflexivity].
    exfalso. cbn [cuentas_obligatorias In] in Hin.
    destruct Hin as [<-|[<-|[<-|[]]]]; congruence. }
  assert (Hprop : forall falta,
    cuerpo_generar_asiento documento db =
      (Lanza (Exc ValueError ("No existe la cuenta obligatoria: " ++ falta)), db) ->
    generar_asiento documento db =
      (Lanza (Exc ValueError ("No existe la cuenta obligatoria: " ++ falta)), db) /\
    procesar_documento_con_control_duplicado documento db =
      (Lanza (Exc ValueError ("No existe la cuenta obligatoria: " ++ falta)), db)).
  { intros falta Hc.
    assert (Hga : generar_asiento documento db =
      (Lanza (Exc ValueError ("No existe la cuenta obligatoria: " ++ falta)), db))
      by (unfold generar_asiento, SessionLocal_begin; rewrite Hc; reflexivity).
    split; [exact Hga|].
    unfold procesar_documento_con_control_duplicado, controlar_duplicado.
    rewrite Hga. reflexivity. }
  destruct Hcasos as [Hg|[[Hg Hi]|(Hg & Hi & Hp)]].
  - exists GASTOS_DEFAULT.
    assert (Hc : cuerpo_generar_asiento documento db =
      (Lanza (Exc ValueError ("No existe la cuenta obligatoria: " ++ GASTOS_DEFAULT)), db)).
    { unfold cuerpo_generar_asiento, bind_tx, session_get, _obtener_cuenta_por_nombre.
      rewrite Hg. reflexivity. }
    repeat split; try assumption; try apply Hprop; try assumption.
    cbn; tauto.
  - exists IVA_CREDITO.
    assert (Hc : cuerpo_generar_asiento documento db =
      (Lanza (Exc ValueError ("No existe la cuenta obligatoria: " ++ IVA_CREDITO)), db)).
    { unfold cuerpo_generar_asiento, bind_tx, session_get, _obtener_cuenta_por_nombre.
      destruct (cuenta_por_nombre GASTOS_DEFAULT db); [|congruence].
      rewrite Hi. reflexivity. }
    repeat split; try assumption; try apply Hprop; try assumption.
    cbn; tauto.
  - exists PROVEEDORES_POR_PAGAR.
    assert (Hc : cuerpo_generar_asiento documento db =
      (Lanza (Exc ValueError ("No existe la cuenta obligatoria: " ++ PROVEEDORES_POR_PAGAR)), db)).
    { unfold cuerpo_generar_asiento, bind_tx, session_get, _obtener_cuenta_por_nombre.
      destruct (cuenta_por_nombre GASTOS_DEFAULT db); [|congruence].
      destruct (cuenta_por_nombre IVA_CREDITO db); [|congruence].
      rewrite Hp. reflexivity. }
    repeat split; try assumption; try apply Hprop; try assumption.
    cbn; tauto.
Qed.

Lemma C3_cuenta_obligatoria_ausente_testigo :
  exists falta : string,
    In falta cuentas_obligatorias /\
    cuenta_por_nombre falta Ejemplos.db_sin_por_pagar = None /\
    cuerpo_generar_asiento Ejemplos.doc_escenario Ejemplos.db_sin_por_pagar =
      (Lanza (Exc ValueError ("No existe la cuenta obligatoria: " ++ falta)),
       Ejemplos.db_sin_por_pagar) /\
    generar_asiento Ejemplos.doc_escenario Ejemplos.db_sin_por_pagar =
      (Lanza (Exc ValueError ("No existe la cuenta obligatoria: " ++ falta)),
       Ejemplos.db_sin_por_pagar) /\
    procesar_documento_con_control_duplicado Ejemplos.doc_escenario Ejemplos.db_sin_por_pagar =
      (Lanza (Exc ValueError ("No existe la cuenta obligatoria: " ++ falta)),
       Ejemplos.db_sin_por_pagar).
Proof.
  apply (C3_cuenta_obligatoria_ausente Ejemplos.doc_escenario Ejemplos.db_sin_por_pagar
           PROVEEDORES_POR_PAGAR).
  - simpl. tauto.
  - vm_compute. reflexivity.
Defined.

(** C4 (supplier-default routing).  In a store with referential integrity,
    the first movement of a successful posting, the expense line, debits the
    net amount of the record; its account is the default account of the
    supplier when the supplier is in the store with one set, and the fallback
    account "Gastos Generales (Por Clasificar)" when the supplier has none.
    A supplier that was not in the store is there afterwards, created with
    the fallback account as its default, and its expense line debits the
    fallback account. *)
Theorem C4_cuenta_de_gasto
    (documento : Documento) (db db' : BaseDatos) (doc_id asiento_id : Z) :
  bien_formada db ->
  generar_asiento documento db = (Retorna (Ok doc_id asiento_id), db') ->
  exists (fallback : TblPlanCuentas.fila) (m1 m2 m3 : fila),
    cuenta_por_nombre GASTOS_DEFAULT db = Some fallback /\
    movimientos_creados db db' = [m1; m2; m3] /\
    id_asiento m1 = asiento_id /\
    debe m1 = monto_neto documento /\
    match proveedor_por_rut (rut_emisor documento) db with
    | Some s =>
        id_cuenta m1 =
          match TblProveedores.cuenta_contable_default_id s with
          | Some a => a
          | None => TblPlanCuentas.id_cuenta fallback
          end /\
        proveedor_por_rut (rut_emisor documento) db' = Some s
    | None =>
        id_cuenta m1 = TblPlanCuentas.id_cuenta fallback /\
        proveedor_por_rut (rut_emisor documento) db' =
          Some (TblProveedores.Fila (rut_emisor documento)
                  (razon_social_o_defecto documento)
                  (Some (TblPlanCuentas.id_cuenta fallback)))
    end.
Proof.
  intros (Hpos & Hfk & _ & _) Hok.
  destruct (generar_asiento_exito _ _ _ _ Hok)
    as (g & i & p & i1 & i2 & i3 & Hg & _ & _ & _ & _ & Hr & _ & Hpv & _ & _ & Hm).
  cbv zeta in Hr, Hm, Hpv. inversion Hr; subst doc_id asiento_id; clear Hr.
  exists g. eexists _, _, _.
  split; [exact Hg|].
  assert (Hc : movimientos_creados db db' = skipn (length (movimientos db)) (movimientos db'))
    by reflexivity.
  rewrite Hm, skipn_length_app in Hc.
  split; [exact Hc|].
  cbn [id_asiento debe id_cuenta].
  split; [reflexivity|]. split; [reflexivity|].
  unfold proveedor_vigente in *.
  destruct (proveedor_por_rut (rut_emisor documento) db) as [s|] eqn:Hs;
    (unfold proveedor_por_rut; rewrite Hpv; fold (proveedor_por_rut (rut_emisor documento) db)).
  - split; [|exact Hs].
    destruct (TblProveedores.cuenta_contable_default_id s) as [a|] eqn:Ha; [|reflexivity].
    apply o_bien_no_nulo.
    unfold proveedor_por_rut in Hs. apply find_some in Hs. destruct Hs as [Hin _].
    specialize (Hfk s a Hin Ha). apply in_map_iff in Hfk.
    destruct Hfk as (c & <- & Hc'). specialize (Hpos c Hc'). lia.
  - cbn [TblProveedores.cuenta_contable_default_id]. split; [apply o_bien_mismo|].
    apply find_al_final; [exact Hs|].
    cbn [TblProveedores.rut]. apply String.eqb_refl.
Qed.

Lemma bien_formada_sembrada : bien_formada Ejemplos.db_sembrada.
Proof.
  repeat split; cbn; intros; intuition (try discriminate; subst; cbn; lia).
Defined.

Lemma bien_formada_con_proveedor : bien_formada Ejemplos.db_con_proveedor.
Proof.
  repeat split; cbn.
  - intros c H. intuition (subst; cbn; lia).
  - intros p a [<-|[]] H. cbn in H. inversion H. tauto.
  - intros m [].
  - intros a [].
Defined.

Lemma C4_cuenta_de_gasto_testigo :
  exists (fallback : TblPlanCuentas.fila) (m1 m2 m3 : fila),
    cuenta_por_nombre GASTOS_DEFAULT Ejemplos.db_con_proveedor = Some fallback /\
    movimientos_creados Ejemplos.db_con_proveedor Ejemplos.db_tras_posteo_clasificado
      = [m1; m2; m3] /\
    id_asiento m1 = 1 /\
    debe m1 = monto_neto Ejemplos.doc_sin_razon /\
    match proveedor_por_rut (rut_emisor Ejemplos.doc_sin_razon) Ejemplos.db_con_proveedor with
    | Some s =>
        id_cuenta m1 =
          match TblProveedores.cuenta_contable_default_id s with
          | Some a => a
          | None => TblPlanCuentas.id_cuenta fallback
          end /\
        proveedor_por_rut (rut_emisor Ejemplos.doc_sin_razon)
          Ejemplos.db_tras_posteo_clasificado = Some s
    | None =>
        id_cuenta m1 = TblPlanCuentas.id_cuenta fallback /\
        proveedor_por_rut (rut_emisor Ejemplos.doc_sin_razon)
          Ejemplos.db_tras_posteo_clasificado =
          Some (TblProveedores.Fila (rut_emisor Ejemplos.doc_sin_razon)
                  (razon_social_o_defecto Ejemplos.doc_sin_razon)
                  (Some (TblPlanCuentas.id_cuenta fallback)))
    end.
Proof.
  apply (C4_cuenta_de_gasto Ejemplos.doc_sin_razon Ejemplos.db_con_proveedor
           Ejemplos.db_tras_posteo_clasificado 1 1).
  - exact bien_formada_con_proveedor.
  - vm_compute. reflexivity.
Defined.

(** C5 (what the wrapper catches), at a record with an amount that is not
    a number.  The wrapper turns into the duplicate result every exception
    of the class [IntegrityError] and raises again, as it is, every
    exception of another class.  The class is wider than the violation of
    the uniqueness of (folio, issuer, type): the record of the scenario
    with a net amount that is not a number, posted to the seeded store,
    which holds no document at all, fails at the INSERT of the document
    with the [IntegrityError] of a NOT NULL column, and the wrapper answers
    that the document already exists.  The store is left without
    document, and the same record with the net amount 1000.0 is posted. *)
Theorem C5_monto_nan_es_duplicado :
  (forall (operacion : Tx respuesta) (db : BaseDatos),
     match operacion db with
     | (Retorna r, db') => controlar_duplicado operacion db = (Retorna r, db')
     | (Lanza e, db') =>
         match clase e with
         | IntegrityError =>
             controlar_duplicado operacion db =
               (Retorna (Duplicado "Documento ya existe (folio, rut, tipo_dte)"), db')
         | _ => controlar_duplicado operacion db = (Lanza e, db')
         end
     end) /\
  documentos Ejemplos.db_sembrada = [] /\
  generar_asiento Ejemplos.doc_monto_nan Ejemplos.db_sembrada =
    (Lanza (Exc IntegrityError "NOT NULL constraint failed: Tbl_Documentos.monto_neto"),
     Ejemplos.db_sembrada) /\
  procesar_documento_con_control_duplicado Ejemplos.doc_monto_nan Ejemplos.db_sembrada =
    (Retorna (Duplicado "Documento ya existe (folio, rut, tipo_dte)"), Ejemplos.db_sembrada) /\
  procesar_documento_con_control_duplicado Ejemplos.doc_sin_razon Ejemplos.db_sembrada =
    (Retorna (Ok 1 1), Ejemplos.db_tras_posteo).
Proof.
  split.
  - intros operacion db. unfold controlar_duplicado.
    destruct (operacion db) as [[r|e] db']; [reflexivity|].
    destruct (clase e); reflexivity.
  - repeat split; vm_compute; reflexivity.
Qed.

(** C9 (one side of every movement is zero).  Whatever the record and the
    store, the rows a posting appends to the movements table are, when it
    succeeds, three rows of which the first two (expense and tax credit)
    carry credit [0.0] and the third (payables) carries debit [0.0], so
    each has a side equal to [0.0]; when it fails it appends none. *)
Theorem C9_un_lado_en_cero (documento : Documento) (db : BaseDatos) :
  match generar_asiento documento db with
  | (Retorna _, db') =>
      exists m1 m2 m3 : fila,
        movimientos_creados db db' = [m1; m2; m3] /\
        haber m1 = cero /\ haber m2 = cero /\ debe m3 = cero /\
        Forall (fun m => debe m = cero \/ haber m = cero) (movimientos_creados db db')
  | (Lanza _, db') => movimientos_creados db db' = []
  end.
Proof.
  destruct (generar_asiento documento db) as [[r|e] db'] eqn:Hga.
  - destruct (generar_asiento_exito _ _ _ _ Hga)
      as (g & i & p & i1 & i2 & i3 & _ & _ & _ & _ & _ & _ & _ & _ & _ & _ & Hm).
    cbv zeta in Hm.
    assert (Hc : movimientos_creados db db' = skipn (length (movimientos db)) (movimientos db'))
      by reflexivity.
    rewrite Hm, skipn_length_app in Hc.
    eexists _, _, _. split; [exact Hc|]. cbn [haber debe].
    repeat split. rewrite Hc.
    constructor; [right; reflexivity|].
    constructor; [right; reflexivity|].
    constructor; [left; reflexivity|].
    constructor.
  - destruct (generar_asiento_fallo _ _ _ _ Hga) as [-> _].
    unfold movimientos_creados. rewrite <- (app_nil_r (movimientos db)) at 2.
    apply skipn_length_app.
Qed.

(** C2, at the record of the scenario.  The payload of the scenario
    normalizes to the record with folio 123, type 33 and issuer 76543210-1,
    which carries the key ["razon_social"].  Posted to the seeded store
    through the duplicate-control wrapper, it is not posted: the supplier is
    inserted in the session, then building the document row raises
    [TypeError], the transaction is rolled back and the store is the seeded
    one, without supplier, document, entry or movement.  A second call
    starts from that same store and raises the same error: no call returns
    the posted result, none the duplicate result.  The same record without
    the key is posted by the first call and found duplicate by the second,
    which leaves the store of the first. *)
Theorem C2_registro_normalizado_no_se_contabiliza :
  Ejemplos.parsear_ejemplo [x00] "f123.xml" = Retorna Ejemplos.doc_escenario /\
  proveedores (snd (cuerpo_generar_asiento Ejemplos.doc_escenario Ejemplos.db_sembrada)) =
    [TblProveedores.Fila "76543210-1" "Acme" (Some 1)] /\
  (let primera :=
     procesar_documento_con_control_duplicado Ejemplos.doc_escenario Ejemplos.db_sembrada in
   let segunda :=
     procesar_documento_con_control_duplicado Ejemplos.doc_escenario (snd primera) in
   fst primera =
     Lanza (Exc TypeError "'razon_social' is an invalid keyword argument for TblDocumentos") /\
   snd primera = Ejemplos.db_sembrada /\
   fst segunda =
     Lanza (Exc TypeError "'razon_social' is an invalid keyword argument for TblDocumentos") /\
   snd segunda = Ejemplos.db_sembrada /\
   documentos_con_clave "123" "76543210-1" "33" (snd segunda) = []) /\
  (let primera :=
     procesar_documento_con_control_duplicado Ejemplos.doc_sin_razon Ejemplos.db_sembrada in
   let segunda :=
     procesar_documento_con_control_duplicado Ejemplos.doc_sin_razon (snd primera) in
   fst primera = Retorna (Ok 1 1) /\
   fst segunda = Retorna (Duplicado "Documento ya existe (folio, rut, tipo_dte)") /\
   snd segunda = snd primera /\
   length (documentos_con_clave "123" "76543210-1" "33" (snd segunda)) = 1%nat /\
   length (asientos_de 1 (snd segunda)) = 1%nat /\
   length (movimientos_de 1 (snd segunda)) = 3%nat).
Proof.
  repeat split; vm_compute; reflexivity.
Qed.

(** ** Duplicates *)

Lemma existsb_filter_nil {A : Type} (f : A -> bool) (l : list A) :
  existsb f l = false <-> filter f l = [].
Proof.
  induction l as [|x l IH]; cbn [existsb filter]; [tauto|].
  destruct (f x); cbn [orb]; [split; discriminate|exact IH].
Qed.

Lemma cuenta_por_nombre_estable (n : string) (db db' : BaseDatos) :
  plan_cuentas db' = plan_cuentas db -> cuenta_por_nombre n db' = cuenta_por_nombre n db.
Proof. intros H. unfold cuenta_por_nombre. rewrite H. reflexivity. Qed.

(** Posting succeeds when the three accounts are in the chart, the record
    has no ["razon_social"], its amounts are numbers and no document of the
    store has its key. *)
Lemma generar_asiento_procede (documento : Documento) (db : BaseDatos) :
  (forall n, In n cuentas_obligatorias -> cuenta_por_nombre n db <> None) ->
  razon_social documento = None ->
  con_nan documento = false ->
  documentos_con_clave (folio documento) (rut_emisor documento) (tipo_dte documento) db = [] ->
  exists r db', generar_asiento documento db = (Retorna r, db').
Proof.
  intros Hc Hr Hnan Hk.
  destruct (generar_asiento documento db) as [[r|e] db'] eqn:Hga; [eauto|].
  exfalso. destruct (generar_asiento_fallo _ _ _ _ Hga) as [_ [H|[H|H]]].
  - destruct H as (n & Hin & Hn & _). exact (Hc n Hin Hn).
  - destruct H as [H _]. exact (H Hr).
  - destruct H as (_ & _ & [Hn|Hex]); [congruence|]. apply existsb_filter_nil in Hk.
    unfold documentos_con_clave in Hk. congruence.
Qed.

(** A call of the wrapper that does not post leaves the store it found. *)
Lemma procesar_sin_efecto (documento : Documento) (db db' : BaseDatos)
    (salida : resultado respuesta) :
  procesar_documento_con_control_duplicado documento db = (salida, db') ->
  (forall doc_id asiento_id, salida <> Retorna (Ok doc_id asiento_id)) ->
  db' = db.
Proof.
  unfold procesar_documento_con_control_duplicado, controlar_duplicado.
  destruct (generar_asiento documento db) as [[r|e] db0] eqn:Hga.
  - intros H Hno. inversion H; subst.
    destruct (generar_asiento_exito _ _ _ _ Hga)
      as (g & i & p & i1 & i2 & i3 & _ & _ & _ & _ & _ & Hr & _).
    cbv zeta in Hr. exfalso. exact (Hno _ _ (f_equal Retorna Hr)).
  - destruct (generar_asiento_fallo _ _ _ _ Hga) as [-> _].
    destruct (clase e); intros H _; inversion H; reflexivity.
Qed.

(** Idempotent duplicate detection, for records that can be posted.  In a
    store with referential integrity and the three accounts, where no
    document has the key, posting a record without ["razon_social"] whose
    amounts are numbers returns the new identifiers; posting then a record
    with the same folio, issuer and type (and without ["razon_social"],
    whatever its amounts) returns the duplicate result and leaves the store
    of the first call, which holds one document with the key, one entry of
    that document and three movements of that entry. *)
Theorem duplicado_tras_contabilizar (d1 d2 : Documento) (db : BaseDatos) :
  bien_formada db ->
  (forall n, In n cuentas_obligatorias -> cuenta_por_nombre n db <> None) ->
  razon_social d1 = None ->
  con_nan d1 = false ->
  razon_social d2 = None ->
  folio d2 = folio d1 -> rut_emisor d2 = rut_emisor d1 -> tipo_dte d2 = tipo_dte d1 ->
  documentos_con_clave (folio d1) (rut_emisor d1) (tipo_dte d1) db = [] ->
  exists (doc_id asiento_id : Z) (db1 : BaseDatos)
         (fila_doc : TblDocumentos.fila) (fila_asiento : TblAsientos.fila),
    procesar_documento_con_control_duplicado d1 db = (Retorna (Ok doc_id asiento_id), db1) /\
    procesar_documento_con_control_duplicado d2 db1 =
      (Retorna (Duplicado "Documento ya existe (folio, rut, tipo_dte)"), db1) /\
    documentos_con_clave (folio d1) (rut_emisor d1) (tipo_dte d1) db1 = [fila_doc] /\
    TblDocumentos.id fila_doc = doc_id /\
    asientos_de doc_id db1 = [fila_asiento] /\
    TblAsientos.id fila_asiento = asiento_id /\
    length (movimientos_de asiento_id db1) = 3%nat.
Proof.
  intros Hbf Hc Hr1 Hnan Hr2 Hf Hru Ht Hk.
  destruct (generar_asiento_procede d1 db Hc Hr1 Hnan Hk) as (r & db1 & Hga).
  destruct (generar_asiento_exito _ _ _ _ Hga)
    as (g & i & p & i1 & i2 & i3 & Hg & Hi & Hp & _ & _ & Hr & Hpl & _ & Hd & Ha & Hm).
  cbv zeta in Hr, Hd, Ha, Hm. subst r.
  set (doc_id := siguiente_id (map TblDocumentos.id (documentos db))) in *.
  set (asiento_id := siguiente_id (map TblAsientos.id (asientos db))) in *.
  assert (Hk1 : documentos_con_clave (folio d1) (rut_emisor d1) (tipo_dte d1) db1
                = [TblDocumentos.Fila doc_id (folio d1) (tipo_dte d1) (fecha_emision d1)
                     (rut_emisor d1) (monto_neto d1) (monto_iva d1) (monto_total d1)
                     (url_archivo d1)]).
  { unfold documentos_con_clave in *. rewrite Hd, filter_app, Hk.
    cbn [filter app]. unfold misma_clave.
    cbn [TblDocumentos.folio TblDocumentos.rut_emisor TblDocumentos.tipo_dte].
    rewrite !String.eqb_refl. reflexivity. }
  exists doc_id, asiento_id, db1. eexists.
  exists (TblAsientos.Fila asiento_id doc_id (fecha_emision d1)).
  split; [|split; [|split; [exact Hk1|split; [reflexivity|split; [|split; [reflexivity|]]]]]].
  - unfold procesar_documento_con_control_duplicado, controlar_duplicado.
    rewrite Hga. reflexivity.
  - unfold procesar_documento_con_control_duplicado, controlar_duplicado.
    destruct (generar_asiento d2 db1) as [[r2|e2] db2] eqn:Hga2.
    + exfalso.
      destruct (generar_asiento_exito _ _ _ _ Hga2)
        as (_ & _ & _ & _ & _ & _ & _ & _ & _ & _ & Hex & _).
      rewrite Hf, Hru, Ht in Hex. apply existsb_filter_nil in Hex.
      unfold documentos_con_clave in Hk1. congruence.
    + destruct (generar_asiento_fallo _ _ _ _ Hga2) as [-> [H|[H|H]]].
      * exfalso. destruct H as (n & Hin & Hn & _).
        rewrite (cuenta_por_nombre_estable n db db1 Hpl) in Hn. exact (Hc n Hin Hn).
      * exfalso. destruct H as [H _]. exact (H Hr2).
      * destruct H as (_ & -> & _). reflexivity.
  - destruct Hbf as (_ & _ & _ & Hfk).
    unfold asientos_de. rewrite Ha, filter_app, filter_nada.
    + cbn [filter TblAsientos.id_documento app]. rewrite Z.eqb_refl. reflexivity.
    + intros a Hin. apply Z.eqb_neq. intros Heq.
      apply (siguiente_id_nuevo (map TblDocumentos.id (documentos db))).
      fold doc_id. rewrite <- Heq. apply Hfk, Hin.
  - destruct Hbf as (_ & _ & Hfk & _).
    unfold movimientos_de. rewrite Hm, filter_app, filter_nada.
    + cbn [filter id_asiento app]. rewrite Z.eqb_refl. reflexivity.
    + intros m Hin. apply Z.eqb_neq. intros Heq.
      apply (siguiente_id_nuevo (map TblAsientos.id (asientos db))).
      fold asiento_id. rewrite <- Heq. apply Hfk, Hin.
Qed.

Lemma duplicado_tras_contabilizar_testigo :
  exists (doc_id asiento_id : Z) (db1 : BaseDatos)
         (fila_doc : TblDocumentos.fila) (fila_asiento : TblAsientos.fila),
    procesar_documento_con_control_duplicado
      Ejemplos.doc_sin_razon Ejemplos.db_sembrada = (Retorna (Ok doc_id asiento_id), db1) /\
    procesar_documento_con_control_duplicado Ejemplos.doc_sin_razon db1 =
      (Retorna (Duplicado "Documento ya existe (folio, rut, tipo_dte)"), db1) /\
    documentos_con_clave "123" "76543210-1" "33" db1 = [fila_doc] /\
    TblDocumentos.id fila_doc = doc_id /\
    asientos_de doc_id db1 = [fila_asiento] /\
    TblAsientos.id fila_asiento = asiento_id /\
    length (movimientos_de asiento_id db1) = 3%nat.
Proof.
  apply (duplicado_tras_contabilizar Ejemplos.doc_sin_razon Ejemplos.doc_sin_razon
           Ejemplos.db_sembrada bien_formada_sembrada); try reflexivity.
  intros n Hn. cbn in Hn. destruct Hn as [<-|[<-|[<-|[]]]]; vm_compute; discriminate.
Defined.

(** Duplicates leave no trace.  When the wrapper returns the duplicate
    result, the store is the store the call found, and the INSERT of the
    document had failed for one of two reasons: an amount of the record is
    not a number, or the store holds a document with the key of the record,
    which is the only reason where the amounts are numbers.  If the issuer
    was not a supplier of the store, the body of the transaction had
    inserted it in the session before the INSERT of the document failed;
    the rollback took it away. *)
Theorem duplicado_sin_rastro
    (documento : Documento) (db db' : BaseDatos) (motivo : string) :
  procesar_documento_con_control_duplicado documento db = (Retorna (Duplicado motivo), db') ->
  db' = db /\
  (con_nan documento = true \/
   existsb (misma_clave (folio documento) (rut_emisor documento) (tipo_dte documento))
           (documentos db) = true) /\
  (con_nan documento = false ->
   existsb (misma_clave (folio documento) (rut_emisor documento) (tipo_dte documento))
           (documentos db) = true) /\
  (proveedor_por_rut (rut_emisor documento) db = None ->
   exists (e : excepcion) (sesion : BaseDatos) (fallback : TblPlanCuentas.fila),
     cuenta_por_nombre GASTOS_DEFAULT db = Some fallback /\
     cuerpo_generar_asiento documento db = (Lanza e, sesion) /\
     clase e = IntegrityError /\
     proveedores sesion =
       proveedores db ++
         [TblProveedores.Fila (rut_emisor documento) (razon_social_o_defecto documento)
            (Some (TblPlanCuentas.id_cuenta fallback))] /\
     proveedor_por_rut (rut_emisor documento) db' = None).
Proof.
  intros H.
  assert (Hdb : db' = db).
  { apply (procesar_sin_efecto _ _ _ _ H). discriminate. }
  subst db'. split; [reflexivity|].
  assert (Hcausa : con_nan documento = true \/
            existsb (misma_clave (folio documento) (rut_emisor documento) (tipo_dte documento))
                    (documentos db) = true).
  { revert H. unfold procesar_documento_con_control_duplicado, controlar_duplicado.
    destruct (generar_asiento documento db) as [[r|e] db0] eqn:Hga.
    - intros H. inversion H; subst.
      destruct (generar_asiento_exito _ _ _ _ Hga)
        as (_ & _ & _ & _ & _ & _ & _ & _ & _ & _ & _ & Hr & _).
      discriminate Hr.
    - destruct (generar_asiento_fallo _ _ _ _ Hga) as [_ [Hf|[Hf|Hf]]].
      + destruct Hf as (n & _ & _ & ->). discriminate.
      + destruct Hf as (_ & ->). discriminate.
      + intros _. exact (proj2 (proj2 Hf)). }
  split; [exact Hcausa|].
  split; [intros Hnan; destruct Hcausa as [Hn|Hex]; [congruence|exact Hex]|].
  intros Hpv. revert H.
  unfold procesar_documento_con_control_duplicado, controlar_duplicado,
    generar_asiento, SessionLocal_begin,
    cuerpo_generar_asiento, bind_tx, session_get, _obtener_cuenta_por_nombre.
  destruct (cuenta_por_nombre GASTOS_DEFAULT db) as [g|] eqn:Hg; [|discriminate].
  destruct (cuenta_por_nombre IVA_CREDITO db) as [i|] eqn:Hi; [|discriminate].
  destruct (cuenta_por_nombre PROVEEDORES_POR_PAGAR db) as [p|] eqn:Hp; [|discriminate].
  unfold construir, nuevo_TblDocumentos.
  rewrite Hpv. unfold insertar_proveedor. cbn [TblProveedores.rut]. rewrite Hpv.
  unfold ret.
  destruct (razon_social documento) eqn:Hrs; [discriminate|].
  insertar_el_documento.
  montos_del_documento documento
    ltac:(intros _; eexists _, _, g; repeat split; reflexivity).
  destruct (existsb _ (documentos db)) eqn:Hex;
    [|unfold insertar_asiento, session_add_all; discriminate].
  intros _. eexists _, _, g. repeat split; reflexivity.
Qed.

(** The document of the scenario is in the store, its supplier is not: the
    session had the supplier when the INSERT of the document failed, the
    store does not. *)
Lemma duplicado_sin_rastro_testigo :
  procesar_documento_con_control_duplicado Ejemplos.doc_sin_razon Ejemplos.db_con_documento =
    (Retorna (Duplicado "Documento ya existe (folio, rut, tipo_dte)"),
     Ejemplos.db_con_documento) /\
  exists (e : excepcion) (sesion : BaseDatos),
    cuerpo_generar_asiento Ejemplos.doc_sin_razon Ejemplos.db_con_documento
      = (Lanza e, sesion) /\
    proveedores sesion = [TblProveedores.Fila "76543210-1" "Proveedor sin nombre" (Some 1)] /\
    proveedores Ejemplos.db_con_documento = [].
Proof.
  assert (H : procesar_documento_con_control_duplicado
                Ejemplos.doc_sin_razon Ejemplos.db_con_documento =
              (Retorna (Duplicado "Documento ya existe (folio, rut, tipo_dte)"),
               Ejemplos.db_con_documento)) by (vm_compute; reflexivity).
  split; [exact H|].
  destruct (duplicado_sin_rastro _ _ _ _ H) as (_ & _ & _ & Hs).
  destruct (Hs eq_refl) as (e & sesion & fallback & Hf & Hc & _ & Hp & _).
  exists e, sesion. split; [exact Hc|]. split; [|reflexivity].
  rewrite Hp. vm_compute in Hf. inversion Hf. reflexivity.
Defined.

End PropiedadesContables.

(** * Properties of the normalizer *)

Section PropiedadesNormalizador.

Import ProcesadorXml.

Variable xmltodict_parse : list Byte.byte -> resultado valor.
Variable float_de_str : string -> option float.
Variable strptime_ymd : string -> resultado date.
Variable repr_contenedor : valor -> string.
Variable strip : string -> string.

Local Notation "'parsear'" :=
  (parsear_dte_xml xmltodict_parse float_de_str strptime_ymd repr_contenedor strip).
Local Notation "'cuerpo'" :=
  (cuerpo_parsear xmltodict_parse float_de_str strptime_ymd repr_contenedor strip).
Local Notation "'legible'" := (encabezado_legible xmltodict_parse strptime_ymd).

(** A key no mapping of the tree has is not found. *)
Lemma buscar_ausente (clave : string) :
  forall data : valor,
    contiene_clave data clave = false -> _buscar_nodo_recursivo data clave = VNone.
Proof.
  fix IH 1. intros [ | s | items | elems ]; try reflexivity.
  - cbn [contiene_clave _buscar_nodo_recursivo].
    revert items. fix IHl 1. intros [ | [k v] resto ]; [reflexivity|].
    intros H. apply orb_false_iff in H. destruct H as [H H3].
    apply orb_false_iff in H. destruct H as [H1 H2].
    rewrite H1. rewrite (IH v H2). apply IHl, H3.
  - cbn [contiene_clave _buscar_nodo_recursivo].
    revert elems. fix IHl 1. intros [ | v resto ]; [reflexivity|].
    intros H. apply orb_false_iff in H. destruct H as [H1 H2].
    rewrite (IH v H1). apply IHl, H2.
Qed.

(** [_safe_float] never raises, and computes the lenient amount. *)
Lemma _safe_float_get (campo : option valor) :
  _safe_float float_de_str (match campo with Some v => v | None => VNone end)
  = Retorna (monto_tolerante float_de_str campo).
Proof.
  unfold _safe_float, py_float, monto_tolerante.
  destruct campo as [[ | s | items | elems ]|]; try reflexivity.
  destruct (float_de_str s); reflexivity.
Qed.

Lemma _safe_float_total (value : valor) :
  exists f : float, _safe_float float_de_str value = Retorna f.
Proof.
  unfold _safe_float, py_float.
  destruct value as [ | s | items | elems ]; try (eexists; reflexivity).
  destruct (float_de_str s); eexists; reflexivity.
Qed.

(** The record a legible header normalizes to. *)
Lemma parsear_legible (xml_bytes : list Byte.byte) (nombre_archivo : string)
    (id_doc emisor totales : list (string * valor)) (fecha : date) :
  legible xml_bytes id_doc emisor totales fecha ->
  parsear xml_bytes nombre_archivo =
    Retorna {| folio := strip (py_str repr_contenedor (texto_o (buscar_item "Folio" id_doc) ""));
               tipo_dte := strip (py_str repr_contenedor (texto_o (buscar_item "TipoDTE" id_doc) ""));
               fecha_emision := fecha;
               rut_emisor := strip (py_str repr_contenedor (texto_o (buscar_item "RUTEmisor" emisor) ""));
               razon_social :=
                 Some (strip (py_str repr_contenedor
                                (texto_o (buscar_item "RznSoc" emisor) "Proveedor sin nombre")));
               monto_neto := monto_tolerante float_de_str (buscar_item "MntNeto" totales);
               monto_iva := monto_tolerante float_de_str (buscar_item "IVA" totales);
               monto_total := monto_tolerante float_de_str (buscar_item "MntTotal" totales);
               url_archivo := nombre_archivo |}.
Proof.
  intros (data & h & s & Hp & Hb & Hh & Hid & Hem & Htot & Hf & Hd).
  unfold parsear_dte_xml, cuerpo_parsear.
  rewrite Hp. cbn [bind]. rewrite Hb.
  destruct h as [|par h']; [congruence|]. cbn [truthy negb].
  rewrite Hid. cbn [bind]. rewrite Hem. cbn [bind]. rewrite Htot. cbn [bind].
  replace (get (VDict id_doc) "FchEmis" VNone) with (@Retorna valor (VStr s))
    by (unfold get; rewrite Hf; reflexivity).
  cbn [bind strptime]. rewrite Hd. cbn [bind].
  unfold get. cbn [bind].
  rewrite !_safe_float_get. cbn [bind].
  unfold texto_o.
  destruct (buscar_item "Folio" id_doc), (buscar_item "TipoDTE" id_doc),
    (buscar_item "RUTEmisor" emisor), (buscar_item "RznSoc" emisor); reflexivity.
Qed.

(** The outcome of [parsear_dte_xml] when the body of its [try] raises. *)
Lemma parsear_causa (xml_bytes : list Byte.byte) (nombre_archivo : string) (causa : excepcion) :
  cuerpo xml_bytes nombre_archivo = Lanza causa ->
  parsear xml_bytes nombre_archivo = Lanza (error_de_proceso nombre_archivo causa).
Proof. intros H. unfold parsear_dte_xml. rewrite H. reflexivity. Qed.

Lemma cuerpo_sin_encabezado (xml_bytes : list Byte.byte) (nombre_archivo : string) (data : valor) :
  xmltodict_parse xml_bytes = Retorna data ->
  truthy (_buscar_nodo_recursivo data "Encabezado") = false ->
  cuerpo xml_bytes nombre_archivo = Lanza sin_encabezado.
Proof.
  intros Hp Ht. unfold cuerpo_parsear. rewrite Hp. cbn [bind]. rewrite Ht. reflexivity.
Qed.

(** ** The normalizer against its specification *)

(** The lenient numeric coercion, where it is reached.  When the header is
    legible, that is the payload parses, the header is found, its children
    [IdDoc], [Emisor] and [Totales] are each absent or a mapping and the
    issue date is read, normalization returns a record, and each of its
    three amounts
    is the lenient reading of the field of [Totales]: [0.0] when the field
    is absent, when it is a text [float] does not accept and when it is not
    a text; the number [float] reads otherwise. *)
Theorem montos_tolerantes
    (xml_bytes : list Byte.byte) (nombre_archivo : string)
    (id_doc emisor totales : list (string * valor)) (fecha : date) :
  legible xml_bytes id_doc emisor totales fecha ->
  (exists documento : Documento,
     parsear xml_bytes nombre_archivo = Retorna documento /\
     monto_neto documento = monto_tolerante float_de_str (buscar_item "MntNeto" totales) /\
     monto_iva documento = monto_tolerante float_de_str (buscar_item "IVA" totales) /\
     monto_total documento = monto_tolerante float_de_str (buscar_item "MntTotal" totales)) /\
  (forall campo : option valor,
     (campo = None -> monto_tolerante float_de_str campo = cero) /\
     (forall s, campo = Some (VStr s) -> float_de_str s = None ->
        monto_tolerante float_de_str campo = cero) /\
     (forall v, campo = Some v -> (forall s, v <> VStr s) ->
        monto_tolerante float_de_str campo = cero) /\
     (forall s x, campo = Some (VStr s) -> float_de_str s = Some x ->
        monto_tolerante float_de_str campo = x)).
Proof.
  intros H. split.
  - eexists. split; [apply (parsear_legible _ _ _ _ _ _ H)|].
    cbn [monto_neto monto_iva monto_total]. auto.
  - intros campo. repeat split.
    + intros ->. reflexivity.
    + intros s -> Hs. cbn. rewrite Hs. reflexivity.
    + intros v -> Hv. destruct v as [ | s | items | elems ]; try reflexivity.
      exfalso. apply (Hv s). reflexivity.
    + intros s x -> Hs. cbn. rewrite Hs. reflexivity.
Qed.

(** C7 (one error kind).  Whatever the payload, [parsear_dte_xml] returns
    the record its body returns, or raises a [ValueError] whose text is
    "No se pudo procesar", the file name and the text of the exception the
    body raised; it raises nothing else.  It does so when the payload is
    malformed, when no mapping of the tree has the key "Encabezado", when
    [IdDoc] has no issue date and when the issue date is not read by
    [strptime]. *)
Theorem C7_un_solo_error (xml_bytes : list Byte.byte) (nombre_archivo : string) :
  match cuerpo xml_bytes nombre_archivo with
  | Retorna documento => parsear xml_bytes nombre_archivo = Retorna documento
  | Lanza causa =>
      parsear xml_bytes nombre_archivo =
        Lanza (Exc ValueError
                 ("No se pudo procesar " ++ nombre_archivo ++ ": " ++ mensaje causa))
  end /\
  (forall e : excepcion,
     parsear xml_bytes nombre_archivo = Lanza e ->
     clase e = ValueError /\
     exists causa : excepcion,
       cuerpo xml_bytes nombre_archivo = Lanza causa /\
       mensaje e = ("No se pudo procesar " ++ nombre_archivo ++ ": " ++ mensaje causa)%string) /\
  (forall causa : excepcion,
     xmltodict_parse xml_bytes = Lanza causa ->
     parsear xml_bytes nombre_archivo = Lanza (error_de_proceso nombre_archivo causa)) /\
  (forall data : valor,
     xmltodict_parse xml_bytes = Retorna data ->
     contiene_clave data "Encabezado" = false ->
     parsear xml_bytes nombre_archivo =
       Lanza (error_de_proceso nombre_archivo sin_encabezado)) /\
  (forall (data : valor) (encabezado id_doc : list (string * valor)),
     xmltodict_parse xml_bytes = Retorna data ->
     _buscar_nodo_recursivo data "Encabezado" = VDict encabezado ->
     encabezado <> [] ->
     get (VDict encabezado) "IdDoc" (VDict []) = Retorna (VDict id_doc) ->
     (buscar_item "FchEmis" id_doc = None ->
      parsear xml_bytes nombre_archivo =
        Lanza (error_de_proceso nombre_archivo
                 (Exc TypeError "strptime() argument 1 must be str, not None"))) /\
     (forall (s : string) (causa : excepcion),
        buscar_item "FchEmis" id_doc = Some (VStr s) ->
        strptime_ymd s = Lanza causa ->
        parsear xml_bytes nombre_archivo = Lanza (error_de_proceso nombre_archivo causa))).
Proof.
  split; [|split; [|split; [|split]]].
  - unfold parsear_dte_xml. destruct (cuerpo xml_bytes nombre_archivo); reflexivity.
  - intros e H. unfold parsear_dte_xml in H.
    destruct (cuerpo xml_bytes nombre_archivo) as [d|causa]; inversion H.
    split; [reflexivity|]. exists causa. split; reflexivity.
  - intros causa H. apply parsear_causa. unfold cuerpo_parsear. rewrite H. reflexivity.
  - intros data Hp Hc. apply parsear_causa.
    apply (cuerpo_sin_encabezado _ _ data Hp).
    rewrite (buscar_ausente _ _ Hc). reflexivity.
  - intros data encabezado id_doc Hp Hb Hne Hid.
    destruct encabezado as [|par resto]; [congruence|].
    split.
    + intros Hf. apply parsear_causa. unfold cuerpo_parsear.
      rewrite Hp. cbn [bind]. rewrite Hb. cbn [truthy negb].
      rewrite Hid. cbn [bind]. unfold get. cbn [bind]. rewrite Hf. reflexivity.
    + intros s causa Hf Hs. apply parsear_causa. unfold cuerpo_parsear.
      rewrite Hp. cbn [bind]. rewrite Hb. cbn [truthy negb].
      rewrite Hid. cbn [bind]. unfold get. cbn [bind]. rewrite Hf. cbn [strptime].
      rewrite Hs. reflexivity.
Qed.

(** C8 (empty header).  When the search for "Encabezado" returns [None],
    the empty text or the empty mapping, as it does when the header node of
    the tree has such a value, normalization raises the very error it
    raises when no mapping of the tree has the key: the [ValueError] that
    wraps "No se encontró nodo 'Encabezado' en el XML". *)
Theorem C8_encabezado_vacio
    (xml_bytes : list Byte.byte) (nombre_archivo : string) (data : valor) :
  xmltodict_parse xml_bytes = Retorna data ->
  _buscar_nodo_recursivo data "Encabezado" = VNone \/
  _buscar_nodo_recursivo data "Encabezado" = VStr "" \/
  _buscar_nodo_recursivo data "Encabezado" = VDict [] \/
  contiene_clave data "Encabezado" = false ->
  parsear xml_bytes nombre_archivo =
    Lanza (Exc ValueError
             ("No se pudo procesar " ++ nombre_archivo
                ++ ": No se encontró nodo 'Encabezado' en el XML")).
Proof.
  intros Hp Hv.
  apply (parsear_causa xml_bytes nombre_archivo sin_encabezado).
  apply (cuerpo_sin_encabezado _ _ data Hp).
  destruct Hv as [->|[->|[->|Hc]]]; try reflexivity.
  rewrite (buscar_ausente _ _ Hc). reflexivity.
Qed.

Hypothesis strip_vacio : strip "" = "".

(** Absent identifiers, where the header is legible (the payload parses,
    the header is found, its children [IdDoc], [Emisor] and [Totales] are
    each absent or a mapping and the issue date is read): normalization
    returns a record in which the folio, the document type
    and the issuer identifier are each the trimmed text of the field, and
    the empty text when the field is absent; with the three absent the
    deduplication key is made of three empty texts. *)
Theorem identificadores_ausentes
    (xml_bytes : list Byte.byte) (nombre_archivo : string)
    (id_doc emisor totales : list (string * valor)) (fecha : date) :
  legible xml_bytes id_doc emisor totales fecha ->
  exists documento : Documento,
    parsear xml_bytes nombre_archivo = Retorna documento /\
    folio documento = strip (py_str repr_contenedor (texto_o (buscar_item "Folio" id_doc) "")) /\
    tipo_dte documento = strip (py_str repr_contenedor (texto_o (buscar_item "TipoDTE" id_doc) "")) /\
    rut_emisor documento
      = strip (py_str repr_contenedor (texto_o (buscar_item "RUTEmisor" emisor) "")) /\
    (buscar_item "Folio" id_doc = None -> folio documento = "") /\
    (buscar_item "TipoDTE" id_doc = None -> tipo_dte documento = "") /\
    (buscar_item "RUTEmisor" emisor = None -> rut_emisor documento = "") /\
    (buscar_item "Folio" id_doc = None ->
     buscar_item "TipoDTE" id_doc = None ->
     buscar_item "RUTEmisor" emisor = None ->
     (folio documento, rut_emisor documento, tipo_dte documento) = ("", "", "")).
Proof.
  intros H. eexists. split; [apply (parsear_legible _ _ _ _ _ _ H)|].
  cbn [folio tipo_dte rut_emisor].
  repeat split.
  - intros ->. exact strip_vacio.
  - intros ->. exact strip_vacio.
  - intros ->. exact strip_vacio.
  - intros -> -> ->. cbn [texto_o py_str]. rewrite strip_vacio. reflexivity.
Qed.

End PropiedadesNormalizador.

(** ** The normalizer on the documents of the scenario *)

Section EscenarioNormalizador.

Import ProcesadorXml Ejemplos.

Lemma legible_sin_iva :
  encabezado_legible parse_ejemplo fecha_ymd [x01]
    [("TipoDTE", VStr "33"); ("Folio", VStr "123"); ("FchEmis", VStr "2024-05-01")]
    [("RUTEmisor", VStr "76543210-1"); ("RznSoc", VStr "Acme")]
    [("MntNeto", VStr "mil"); ("MntTotal", VStr "1190")]
    (Fecha 2024 5 1).
Proof.
  exists arbol_sin_iva.
  exists [("IdDoc", id_doc_123); ("Emisor", emisor_acme);
          ("Totales", VDict [("MntNeto", VStr "mil"); ("MntTotal", VStr "1190")])].
  exists "2024-05-01".
  repeat split; try reflexivity. discriminate.
Defined.

Lemma legible_solo_fecha :
  encabezado_legible parse_ejemplo fecha_ymd [x04]
    [("FchEmis", VStr "2024-05-01")] [] [] (Fecha 2024 5 1).
Proof.
  exists arbol_solo_fecha.
  exists [("IdDoc", VDict [("FchEmis", VStr "2024-05-01")])].
  exists "2024-05-01".
  repeat split; try reflexivity. discriminate.
Defined.

(** The totals node without [IVA] and with a net amount that is no number:
    both amounts are [0.0], the total is 1190.0. *)
Lemma montos_tolerantes_testigo :
  (exists documento : Documento,
     parsear_ejemplo [x01] "f.xml" = Retorna documento /\
     monto_neto documento = cero /\
     monto_iva documento = cero /\
     monto_total documento = float_de_Z 1190) /\
  (forall campo : option valor,
     (campo = None -> monto_tolerante float_decimal campo = cero) /\
     (forall s, campo = Some (VStr s) -> float_decimal s = None ->
        monto_tolerante float_decimal campo = cero) /\
     (forall v, campo = Some v -> (forall s, v <> VStr s) ->
        monto_tolerante float_decimal campo = cero) /\
     (forall s x, campo = Some (VStr s) -> float_decimal s = Some x ->
        monto_tolerante float_decimal campo = x)).
Proof.
  exact (montos_tolerantes parse_ejemplo float_decimal fecha_ymd repr_simple quitar_blancos
           [x01] "f.xml" _ _ _ _ legible_sin_iva).
Defined.

(** C6 (lenient numeric coercion), at a totals element without content.
    The claim is that absent monetary fields do not make normalization
    fail and resolve to [0.0].  In the tree of [<Totales/>] the three
    monetary fields are absent, and the header, [IdDoc] and [Emisor] are
    those of the scenario; normalization raises, because
    [encabezado.get("Totales", {})] returns the [None] of the empty element
    and [None] has no [get].  No record results, so no amount resolves to
    [0.0].  The same document without the [Totales] element, for which the
    default [{}] of that [get] is written, normalizes with the three
    amounts [0.0]. *)
Lemma C6_totales_sin_contenido :
  parse_ejemplo [x02] = Retorna arbol_totales_vacio /\
  contiene_clave arbol_totales_vacio "MntNeto" = false /\
  contiene_clave arbol_totales_vacio "IVA" = false /\
  contiene_clave arbol_totales_vacio "MntTotal" = false /\
  parsear_ejemplo [x02] "f.xml" =
    Lanza (Exc ValueError
             "No se pudo procesar f.xml: 'NoneType' object has no attribute 'get'") /\
  ~ (exists documento : Documento,
       parsear_ejemplo [x02] "f.xml" = Retorna documento /\
       monto_neto documento = cero /\
       monto_iva documento = cero /\
       monto_total documento = cero) /\
  (exists documento : Documento,
     parsear_ejemplo [x03] "f.xml" = Retorna documento /\
     monto_neto documento = cero /\
     monto_iva documento = cero /\
     monto_total documento = cero).
Proof.
  repeat split; try (vm_compute; reflexivity).
  - intros (d & H & _). vm_compute in H. discriminate H.
  - eexists. repeat split; vm_compute; reflexivity.
Qed.

Lemma C7_un_solo_error_testigo :
  parsear_ejemplo [] "f.xml" =
    Lanza (error_de_proceso "f.xml" (Exc ExpatError "no element found: line 1, column 0")) /\
  parsear_ejemplo [x09] "f.xml" = Lanza (error_de_proceso "f.xml" sin_encabezado) /\
  parsear_ejemplo [x07] "f.xml" =
    Lanza (error_de_proceso "f.xml"
             (Exc TypeError "strptime() argument 1 must be str, not None")) /\
  parsear_ejemplo [x08] "f.xml" =
    Lanza (error_de_proceso "f.xml"
             (Exc ValueError "time data '01/05/2024' does not match format '%Y-%m-%d'")).
Proof.
  pose (C := C7_un_solo_error parse_ejemplo float_decimal fecha_ymd repr_simple quitar_blancos).
  split; [|split; [|split]].
  - destruct (C [] "f.xml") as (_ & _ & H & _). apply H. reflexivity.
  - destruct (C [x09] "f.xml") as (_ & _ & _ & H & _).
    apply (H arbol_sin_encabezado); reflexivity.
  - destruct (C [x07] "f.xml") as (_ & _ & _ & _ & H).
    destruct (H arbol_sin_fecha
                [("IdDoc", VDict [("Folio", VStr "123")]); ("Emisor", emisor_acme)]
                [("Folio", VStr "123")]
                eq_refl eq_refl ltac:(discriminate) eq_refl) as [H' _].
    apply H'. reflexivity.
  - destruct (C [x08] "f.xml") as (_ & _ & _ & _ & H).
    destruct (H arbol_fecha_ilegible
                [("IdDoc", VDict [("Folio", VStr "123"); ("FchEmis", VStr "01/05/2024")])]
                [("Folio", VStr "123"); ("FchEmis", VStr "01/05/2024")]
                eq_refl eq_refl ltac:(discriminate) eq_refl) as [_ H'].
    apply (H' "01/05/2024"); reflexivity.
Defined.

(** [<Encabezado/>]: the header node is in the tree, its value is [None]. *)
Lemma C8_encabezado_vacio_testigo :
  contiene_clave arbol_encabezado_vacio "Encabezado" = true /\
  parsear_ejemplo [x06] "f.xml" =
    Lanza (Exc ValueError
             "No se pudo procesar f.xml: No se encontró nodo 'Encabezado' en el XML").
Proof.
  split; [reflexivity|].
  apply (C8_encabezado_vacio parse_ejemplo float_decimal fecha_ymd repr_simple quitar_blancos
           [x06] "f.xml" arbol_encabezado_vacio).
  - reflexivity.
  - left. reflexivity.
Defined.

(** Only the issue date: the record has the three identifiers empty. *)
Lemma identificadores_ausentes_testigo :
  exists documento : Documento,
    parsear_ejemplo [x04] "f.xml" = Retorna documento /\
    (folio documento, rut_emisor documento, tipo_dte documento) = ("", "", "").
Proof.
  destruct (identificadores_ausentes parse_ejemplo float_decimal fecha_ymd repr_simple
              quitar_blancos eq_refl [x04] "f.xml" _ _ _ _ legible_solo_fecha)
    as (documento & Hd & _ & _ & _ & _ & _ & _ & Hclave).
  exists documento. split; [exact Hd|].
  apply Hclave; reflexivity.
Defined.

(** C10 (absent identifiers), at an issuer element without content.  The
    claim is that normalization never fails because folio, document type
    or issuer identifier is absent.  The tree of [<Emisor/>] has none of
    the three, and its issue date is that of the scenario; normalization
    raises, because [encabezado.get("Emisor", {})] returns the [None] of
    the empty element and [None] has no [get].  The same document without
    the [Emisor] element, for which the default [{}] of that [get] is
    written, normalizes with the three identifiers empty. *)
Lemma C10_emisor_sin_contenido :
  parse_ejemplo [x05] = Retorna arbol_emisor_vacio /\
  contiene_clave arbol_emisor_vacio "Folio" = false /\
  contiene_clave arbol_emisor_vacio "TipoDTE" = false /\
  contiene_clave arbol_emisor_vacio "RUTEmisor" = false /\
  parsear_ejemplo [x05] "f.xml" =
    Lanza (Exc ValueError
             "No se pudo procesar f.xml: 'NoneType' object has no attribute 'get'") /\
  ~ (exists documento : Documento, parsear_ejemplo [x05] "f.xml" = Retorna documento) /\
  (exists documento : Documento,
     parsear_ejemplo [x04] "f.xml" = Retorna documento /\
     (folio documento, rut_emisor documento, tipo_dte documento) = ("", "", "")).
Proof.
  repeat split; try (vm_compute; reflexivity).
  - intros (d & H). vm_compute in H. discriminate H.
  - eexists. repeat split; vm_compute; reflexivity.
Qed.

End EscenarioNormalizador.

(** * The normalizer feeding the posting engine *)

Section Canalizacion.

Import ProcesadorXml LogicaContable.

Variable xmltodict_parse : list Byte.byte -> resultado valor.
Variable float_de_str : string -> option float.
Variable strptime_ymd : string -> resultado date.
Variable repr_contenedor : valor -> string.
Variable strip : string -> string.

Local Notation "'parsear'" :=
  (parsear_dte_xml xmltodict_parse float_de_str strptime_ymd repr_contenedor strip).

(** Every record the normalizer returns has the key ["razon_social"]. *)
Lemma parsear_con_razon_social
    (xml_bytes : list Byte.byte) (nombre_archivo : string) (documento : Documento) :
  parsear xml_bytes nombre_archivo = Retorna documento ->
  razon_social documento <> None.
Proof.
  unfold parsear_dte_xml.
  destruct (cuerpo_parsear _ _ _ _ _ xml_bytes nombre_archivo) as [d|e] eqn:Hc;
    [|discriminate].
  intros H; inversion H; subst d; clear H. revert Hc.
  unfold cuerpo_parsear.
  repeat first
    [ discriminate
    | progress cbn [bind]
    | match goal with
      | |- context [bind ?m _] => destruct m
      | |- context [if ?b then _ else _] => destruct b
      end ].
  intros H; inversion H. cbn. discriminate.
Qed.

(** A record the normalizer returned is never posted, whatever the store:
    the wrapper raises, either the configuration error of a missing account
    or the [TypeError] of the document row, and the store is as before. *)
Theorem registro_normalizado_sin_asiento
    (xml_bytes : list Byte.byte) (nombre_archivo : string)
    (documento : Documento) (db : BaseDatos) :
  parsear xml_bytes nombre_archivo = Retorna documento ->
  exists e : excepcion,
    procesar_documento_con_control_duplicado documento db = (Lanza e, db) /\
    ((exists n, In n cuentas_obligatorias /\ cuenta_por_nombre n db = None /\
                e = Exc ValueError ("No existe la cuenta obligatoria: " ++ n)) \/
     e = Exc TypeError "'razon_social' is an invalid keyword argument for TblDocumentos").
Proof.
  intros Hp. apply parsear_con_razon_social in Hp.
  unfold procesar_documento_con_control_duplicado, controlar_duplicado.
  destruct (generar_asiento documento db) as [[r|e] db'] eqn:Hga.
  - exfalso.
    destruct (generar_asiento_exito _ _ _ _ Hga)
      as (_ & _ & _ & _ & _ & _ & _ & _ & _ & Hr & _).
    exact (Hp Hr).
  - destruct (generar_asiento_fallo _ _ _ _ Hga) as [-> [H|[H|H]]].
    + destruct H as (n & Hin & Hn & ->). eexists. split; [reflexivity|].
      left. exists n. auto.
    + destruct H as (_ & ->). eexists. split; [reflexivity|]. now right.
    + exfalso. destruct H as (Hr & _). exact (Hp Hr).
Qed.

End Canalizacion.

Lemma registro_normalizado_sin_asiento_testigo :
  exists e : excepcion,
    LogicaContable.procesar_documento_con_control_duplicado
      Ejemplos.doc_escenario Ejemplos.db_sembrada = (Lanza e, Ejemplos.db_sembrada) /\
    ((exists n, In n LogicaContable.cuentas_obligatorias /\
                LogicaContable.cuenta_por_nombre n Ejemplos.db_sembrada = None /\
                e = Exc ValueError ("No existe la cuenta obligatoria: " ++ n)) \/
     e = Exc TypeError "'razon_social' is an invalid keyword argument for TblDocumentos").
Proof.
  apply (registro_normalizado_sin_asiento Ejemplos.parse_ejemplo Ejemplos.float_decimal
           Ejemplos.fecha_ymd Ejemplos.repr_simple Ejemplos.quitar_blancos
           [x00] "f123.xml" Ejemplos.doc_escenario Ejemplos.db_sembrada).
  vm_compute. reflexivity.
Defined.

(** * The search of a key in the tree *)

Section PropiedadesBusqueda.

Import ProcesadorXml Arbol.

(** Induction on a tree, with the property at hand for every value of a
    mapping and every element of a sequence. *)
Lemma valor_induccion (P : valor -> Prop) :
  P VNone ->
  (forall s, P (VStr s)) ->
  (forall items, Forall (fun kv => P (snd kv)) items -> P (VDict items)) ->
  (forall elems, Forall P elems -> P (VList elems)) ->
  forall v, P v.
Proof.
  intros Hn Hs Hd Hl. fix IH 1. intros [ | s | items | elems ].
  - exact Hn.
  - apply Hs.
  - apply Hd. induction items as [ | [k x] resto IHr ]; constructor; [apply IH|exact IHr].
  - apply Hl. induction elems as [ | x resto IHr ]; constructor; [apply IH|exact IHr].
Qed.

(** What the search returns is in the tree: a value other than [None] is
    the value of an item keyed [clave] of some mapping of the tree. *)
Theorem busqueda_devuelve_valor_del_arbol (clave : string) (data v : valor) :
  _buscar_nodo_recursivo data clave = v ->
  v <> VNone ->
  In v (valores_de_clave data clave).
Proof.
  revert v. induction data as [ | s | items IHi | elems IHe ] using valor_induccion;
    intros v; cbn [_buscar_nodo_recursivo valores_de_clave];
    try (intros <- H; now elim H).
  - induction IHi as [ | [k x] resto Hx _ IHr ]; [intros <- H; now elim H|].
    cbn [snd] in Hx.
    destruct (String.eqb k clave) eqn:Hk.
    + intros <- _. cbn [app]. now left.
    + cbn [app]. intros Hv Hn. apply in_or_app.
      destruct (_buscar_nodo_recursivo x clave) eqn:Hb.
      * right. exact (IHr Hv Hn).
      * left. apply Hx; [congruence|exact Hn].
      * left. apply Hx; [congruence|exact Hn].
      * left. apply Hx; [congruence|exact Hn].
  - induction IHe as [ | x resto Hx _ IHr ]; [intros <- H; now elim H|].
    intros Hv Hn. apply in_or_app.
    destruct (_buscar_nodo_recursivo x clave) eqn:Hb.
    + right. exact (IHr Hv Hn).
    + left. apply Hx; [congruence|exact Hn].
    + left. apply Hx; [congruence|exact Hn].
    + left. apply Hx; [congruence|exact Hn].
Qed.

Lemma busqueda_devuelve_valor_del_arbol_testigo :
  In (VStr "2024-05-01") (valores_de_clave Casos.arbol_dos_documentos "FchEmis").
Proof.
  apply (busqueda_devuelve_valor_del_arbol "FchEmis" Casos.arbol_dos_documentos
           (VStr "2024-05-01")).
  - vm_compute. reflexivity.
  - discriminate.
Defined.

(** The search is in document order: where no item keyed [clave] has the
    value [None], it returns the value of the first item keyed [clave] of
    the tree, and [None] only when no mapping of the tree has the key. *)
Theorem busqueda_primero_en_orden (clave : string) (data : valor) :
  ~ In VNone (valores_de_clave data clave) ->
  _buscar_nodo_recursivo data clave = hd VNone (valores_de_clave data clave).
Proof.
  induction data as [ | s | items IHi | elems IHe ] using valor_induccion;
    cbn [_buscar_nodo_recursivo valores_de_clave]; try reflexivity.
  - induction IHi as [ | [k x] resto Hx _ IHr ]; [reflexivity|].
    cbn [snd] in Hx. intros Hno.
    destruct (String.eqb k clave) eqn:Hk; [reflexivity|].
    cbn [app] in Hno |- *.
    assert (Hnx : ~ In VNone (valores_de_clave x clave))
      by (intros Hin; apply Hno, in_or_app; left; exact Hin).
    specialize (Hx Hnx).
    destruct (valores_de_clave x clave) as [ | y ys ] eqn:Hvx.
    + cbn [hd] in Hx. rewrite Hx. cbn [app] in Hno |- *. exact (IHr Hno).
    + cbn [hd] in Hx. rewrite Hx. cbn [app hd].
      destruct y; try reflexivity. elim Hnx. now left.
  - induction IHe as [ | x resto Hx _ IHr ]; [reflexivity|].
    intros Hno.
    assert (Hnx : ~ In VNone (valores_de_clave x clave))
      by (intros Hin; apply Hno, in_or_app; left; exact Hin).
    specialize (Hx Hnx).
    destruct (valores_de_clave x clave) as [ | y ys ] eqn:Hvx.
    + cbn [hd] in Hx. rewrite Hx. cbn [app] in Hno |- *. exact (IHr Hno).
    + cbn [hd] in Hx. rewrite Hx. cbn [app hd].
      destruct y; try reflexivity. elim Hnx. now left.
Qed.

Lemma busqueda_primero_en_orden_testigo :
  _buscar_nodo_recursivo Casos.arbol_dos_documentos "Folio" = VStr "123" /\
  valores_de_clave Casos.arbol_dos_documentos "Folio" = [VStr "123"; VStr "456"].
Proof.
  split; [|vm_compute; reflexivity].
  rewrite (busqueda_primero_en_orden "Folio" Casos.arbol_dos_documentos).
  - vm_compute. reflexivity.
  - vm_compute. intros [H|[H|[]]]; discriminate H.
Defined.

End PropiedadesBusqueda.

(** * More on the normalizer *)

Section PropiedadesNormalizador2.

Import ProcesadorXml Registro.

Variable xmltodict_parse : list Byte.byte -> resultado valor.
Variable float_de_str : string -> option float.
Variable strptime_ymd : string -> resultado date.
Variable repr_contenedor : valor -> string.
Variable strip : string -> string.

Local Notation "'parsear'" :=
  (parsear_dte_xml xmltodict_parse float_de_str strptime_ymd repr_contenedor strip).
Local Notation "'legible'" := (encabezado_legible xmltodict_parse strptime_ymd).
Local Notation "'registro'" := (registro_de float_de_str repr_contenedor strip).

(** Normalization returns a record exactly for a legible header: the
    payload parses, the header is found and is a non-empty mapping, its
    children [IdDoc], [Emisor] and [Totales] are absent or mappings, and the
    issue date is a text [strptime] reads.  Anything else raises. *)
Theorem normaliza_solo_lo_legible
    (xml_bytes : list Byte.byte) (nombre_archivo : string) (documento : Documento) :
  parsear xml_bytes nombre_archivo = Retorna documento <->
  exists (id_doc emisor totales : list (string * valor)) (fecha : date),
    legible xml_bytes id_doc emisor totales fecha /\
    documento = registro nombre_archivo id_doc emisor totales fecha.
Proof.
  split.
  2:{ intros (idd & em & tot & fecha & Hl & ->).
      exact (parsear_legible _ _ _ _ _ _ _ _ _ _ _ Hl). }
  unfold parsear_dte_xml.
  destruct (cuerpo_parsear _ _ _ _ _ xml_bytes nombre_archivo) as [d|e] eqn:Hc;
    [|discriminate].
  intros H; inversion H; subst d; clear H. revert Hc.
  unfold cuerpo_parsear, encabezado_legible.
  destruct (xmltodict_parse xml_bytes) as [data|e] eqn:Hp; [|discriminate].
  cbn [bind].
  destruct (_buscar_nodo_recursivo data "Encabezado") as [ | s | h | l ] eqn:Hb.
  - discriminate.
  - cbn [truthy]. destruct (negb (negb (String.eqb s ""))); discriminate.
  - destruct h as [ | par h' ]; [discriminate|]. cbn [truthy negb].
    set (enc := par :: h') in *.
    unfold get at 1 2 3. cbn [bind].
    destruct (match buscar_item "IdDoc" enc with Some v => v | None => VDict [] end)
      as [ | s | idd | l ] eqn:Hid; try discriminate.
    unfold get at 1. cbn [bind].
    destruct (buscar_item "FchEmis" idd) as [[ | s | x | l ]|] eqn:Hf; try discriminate.
    cbn [strptime].
    destruct (strptime_ymd s) as [fecha|e] eqn:Hs; [|discriminate]. cbn [bind].
    unfold get at 1 2. cbn [bind].
    destruct (match buscar_item "Emisor" enc with Some v => v | None => VDict [] end)
      as [ | s' | em | l ] eqn:Hem; try discriminate.
    unfold get at 1 2. cbn [bind].
    destruct (match buscar_item "Totales" enc with Some v => v | None => VDict [] end)
      as [ | s' | tot | l ] eqn:Htot; try discriminate.
    unfold get. cbn [bind].
    rewrite !_safe_float_get. cbn [bind].
    intros H; inversion H; subst documento; clear H.
    exists idd, em, tot, fecha. split.
    + exists data, enc, s. unfold get. rewrite Hid, Hem, Htot.
      repeat split; try assumption; try reflexivity. discriminate.
    + unfold registro_de, texto_o.
      destruct (buscar_item "Folio" idd), (buscar_item "TipoDTE" idd),
        (buscar_item "RUTEmisor" em), (buscar_item "RznSoc" em); reflexivity.
  - cbn [truthy]. destruct l; discriminate.
Qed.

(** A field that is absent takes its default; an element that is present
    and empty (its value is [None]) is read as the text "None", the
    placeholder of the issuer name included. *)
Theorem campo_vacio_es_texto_None
    (xml_bytes : list Byte.byte) (nombre_archivo : string)
    (id_doc emisor totales : list (string * valor)) (fecha : date) :
  legible xml_bytes id_doc emisor totales fecha ->
  exists documento : Documento,
    parsear xml_bytes nombre_archivo = Retorna documento /\
    (buscar_item "Folio" id_doc = Some VNone -> folio documento = strip "None") /\
    (buscar_item "TipoDTE" id_doc = Some VNone -> tipo_dte documento = strip "None") /\
    (buscar_item "RUTEmisor" emisor = Some VNone -> rut_emisor documento = strip "None") /\
    (buscar_item "RznSoc" emisor = Some VNone -> razon_social documento = Some (strip "None")) /\
    (buscar_item "RznSoc" emisor = None ->
       razon_social documento = Some (strip "Proveedor sin nombre")) /\
    (forall s, buscar_item "RznSoc" emisor = Some (VStr s) ->
       razon_social documento = Some (strip s)).
Proof.
  intros Hl. eexists. split; [exact (parsear_legible _ _ _ _ _ _ _ _ _ _ _ Hl)|].
  cbn [folio tipo_dte rut_emisor razon_social].
  repeat split; intros; repeat match goal with H : buscar_item _ _ = _ |- _ => rewrite H end;
    reflexivity.
Qed.

(** A header that is a text or a sequence (two header elements side by
    side) is found and then refused: it has no [get]. *)
Theorem encabezado_que_no_es_mapeo
    (xml_bytes : list Byte.byte) (nombre_archivo : string) (data : valor) :
  xmltodict_parse xml_bytes = Retorna data ->
  (forall s, _buscar_nodo_recursivo data "Encabezado" = VStr s -> s <> "" ->
     parsear xml_bytes nombre_archivo =
       Lanza (Exc ValueError ("No se pudo procesar " ++ nombre_archivo
                                ++ ": 'str' object has no attribute 'get'"))) /\
  (forall x resto, _buscar_nodo_recursivo data "Encabezado" = VList (x :: resto) ->
     parsear xml_bytes nombre_archivo =
       Lanza (Exc ValueError ("No se pudo procesar " ++ nombre_archivo
                                ++ ": 'list' object has no attribute 'get'"))).
Proof.
  intros Hp. split.
  - intros s Hb Hs. unfold parsear_dte_xml, cuerpo_parsear.
    rewrite Hp. cbn [bind]. rewrite Hb. cbn [truthy].
    apply String.eqb_neq in Hs. rewrite Hs. reflexivity.
  - intros x resto Hb. unfold parsear_dte_xml, cuerpo_parsear.
    rewrite Hp. cbn [bind]. rewrite Hb. reflexivity.
Qed.

End PropiedadesNormalizador2.

Lemma campo_vacio_es_texto_None_testigo :
  exists documento : Documento,
    ProcesadorXml.parsear_dte_xml (Casos.parse_arbol Casos.arbol_folio_vacio)
      Ejemplos.float_decimal Ejemplos.fecha_ymd Ejemplos.repr_simple Ejemplos.quitar_blancos
      [x00] "f.xml" = Retorna documento /\
    folio documento = "None" /\ razon_social documento = Some "None".
Proof.
  destruct (campo_vacio_es_texto_None (Casos.parse_arbol Casos.arbol_folio_vacio)
              Ejemplos.float_decimal Ejemplos.fecha_ymd Ejemplos.repr_simple
              Ejemplos.quitar_blancos [x00] "f.xml"
              [("TipoDTE", ProcesadorXml.VStr "33"); ("Folio", ProcesadorXml.VNone);
               ("FchEmis", ProcesadorXml.VStr "2024-05-01")]
              [("RUTEmisor", ProcesadorXml.VStr "76543210-1");
               ("RznSoc", ProcesadorXml.VNone)]
              [] (Fecha 2024 5 1))
    as (documento & Hp & Hfolio & _ & _ & Hrazon & _).
  - exists Casos.arbol_folio_vacio.
    exists [("IdDoc", ProcesadorXml.VDict
                        [("TipoDTE", ProcesadorXml.VStr "33"); ("Folio", ProcesadorXml.VNone);
                         ("FchEmis", ProcesadorXml.VStr "2024-05-01")]);
            ("Emisor", ProcesadorXml.VDict
                         [("RUTEmisor", ProcesadorXml.VStr "76543210-1");
                          ("RznSoc", ProcesadorXml.VNone)])].
    exists "2024-05-01".
    repeat split; try reflexivity. discriminate.
  - exists documento. split; [exact Hp|]. split.
    + rewrite (Hfolio eq_refl). reflexivity.
    + rewrite (Hrazon eq_refl). reflexivity.
Defined.

Lemma encabezado_que_no_es_mapeo_testigo :
  ProcesadorXml.parsear_dte_xml (Casos.parse_arbol Casos.arbol_encabezado_texto)
    Ejemplos.float_decimal Ejemplos.fecha_ymd Ejemplos.repr_simple Ejemplos.quitar_blancos
    [x00] "f.xml"
  = Lanza (Exc ValueError "No se pudo procesar f.xml: 'str' object has no attribute 'get'").
Proof.
  apply (proj1 (encabezado_que_no_es_mapeo (Casos.parse_arbol Casos.arbol_encabezado_texto)
                  Ejemplos.float_decimal Ejemplos.fecha_ymd Ejemplos.repr_simple
                  Ejemplos.quitar_blancos [x00] "f.xml" Casos.arbol_encabezado_texto eq_refl)
           "sin datos").
  - reflexivity.
  - discriminate.
Defined.

(** * More on the posting engine *)

Section PropiedadesContables2.

Import LogicaContable TblMovimientosContables Esquema.

(** The keys of the three movements a successful posting inserts. *)
Lemma generar_asiento_llaves_nuevas (documento : Documento) (db db' : BaseDatos) (r : respuesta) :
  generar_asiento documento db = (Retorna r, db') ->
  exists m1 m2 m3 : fila,
    movimientos db' = movimientos db ++ [m1; m2; m3] /\
    id m1 = siguiente_id (map id (movimientos db)) /\
    id m2 = siguiente_id (map id (movimientos db ++ [m1])) /\
    id m3 = siguiente_id (map id ((movimientos db ++ [m1]) ++ [m2])).
Proof.
  unfold generar_asiento, SessionLocal_begin.
  destruct (cuerpo_generar_asiento documento db) as [[r0|e] db0] eqn:Hc; [|discriminate].
  intros H; inversion H; subst r0 db0; clear H.
  revert Hc.
  unfold cuerpo_generar_asiento, bind_tx, session_get, _obtener_cuenta_por_nombre.
  destruct (cuenta_por_nombre GASTOS_DEFAULT db) as [g|] eqn:Hg; [|discriminate].
  destruct (cuenta_por_nombre IVA_CREDITO db) as [i|] eqn:Hi; [|discriminate].
  destruct (cuenta_por_nombre PROVEEDORES_POR_PAGAR db) as [p|] eqn:Hp; [|discriminate].
  unfold construir, nuevo_TblDocumentos.
  destruct (proveedor_por_rut (rut_emisor documento) db) as [pv|] eqn:Hpv;
    [|unfold insertar_proveedor; cbn [TblProveedores.rut]; rewrite Hpv];
    unfold ret;
    (destruct (razon_social documento) eqn:Hrs; [discriminate|]);
    insertar_el_documento;
    montos_del_documento documento discriminate;
    (destruct (existsb _ (documentos db)) eqn:Hex; [discriminate|]);
    insertar_el_asiento;
    intros H; inversion H; subst; clear H;
    cbn [movimientos];
    eexists _, _, _; (split; [rewrite <- !app_assoc; reflexivity|]);
    cbn [id]; repeat split; rewrite <- ?app_assoc; reflexivity.
Qed.

Lemma append_asociativa (a b c : string) : ((a ++ b) ++ c = a ++ (b ++ c))%string.
Proof. induction a as [ | x a IH ]; cbn [append]; [reflexivity|]. now rewrite IH. Qed.

Lemma NoDup_al_final {A : Type} (l : list A) (x : A) :
  NoDup l -> ~ In x l -> NoDup (l ++ [x]).
Proof.
  intros Hl Hx. induction Hl as [ | y l Hy Hl IH ]; cbn [app].
  - constructor; [intros []|constructor].
  - constructor.
    + intros Hin. apply in_app_or in Hin. destruct Hin as [Hin|[->|[]]].
      * exact (Hy Hin).
      * apply Hx. now left.
    + apply IH. intros Hin. apply Hx. now right.
Qed.

(** The uniqueness the schema declares is kept by every call of the
    wrapper: accounts by id and by code, suppliers by rut, documents by key
    and by id, entries and movements by id. *)
Theorem contabilizar_conserva_llaves (documento : Documento) (db : BaseDatos) :
  llaves_unicas db ->
  llaves_unicas (snd (procesar_documento_con_control_duplicado documento db)).
Proof.
  intros (Hci & Hcc & Hp & Hd & Hk & Ha & Hm).
  unfold procesar_documento_con_control_duplicado, controlar_duplicado.
  destruct (generar_asiento documento db) as [[r|e] db'] eqn:Hga.
  2:{ destruct (generar_asiento_fallo _ _ _ _ Hga) as [-> _].
      destruct (clase e); cbn [snd]; repeat split; assumption. }
  cbn [snd].
  destruct (generar_asiento_llaves_nuevas _ _ _ _ Hga) as (m1 & m2 & m3 & Hmov & H1 & H2 & H3).
  destruct (generar_asiento_exito _ _ _ _ Hga)
    as (g & i & p & i1 & i2 & i3 & _ & _ & _ & _ & Hex & _ & Hplan & Hpv & Hdoc & Has & _).
  cbv zeta in Hpv, Hdoc, Has.
  repeat split.
  - rewrite Hplan. exact Hci.
  - rewrite Hplan. exact Hcc.
  - rewrite Hpv. unfold proveedor_vigente.
    destruct (proveedor_por_rut (rut_emisor documento) db) as [s|] eqn:Hs; [exact Hp|].
    rewrite map_app. cbn [map TblProveedores.rut]. apply NoDup_al_final; [exact Hp|].
    intros Hin. apply in_map_iff in Hin. destruct Hin as (q & Hq & Hin).
    unfold proveedor_por_rut in Hs.
    apply (find_none _ _ Hs) in Hin. rewrite Hq, String.eqb_refl in Hin. discriminate.
  - rewrite Hdoc, map_app. cbn [map TblDocumentos.id].
    apply NoDup_al_final; [exact Hd|apply siguiente_id_nuevo].
  - rewrite Hdoc, map_app. cbn [map]. apply NoDup_al_final; [exact Hk|].
    intros Hin. apply in_map_iff in Hin. destruct Hin as (q & Hq & Hin).
    assert (Hf : existsb (misma_clave (folio documento) (rut_emisor documento)
                            (tipo_dte documento)) (documentos db) = true).
    { apply existsb_exists. exists q. split; [exact Hin|].
      unfold clave_de in Hq. cbn in Hq. inversion Hq as [[Hq1 Hq2 Hq3]].
      unfold misma_clave. rewrite Hq1, Hq2, Hq3, !String.eqb_refl. reflexivity. }
    congruence.
  - rewrite Has, map_app. cbn [map TblAsientos.id].
    apply NoDup_al_final; [exact Ha|apply siguiente_id_nuevo].
  - rewrite Hmov.
    replace (movimientos db ++ [m1; m2; m3])
      with (((movimientos db ++ [m1]) ++ [m2]) ++ [m3])
      by (rewrite <- !app_assoc; reflexivity).
    rewrite map_app. cbn [map]. apply NoDup_al_final.
    + rewrite map_app. cbn [map]. apply NoDup_al_final.
      * rewrite map_app. cbn [map]. apply NoDup_al_final; [exact Hm|].
        rewrite H1. apply siguiente_id_nuevo.
      * rewrite H2. apply siguiente_id_nuevo.
    + rewrite H3. apply siguiente_id_nuevo.
Qed.

Lemma llaves_unicas_con_proveedor : llaves_unicas Ejemplos.db_con_proveedor.
Proof.
  repeat split; cbn; repeat constructor; cbn;
    intuition (try discriminate; try lia).
Defined.

Lemma contabilizar_conserva_llaves_testigo :
  llaves_unicas
    (snd (procesar_documento_con_control_duplicado Ejemplos.doc_sin_razon
            Ejemplos.db_con_proveedor)).
Proof.
  apply (contabilizar_conserva_llaves Ejemplos.doc_sin_razon Ejemplos.db_con_proveedor).
  exact llaves_unicas_con_proveedor.
Defined.


(** Referential integrity is kept by every call of the wrapper: the rows a
    posting appends refer to rows of the store it leaves. *)
Theorem contabilizar_conserva_integridad (documento : Documento) (db : BaseDatos) :
  bien_formada db ->
  bien_formada (snd (procesar_documento_con_control_duplicado documento db)).
Proof.
  intros Hbf.
  unfold procesar_documento_con_control_duplicado, controlar_duplicado.
  destruct (generar_asiento documento db) as [[r|e] db'] eqn:Hga.
  2:{ destruct (generar_asiento_fallo _ _ _ _ Hga) as [-> _].
      destruct (clase e); exact Hbf. }
  cbn [snd].
  destruct Hbf as (Hc & Hp & Hm & Ha).
  destruct (generar_asiento_exito _ _ _ _ Hga)
    as (g & i & p & i1 & i2 & i3 & Hg & _ & _ & _ & _ & _ & Hplan & Hpv & Hdoc & Has & Hmov).
  cbv zeta in Hpv, Hdoc, Has, Hmov.
  unfold bien_formada. rewrite Hplan, Hdoc, Has, Hmov.
  repeat split.
  - exact Hc.
  - intros q a Hq Hqa. rewrite Hpv in Hq.
    destruct (proveedor_por_rut (rut_emisor documento) db) as [s|] eqn:Hs;
      [exact (Hp q a Hq Hqa)|].
    apply in_app_or in Hq. destruct Hq as [Hq|[<-|[]]]; [exact (Hp q a Hq Hqa)|].
    unfold proveedor_vigente in Hqa. rewrite Hs in Hqa.
    cbn [TblProveedores.cuenta_contable_default_id] in Hqa.
    inversion Hqa; subst a. apply in_map.
    unfold cuenta_por_nombre in Hg. exact (proj1 (find_some _ _ Hg)).
  - intros m Hin. rewrite map_app. apply in_or_app.
    apply in_app_or in Hin. destruct Hin as [Hin|Hin]; [left; exact (Hm m Hin)|].
    right. cbn [map TblAsientos.id].
    destruct Hin as [<-|[<-|[<-|[]]]]; left; reflexivity.
  - intros a Hin. rewrite map_app. apply in_or_app.
    apply in_app_or in Hin. destruct Hin as [Hin|[<-|[]]]; [left; exact (Ha a Hin)|].
    right. left. reflexivity.
Qed.

Lemma contabilizar_conserva_integridad_testigo :
  bien_formada
    (snd (procesar_documento_con_control_duplicado Ejemplos.doc_sin_razon
            Ejemplos.db_con_proveedor)).
Proof.
  apply (contabilizar_conserva_integridad Ejemplos.doc_sin_razon Ejemplos.db_con_proveedor).
  exact bien_formada_con_proveedor.
Defined.


(** The wrapper only appends.  Whatever the record and the outcome, the
    chart of accounts is left as it was and each other table keeps its rows,
    in place and unchanged, before the rows of the call: at most one
    supplier, and either one document, one entry and three movements, when
    the call answers with the new identifiers, or none of them. *)
Theorem contabilizar_solo_agrega (documento : Documento) (db : BaseDatos) :
  plan_cuentas (snd (procesar_documento_con_control_duplicado documento db)) = plan_cuentas db /\
  exists (ps : list TblProveedores.fila) (ds : list TblDocumentos.fila)
         (ass : list TblAsientos.fila) (ms : list fila),
    proveedores (snd (procesar_documento_con_control_duplicado documento db))
      = proveedores db ++ ps /\
    documentos (snd (procesar_documento_con_control_duplicado documento db))
      = documentos db ++ ds /\
    asientos (snd (procesar_documento_con_control_duplicado documento db))
      = asientos db ++ ass /\
    movimientos (snd (procesar_documento_con_control_duplicado documento db))
      = movimientos db ++ ms /\
    (length ps <= 1)%nat /\
    ((exists doc_id asiento_id,
        fst (procesar_documento_con_control_duplicado documento db)
          = Retorna (Ok doc_id asiento_id) /\
        length ds = 1%nat /\ length ass = 1%nat /\ length ms = 3%nat) \/
     ((forall doc_id asiento_id,
         fst (procesar_documento_con_control_duplicado documento db)
           <> Retorna (Ok doc_id asiento_id)) /\
      ps = [] /\ ds = [] /\ ass = [] /\ ms = [])).
Proof.
  unfold procesar_documento_con_control_duplicado, controlar_duplicado.
  destruct (generar_asiento documento db) as [[r|e] db'] eqn:Hga.
  - cbn [fst snd].
    destruct (generar_asiento_exito _ _ _ _ Hga)
      as (g & i & p & i1 & i2 & i3 & _ & _ & _ & _ & _ & Hr & Hplan & Hpv & Hdoc & Has & Hmov).
    cbv zeta in Hr, Hpv, Hdoc, Has, Hmov.
    split; [exact Hplan|].
    exists (match proveedor_por_rut (rut_emisor documento) db with
            | Some _ => []
            | None => [proveedor_vigente documento g db]
            end).
    eexists _, _, _.
    split; [|split; [exact Hdoc|split; [exact Has|split; [exact Hmov|]]]].
    + rewrite Hpv. destruct (proveedor_por_rut (rut_emisor documento) db);
        [rewrite app_nil_r|]; reflexivity.
    + split; [destruct (proveedor_por_rut (rut_emisor documento) db); cbn [length]; lia|].
      left. eexists _, _. rewrite Hr. repeat split.
  - destruct (generar_asiento_fallo _ _ _ _ Hga) as [-> _].
    assert (Hs : snd (match clase e with
                      | IntegrityError =>
                          (Retorna (Duplicado "Documento ya existe (folio, rut, tipo_dte)"), db)
                      | _ => (Lanza e, db)
                      end) = db) by (destruct (clase e); reflexivity).
    rewrite Hs. split; [reflexivity|].
    exists [], [], [], []. rewrite !app_nil_r.
    repeat split; [cbn [length]; lia|].
    right. repeat split. intros d a. destruct (clase e); discriminate.
Qed.

(** The identifiers of the answer are those of the rows written: in the
    store the call leaves, the only document with the returned
    [documento_id] has the fields of the record, the only entry with the
    returned [asiento_id] is an entry of that document dated at the issue
    date of the record, and both identifiers are larger than every
    identifier the tables held before. *)
Theorem respuesta_identifica_lo_escrito
    (documento : Documento) (db db' : BaseDatos) (doc_id asiento_id : Z) :
  procesar_documento_con_control_duplicado documento db
    = (Retorna (Ok doc_id asiento_id), db') ->
  filter (fun d => Z.eqb (TblDocumentos.id d) doc_id) (documentos db')
    = [TblDocumentos.Fila doc_id (folio documento) (tipo_dte documento)
         (fecha_emision documento) (rut_emisor documento) (monto_neto documento)
         (monto_iva documento) (monto_total documento) (url_archivo documento)] /\
  filter (fun a => Z.eqb (TblAsientos.id a) asiento_id) (asientos db')
    = [TblAsientos.Fila asiento_id doc_id (fecha_emision documento)] /\
  (forall d, In d (documentos db) -> TblDocumentos.id d < doc_id) /\
  (forall a, In a (asientos db) -> TblAsientos.id a < asiento_id).
Proof.
  unfold procesar_documento_con_control_duplicado, controlar_duplicado.
  destruct (generar_asiento documento db) as [[r|e] db0] eqn:Hga;
    [|destruct (clase e); discriminate].
  intros H; inversion H; subst r db0; clear H.
  destruct (generar_asiento_exito _ _ _ _ Hga)
    as (g & i & p & i1 & i2 & i3 & _ & _ & _ & _ & _ & Hr & _ & _ & Hdoc & Has & _).
  cbv zeta in Hr, Hdoc, Has. inversion Hr as [[Hd Ha]].
  assert (Hmd : forall d, In d (documentos db) -> TblDocumentos.id d < doc_id).
  { intros d Hin. rewrite Hd. apply siguiente_id_mayor, in_map, Hin. }
  assert (Hma : forall a, In a (asientos db) -> TblAsientos.id a < asiento_id).
  { intros a Hin. rewrite Ha. apply siguiente_id_mayor, in_map, Hin. }
  rewrite Hdoc, Has, <- Hd, <- Ha, !filter_app.
  rewrite (filter_nada _ (documentos db)), (filter_nada _ (asientos db)).
  - cbn [filter app TblDocumentos.id TblAsientos.id]. rewrite !Z.eqb_refl.
    repeat split; assumption.
  - intros a Hin. apply Z.eqb_neq. specialize (Hma a Hin). lia.
  - intros d Hin. apply Z.eqb_neq. specialize (Hmd d Hin). lia.
Qed.

Lemma respuesta_identifica_lo_escrito_testigo :
  filter (fun d => Z.eqb (TblDocumentos.id d) 1) (documentos Ejemplos.db_tras_posteo)
    = [TblDocumentos.Fila 1 "123" "33" (Fecha 2024 5 1) "76543210-1"
         (float_de_Z 1000) (float_de_Z 190) (float_de_Z 1190) "f123.xml"] /\
  filter (fun a => Z.eqb (TblAsientos.id a) 1) (asientos Ejemplos.db_tras_posteo)
    = [TblAsientos.Fila 1 1 (Fecha 2024 5 1)] /\
  (forall d, In d (documentos Ejemplos.db_sembrada) -> TblDocumentos.id d < 1) /\
  (forall a, In a (asientos Ejemplos.db_sembrada) -> TblAsientos.id a < 1).
Proof.
  apply (respuesta_identifica_lo_escrito Ejemplos.doc_sin_razon Ejemplos.db_sembrada
           Ejemplos.db_tras_posteo 1 1).
  vm_compute. reflexivity.
Defined.


(** Only a record without issuer name is posted, so the issuer name of a
    document never reaches the store.  A supplier the engine creates is
    named ["Proveedor sin nombre"] and classified under the fallback
    account; a supplier of the store is left as it is, and its stored name
    is the one in the glosa of the three movements. *)
Theorem nombre_del_proveedor_en_lo_escrito
    (documento : Documento) (db db' : BaseDatos) (doc_id asiento_id : Z) :
  procesar_documento_con_control_duplicado documento db
    = (Retorna (Ok doc_id asiento_id), db') ->
  exists (g : TblPlanCuentas.fila) (proveedor : TblProveedores.fila),
    cuenta_por_nombre GASTOS_DEFAULT db = Some g /\
    proveedor_por_rut (rut_emisor documento) db' = Some proveedor /\
    match proveedor_por_rut (rut_emisor documento) db with
    | Some p => proveedor = p /\ proveedores db' = proveedores db
    | None =>
        proveedor = TblProveedores.Fila (rut_emisor documento) "Proveedor sin nombre"
                      (Some (TblPlanCuentas.id_cuenta g)) /\
        proveedores db' = proveedores db ++ [proveedor]
    end /\
    map glosa (movimientos_creados db db') =
      map (fun sufijo =>
             ("Compra DTE " ++ tipo_dte documento ++ " Folio " ++ folio documento
                ++ " - " ++ TblProveedores.razon_social proveedor ++ sufijo)%string)
          [" | Gasto Neto"; " | IVA Crédito Fiscal"; " | Proveedores por Pagar"].
Proof.
  unfold procesar_documento_con_control_duplicado, controlar_duplicado.
  destruct (generar_asiento documento db) as [[r|e] db0] eqn:Hga;
    [|destruct (clase e); discriminate].
  intros H; inversion H; subst r db0; clear H.
  destruct (generar_asiento_exito _ _ _ _ Hga)
    as (g & i & p & i1 & i2 & i3 & Hg & _ & _ & Hrs & _ & _ & _ & Hpv & _ & _ & Hmov).
  cbv zeta in Hpv, Hmov.
  exists g, (proveedor_vigente documento g db).
  split; [exact Hg|].
  assert (Hcre : movimientos_creados db db' = skipn (length (movimientos db)) (movimientos db'))
    by reflexivity.
  rewrite Hmov, skipn_length_app in Hcre. rewrite Hcre. clear Hcre.
  unfold proveedor_vigente, razon_social_o_defecto in *. rewrite Hrs in *.
  unfold proveedor_por_rut at 1. rewrite Hpv. fold (proveedor_por_rut (rut_emisor documento) db).
  destruct (proveedor_por_rut (rut_emisor documento) db) as [s|] eqn:Hs.
  - split; [exact Hs|]. split; [split; reflexivity|].
    cbn [map glosa]. unfold glosa_base. rewrite !append_asociativa. reflexivity.
  - split.
    + apply find_al_final; [exact Hs|]. cbn [TblProveedores.rut]. apply String.eqb_refl.
    + split; [split; reflexivity|].
      cbn [map glosa]. unfold glosa_base. rewrite !append_asociativa. reflexivity.
Qed.

Lemma nombre_del_proveedor_en_lo_escrito_testigo :
  exists (g : TblPlanCuentas.fila) (proveedor : TblProveedores.fila),
    cuenta_por_nombre GASTOS_DEFAULT Ejemplos.db_sembrada = Some g /\
    proveedor_por_rut "76543210-1" Ejemplos.db_tras_posteo = Some proveedor /\
    proveedor = TblProveedores.Fila "76543210-1" "Proveedor sin nombre"
                  (Some (TblPlanCuentas.id_cuenta g)) /\
    map glosa (movimientos_creados Ejemplos.db_sembrada Ejemplos.db_tras_posteo) =
      [ "Compra DTE 33 Folio 123 - Proveedor sin nombre | Gasto Neto";
        "Compra DTE 33 Folio 123 - Proveedor sin nombre | IVA Crédito Fiscal";
        "Compra DTE 33 Folio 123 - Proveedor sin nombre | Proveedores por Pagar" ].
Proof.
  destruct (nombre_del_proveedor_en_lo_escrito Ejemplos.doc_sin_razon Ejemplos.db_sembrada
              Ejemplos.db_tras_posteo 1 1)
    as (g & proveedor & Hg & Hp & Hnuevo & Hglosa).
  - vm_compute. reflexivity.
  - exists g, proveedor. split; [exact Hg|]. split; [exact Hp|].
    change (proveedor_por_rut (rut_emisor Ejemplos.doc_sin_razon) Ejemplos.db_sembrada)
      with (@None TblProveedores.fila) in Hnuevo.
    destruct Hnuevo as [Hprov _]. split; [exact Hprov|].
    rewrite Hglosa, Hprov. reflexivity.
Defined.


End PropiedadesContables2.

(** * The seed of the chart of accounts *)

Section PropiedadesSemilla.

Import LogicaContable DbConfig Esquema.

(** A store that differs from another in the accounts appended to its chart. *)
Lemma _upsert_cuenta_agrega (codigo nombre tipo : option string) (db db' : BaseDatos)
    (r : resultado unit) :
  _upsert_cuenta codigo nombre tipo db = (r, db') ->
  proveedores db' = proveedores db /\ documentos db' = documentos db /\
  asientos db' = asientos db /\ movimientos db' = movimientos db /\
  (db' = db \/
   exists c n t,
     codigo = Some c /\ nombre = Some n /\ tipo = Some t /\ r = Retorna tt /\
     cuenta_por_codigo (Some c) db = None /\
     plan_cuentas db' =
       plan_cuentas db ++
         [TblPlanCuentas.Fila (siguiente_id (map TblPlanCuentas.id_cuenta (plan_cuentas db)))
            c n t]).
Proof.
  unfold _upsert_cuenta.
  destruct (cuenta_por_codigo codigo db) as [f|] eqn:Hf.
  - intros H; inversion H; subst. repeat split; now left.
  - unfold insertar_cuenta.
    destruct codigo as [c|]; [|intros H; inversion H; subst; repeat split; now left].
    destruct nombre as [n|]; [|intros H; inversion H; subst; repeat split; now left].
    destruct tipo as [t|]; [|intros H; inversion H; subst; repeat split; now left].
    destruct (existsb _ (plan_cuentas db)) eqn:Hex;
      intros H; inversion H; subst; cbn [proveedores documentos asientos movimientos plan_cuentas];
      repeat split; [now left|].
    right. exists c, n, t. repeat split. exact Hf.
Qed.

(** A row that was upserted is found by its code, in the store of the
    upsert and in every store that has more accounts. *)
Lemma _upsert_cuenta_repetido (codigo nombre tipo : option string) (db db1 : BaseDatos)
    (extra : list TblPlanCuentas.fila) (db2 : BaseDatos) :
  _upsert_cuenta codigo nombre tipo db = (Retorna tt, db1) ->
  plan_cuentas db2 = plan_cuentas db1 ++ extra ->
  _upsert_cuenta codigo nombre tipo db2 = (Retorna tt, db2).
Proof.
  intros Hu Hp.
  assert (Hc : exists f, cuenta_por_codigo codigo db1 = Some f).
  { revert Hu. unfold _upsert_cuenta.
    destruct (cuenta_por_codigo codigo db) as [f|] eqn:Hf.
    - intros H; inversion H; subst. eauto.
    - unfold insertar_cuenta.
      destruct codigo as [c|]; [|discriminate].
      destruct nombre as [n|]; [|discriminate].
      destruct tipo as [t|]; [|discriminate].
      destruct (existsb _ (plan_cuentas db)); [discriminate|].
      intros H; inversion H; subst. eexists.
      unfold cuenta_por_codigo in *. cbn [plan_cuentas].
      apply find_al_final; [exact Hf|]. cbn [TblPlanCuentas.codigo]. apply String.eqb_refl. }
  destruct Hc as [f Hf]. unfold _upsert_cuenta.
  destruct codigo as [c|]; [|discriminate]. unfold cuenta_por_codigo in *. rewrite Hp.
  destruct (find _ (plan_cuentas db1 ++ extra)) eqn:Hfind; [reflexivity|].
  exfalso. apply find_some in Hf. destruct Hf as [Hin Heq].
  pose proof (find_none _ _ Hfind f (in_or_app _ _ _ (or_introl Hin))) as Hx.
  cbv beta in Hx. congruence.
Qed.

(** What the loop leaves: the tables other than the chart as they were,
    and the chart with accounts appended. *)
Lemma sembrar_agrega (reader : list fila_csv) (db : BaseDatos) :
  proveedores (snd (sembrar reader db)) = proveedores db /\
  documentos (snd (sembrar reader db)) = documentos db /\
  asientos (snd (sembrar reader db)) = asientos db /\
  movimientos (snd (sembrar reader db)) = movimientos db /\
  exists nuevas,
    plan_cuentas (snd (sembrar reader db)) = plan_cuentas db ++ nuevas /\
    NoDup (map TblPlanCuentas.codigo nuevas) /\
    Forall (fun f =>
              cuenta_por_codigo (Some (TblPlanCuentas.codigo f)) db = None /\
              exists row, In row reader /\
                campos_de row = Some (TblPlanCuentas.codigo f, TblPlanCuentas.nombre f,
                                      TblPlanCuentas.tipo f)) nuevas.
Proof.
  revert db. induction reader as [ | row resto IH ]; intros db.
  - cbn [sembrar snd]. repeat split. exists []. rewrite app_nil_r.
    repeat split; constructor.
  - cbn [sembrar].
    destruct (subscript row "codigo") as [codigo|e] eqn:Hc;
      [|cbn [snd]; repeat split; exists []; rewrite app_nil_r; repeat split; constructor].
    destruct (subscript row "nombre") as [nombre|e] eqn:Hn;
      [|cbn [snd]; repeat split; exists []; rewrite app_nil_r; repeat split; constructor].
    destruct (subscript row "tipo") as [tipo|e] eqn:Ht;
      [|cbn [snd]; repeat split; exists []; rewrite app_nil_r; repeat split; constructor].
    destruct (_upsert_cuenta codigo nombre tipo db) as [[[]|e] db1] eqn:Hu.
    2:{ destruct (_upsert_cuenta_agrega _ _ _ _ _ _ Hu) as (Hp & Hd & Ha & Hm & Hplan).
        cbn [snd]. repeat split; try assumption.
        exists []. rewrite app_nil_r.
        destruct Hplan as [->|(c & n & t & _ & _ & _ & Hr & _)]; [|discriminate].
        repeat split; constructor. }
    destruct (_upsert_cuenta_agrega _ _ _ _ _ _ Hu) as (Hp & Hd & Ha & Hm & Hplan).
    destruct (IH db1) as (Hp1 & Hd1 & Ha1 & Hm1 & nuevas & Hplan1 & Hnd & Hall).
    repeat split; try congruence.
    destruct Hplan as [->|(c & n & t & -> & -> & -> & _ & Hcod & Hplan)].
    + exists nuevas. repeat split; [exact Hplan1|exact Hnd|].
      eapply Forall_impl; [|exact Hall]. cbv beta.
      intros f (Hf & row' & Hin & Hrow). split; [exact Hf|].
      exists row'. split; [now right|exact Hrow].
    + eexists (_ :: nuevas). split; [rewrite Hplan1, Hplan, <- app_assoc; reflexivity|].
      assert (Hviejo : forall f, In f nuevas ->
                cuenta_por_codigo (Some (TblPlanCuentas.codigo f)) db1 = None ->
                TblPlanCuentas.codigo f <> c /\
                cuenta_por_codigo (Some (TblPlanCuentas.codigo f)) db = None).
      { intros f Hin Hf. unfold cuenta_por_codigo in *. rewrite Hplan in Hf.
        split.
        - intros Heq.
          assert (Hx := find_none _ _ Hf
                   (TblPlanCuentas.Fila
                      (siguiente_id (map TblPlanCuentas.id_cuenta (plan_cuentas db))) c n t)
                   (in_elt _ _ [])).
          cbn [TblPlanCuentas.codigo] in Hx. rewrite Heq, String.eqb_refl in Hx. discriminate.
        - destruct (find (fun f0 => String.eqb (TblPlanCuentas.codigo f0) (TblPlanCuentas.codigo f))
                      (plan_cuentas db)) as [g|] eqn:Hg; [|reflexivity].
          exfalso. apply find_some in Hg. destruct Hg as [Hin' Heq].
          pose proof (find_none _ _ Hf g (in_or_app _ _ _ (or_introl Hin'))) as Hx.
          cbv beta in Hx. congruence. }
      split.
      * cbn [map TblPlanCuentas.codigo]. constructor; [|exact Hnd].
        intros Hin. apply in_map_iff in Hin. destruct Hin as (f & Hfc & Hin).
        rewrite Forall_forall in Hall. destruct (Hall f Hin) as [Hf _].
        destruct (Hviejo f Hin Hf) as [Hne _]. exact (Hne Hfc).
      * constructor.
        -- cbn [TblPlanCuentas.codigo TblPlanCuentas.nombre TblPlanCuentas.tipo].
           split; [exact Hcod|]. exists row. split; [now left|].
           unfold campos_de. rewrite Hc, Hn, Ht. reflexivity.
        -- rewrite Forall_forall in Hall |- *. intros f Hin.
           destruct (Hall f Hin) as (Hf & row' & Hin' & Hrow).
           split; [exact (proj2 (Hviejo f Hin Hf))|].
           exists row'. split; [now right|exact Hrow].
Qed.

(** The seed never updates and never removes.  Whatever the rows and the
    outcome, the suppliers, documents, entries and movements are left as
    they were, and the chart keeps its accounts, in place and unchanged,
    before the accounts of the call; each of these has the three fields of
    a row of the file and a code the chart did not have, and no two of them
    have the same code.  An account whose code is in the chart is left as
    it is, also where the file gives the code another name or type. *)
Theorem semilla_solo_agrega (plan_cuentas_csv : option (list fila_csv)) (db : BaseDatos) :
  proveedores (snd (seed_plan_cuentas plan_cuentas_csv db)) = proveedores db /\
  documentos (snd (seed_plan_cuentas plan_cuentas_csv db)) = documentos db /\
  asientos (snd (seed_plan_cuentas plan_cuentas_csv db)) = asientos db /\
  movimientos (snd (seed_plan_cuentas plan_cuentas_csv db)) = movimientos db /\
  exists nuevas : list TblPlanCuentas.fila,
    plan_cuentas (snd (seed_plan_cuentas plan_cuentas_csv db)) = plan_cuentas db ++ nuevas /\
    NoDup (map TblPlanCuentas.codigo nuevas) /\
    forall f, In f nuevas ->
      cuenta_por_codigo (Some (TblPlanCuentas.codigo f)) db = None /\
      exists (reader : list fila_csv) (row : fila_csv),
        plan_cuentas_csv = Some reader /\ In row reader /\
        campos_de row = Some (TblPlanCuentas.codigo f, TblPlanCuentas.nombre f,
                              TblPlanCuentas.tipo f).
Proof.
  unfold seed_plan_cuentas. destruct plan_cuentas_csv as [reader|].
  - destruct (sembrar_agrega reader db) as (Hp & Hd & Ha & Hm & nuevas & Hplan & Hnd & Hall).
    do 4 (split; [assumption|]).
    exists nuevas. split; [exact Hplan|]. split; [exact Hnd|].
    intros f Hf. rewrite Forall_forall in Hall.
    destruct (Hall f Hf) as (Hcod & row & Hin & Hrow). split; [exact Hcod|eauto].
  - cbn [snd]. do 4 (split; [reflexivity|]). exists []. rewrite app_nil_r.
    split; [reflexivity|]. split; [constructor|intros f []].
Qed.

(** Seeding again changes nothing: on the store a seed leaves, whether it
    returned or raised, the seed of the same file has the same outcome and
    leaves the store as it is.  [init_db] runs at every start of the app. *)
Theorem semilla_idempotente (plan_cuentas_csv : option (list fila_csv)) (db : BaseDatos) :
  init_db plan_cuentas_csv (snd (init_db plan_cuentas_csv db))
  = init_db plan_cuentas_csv db.
Proof.
  unfold init_db, seed_plan_cuentas.
  destruct plan_cuentas_csv as [reader|]; [|reflexivity].
  revert db. induction reader as [ | row resto IH ]; intros db; [reflexivity|].
  cbn [sembrar].
  destruct (subscript row "codigo") as [codigo|e] eqn:Hc; [|reflexivity].
  destruct (subscript row "nombre") as [nombre|e] eqn:Hn; [|reflexivity].
  destruct (subscript row "tipo") as [tipo|e] eqn:Ht; [|reflexivity].
  destruct (_upsert_cuenta codigo nombre tipo db) as [[[]|e] db1] eqn:Hu.
  - destruct (sembrar_agrega resto db1) as (_ & _ & _ & _ & nuevas & Hplan & _).
    rewrite (_upsert_cuenta_repetido _ _ _ _ _ _ _ Hu Hplan). apply IH.
  - destruct (_upsert_cuenta_agrega _ _ _ _ _ _ Hu) as (_ & _ & _ & _ & Hplan).
    destruct Hplan as [->|(c & n & t & _ & _ & _ & Hr & _)]; [|discriminate].
    cbn [snd]. rewrite Hu. reflexivity.
Qed.

Lemma find_prefijo {A : Type} (f : A -> bool) (l extra : list A) (x : A) :
  find f l = Some x -> find f (l ++ extra) = Some x.
Proof.
  induction l as [ | y l IH ]; cbn [find app]; [discriminate|].
  destruct (f y); [trivial|exact IH].
Qed.

Lemma siguiente_id_positivo (ids : list Z) : 0 < siguiente_id ids.
Proof.
  unfold siguiente_id.
  assert (0 <= fold_right Z.max 0 ids) by (induction ids; cbn [fold_right]; lia).
  lia.
Qed.

Lemma _upsert_cuenta_conserva (codigo nombre tipo : option string) (db : BaseDatos) :
  llaves_unicas db -> bien_formada db ->
  llaves_unicas (snd (_upsert_cuenta codigo nombre tipo db)) /\
  bien_formada (snd (_upsert_cuenta codigo nombre tipo db)).
Proof.
  intros Hll Hbf.
  destruct (_upsert_cuenta codigo nombre tipo db) as [r db'] eqn:Hu. cbn [snd].
  destruct (_upsert_cuenta_agrega _ _ _ _ _ _ Hu) as (Hp & Hd & Ha & Hm & Hplan).
  destruct Hplan as [->|(c & n & t & _ & _ & _ & _ & Hcod & Hplan)]; [now split|].
  destruct Hll as (Hci & Hcc & Hpr & Hdi & Hdk & Hai & Hmi).
  destruct Hbf as (Hpos & Hdef & Hmov & Hasi).
  split.
  - unfold llaves_unicas. rewrite Hplan, Hp, Hd, Ha, Hm, !map_app.
    cbn [map TblPlanCuentas.id_cuenta TblPlanCuentas.codigo].
    repeat split; try assumption.
    + apply NoDup_al_final; [exact Hci|apply siguiente_id_nuevo].
    + apply NoDup_al_final; [exact Hcc|].
      intros Hin. apply in_map_iff in Hin. destruct Hin as (f & Hf & Hin).
      unfold cuenta_por_codigo in Hcod.
      pose proof (find_none _ _ Hcod f Hin) as Hx. cbv beta in Hx.
      rewrite Hf, String.eqb_refl in Hx. discriminate.
  - unfold bien_formada. rewrite Hplan, Hp, Hd, Ha, Hm.
    repeat split; try assumption.
    + intros f Hin. apply in_app_or in Hin. destruct Hin as [Hin|[<-|[]]]; [exact (Hpos f Hin)|].
      cbn [TblPlanCuentas.id_cuenta]. apply siguiente_id_positivo.
    + intros q a Hq Hqa. rewrite map_app. apply in_or_app. left. exact (Hdef q a Hq Hqa).
Qed.

(** The seed keeps the store sound: where the keys the schema declares
    unique are so and the references hold, they are and do after the seed,
    whatever the rows and the outcome.  The accounts it appends have
    positive identifiers and codes the chart did not have. *)
Theorem semilla_conserva_esquema (plan_cuentas_csv : option (list fila_csv)) (db : BaseDatos) :
  llaves_unicas db -> bien_formada db ->
  llaves_unicas (snd (init_db plan_cuentas_csv db)) /\
  bien_formada (snd (init_db plan_cuentas_csv db)).
Proof.
  unfold init_db, seed_plan_cuentas.
  destruct plan_cuentas_csv as [reader|]; [|cbn [snd]; now split].
  revert db. induction reader as [ | row resto IH ]; intros db Hll Hbf; [now split|].
  cbn [sembrar].
  destruct (subscript row "codigo") as [codigo|e]; [|now split].
  destruct (subscript row "nombre") as [nombre|e]; [|now split].
  destruct (subscript row "tipo") as [tipo|e]; [|now split].
  destruct (_upsert_cuenta_conserva codigo nombre tipo db Hll Hbf) as [Hll1 Hbf1].
  destruct (_upsert_cuenta codigo nombre tipo db) as [[[]|e] db1]; cbn [snd] in *.
  - exact (IH db1 Hll1 Hbf1).
  - now split.
Qed.

Lemma llaves_unicas_vacia : llaves_unicas Casos.db_vacia.
Proof. repeat split; constructor. Defined.

Lemma bien_formada_vacia : bien_formada Casos.db_vacia.
Proof.
  unfold bien_formada. cbn.
  split; [intros c []|]. split; [intros p a []|]. split; [intros m []|intros a []].
Defined.

Lemma semilla_conserva_esquema_testigo :
  llaves_unicas (snd (init_db (Some Casos.plan_csv) Casos.db_vacia)) /\
  bien_formada (snd (init_db (Some Casos.plan_csv) Casos.db_vacia)).
Proof.
  apply (semilla_conserva_esquema (Some Casos.plan_csv) Casos.db_vacia).
  - exact llaves_unicas_vacia.
  - exact bien_formada_vacia.
Defined.


(** The names of the rows of a seed that returned, where the codes of the
    file are distinct and new to the chart, are names of the chart. *)
Lemma sembrar_nombres (reader : list fila_csv) (db db' : BaseDatos) :
  sembrar reader db = (Bien tt, db') ->
  NoDup (map (fun row => subscript row "codigo") reader) ->
  (forall row, In row reader -> cuenta_por_codigo_de row db = None) ->
  forall row n, In row reader -> subscript row "nombre" = Bien (Some n) ->
    cuenta_por_nombre n db' <> None.
Proof.
  revert db. induction reader as [ | row resto IH ]; intros db Hs Hnd Hnew row' n' Hin Hn';
    [destruct Hin|].
  cbn [sembrar] in Hs.
  pose proof (Hnew row (or_introl eq_refl)) as Hrow. unfold cuenta_por_codigo_de in Hrow.
  destruct (subscript row "codigo") as [codigo|e] eqn:Hc; [|discriminate].
  destruct (subscript row "nombre") as [nombre|e] eqn:Hn; [|discriminate].
  destruct (subscript row "tipo") as [tipo|e] eqn:Ht; [|discriminate].
  destruct (_upsert_cuenta codigo nombre tipo db) as [[[]|e] db1] eqn:Hu; [|discriminate].
  assert (Hins : exists c n t, codigo = Some c /\ nombre = Some n /\
            plan_cuentas db1 =
              plan_cuentas db ++
                [TblPlanCuentas.Fila
                   (siguiente_id (map TblPlanCuentas.id_cuenta (plan_cuentas db))) c n t]).
  { destruct (_upsert_cuenta_agrega _ _ _ _ _ _ Hu) as (_ & _ & _ & _ & [->|H]).
    - exfalso. revert Hu. unfold _upsert_cuenta. rewrite Hrow. unfold insertar_cuenta.
      destruct codigo as [c|]; [|discriminate].
      destruct nombre as [n|]; [|discriminate].
      destruct tipo as [t|]; [|discriminate].
      destruct (existsb _ (plan_cuentas db)); [discriminate|].
      intros H. inversion H as [Hdb].
      apply (f_equal (fun d => length (plan_cuentas d))) in Hdb.
      cbn [plan_cuentas] in Hdb. rewrite length_app in Hdb. cbn [length] in Hdb. lia.
    - destruct H as (c & n & t & -> & -> & -> & _ & _ & Hplan).
      exists c, n, t. repeat split. exact Hplan. }
  destruct Hins as (c & n & t & -> & -> & Hplan).
  inversion Hnd as [ | x l Hnotin Hnd' ]; subst x l.
  destruct Hin as [<-|Hin].
  - rewrite Hn in Hn'. inversion Hn'; subst n'.
    destruct (sembrar_agrega resto db1) as (_ & _ & _ & _ & nuevas & Hplan' & _).
    rewrite Hs in Hplan'. cbn [snd] in Hplan'.
    unfold cuenta_por_nombre.
    destruct (find (fun f => String.eqb (TblPlanCuentas.nombre f) n) (plan_cuentas db1))
      as [f|] eqn:Hf.
    + rewrite Hplan'. rewrite (find_prefijo _ _ _ _ Hf). discriminate.
    + exfalso. rewrite Hplan in Hf.
      pose proof (find_none _ _ Hf _ (in_elt _ _ [])) as Hx.
      cbn [TblPlanCuentas.nombre] in Hx. rewrite String.eqb_refl in Hx. discriminate.
  - refine (IH db1 Hs Hnd' _ row' n' Hin Hn').
    intros row2 Hin2. pose proof (Hnew row2 (or_intror Hin2)) as H2.
    unfold cuenta_por_codigo_de in *.
    destruct (subscript row2 "codigo") as [[c2|]|e2] eqn:Hc2; try reflexivity.
    unfold cuenta_por_codigo in *. rewrite Hplan.
    destruct (find _ (plan_cuentas db ++ _)) as [f|] eqn:Hf; [|reflexivity].
    exfalso. apply find_some in Hf. destruct Hf as [Hinf Heq].
    apply in_app_or in Hinf. destruct Hinf as [Hinf|[<-|[]]].
    + pose proof (find_none _ _ H2 f Hinf) as Hx. cbv beta in Hx. congruence.
    + cbn [TblPlanCuentas.codigo] in Heq. apply String.eqb_eq in Heq. subst c2.
      apply Hnotin. apply in_map_iff. exists row2. split; [congruence|exact Hin2].
Qed.

(** Seed, then post.  Where the seed returned, the codes of the file are
    distinct and new to the chart, and the file names the three accounts
    of the business rules, the engine finds them: every record without
    ["razon_social"] is answered, with the new identifiers or as a
    duplicate, and no record raises the error of a missing account. *)
Theorem semilla_luego_contabilizar
    (reader : list fila_csv) (db db' : BaseDatos) :
  init_db (Some reader) db = (Bien tt, db') ->
  NoDup (map (fun row => subscript row "codigo") reader) ->
  (forall row, In row reader -> cuenta_por_codigo_de row db = None) ->
  (forall n, In n cuentas_obligatorias ->
     exists row, In row reader /\ subscript row "nombre" = Bien (Some n)) ->
  (forall n, In n cuentas_obligatorias -> cuenta_por_nombre n db' <> None) /\
  (forall documento, razon_social documento = None ->
     exists r db'', procesar_documento_con_control_duplicado documento db' = (Retorna r, db'')) /\
  (forall documento e db'',
     procesar_documento_con_control_duplicado documento db' = (Lanza e, db'') ->
     clase e = TypeError).
Proof.
  unfold init_db, seed_plan_cuentas. intros Hs Hnd Hnew Hnom.
  assert (Hc : forall n, In n cuentas_obligatorias -> cuenta_por_nombre n db' <> None).
  { intros n Hin. destruct (Hnom n Hin) as (row & Hrow & Hn).
    exact (sembrar_nombres _ _ _ Hs Hnd Hnew row n Hrow Hn). }
  split; [exact Hc|]. split.
  - intros documento Hr.
    unfold procesar_documento_con_control_duplicado, controlar_duplicado.
    destruct (generar_asiento documento db') as [[r|e] db''] eqn:Hga; [eauto|].
    destruct (generar_asiento_fallo _ _ _ _ Hga) as [-> [H|[H|H]]].
    + exfalso. destruct H as (n & Hin & Hn & _). exact (Hc n Hin Hn).
    + exfalso. destruct H as [H _]. exact (H Hr).
    + destruct H as (_ & -> & _). eauto.
  - intros documento e db''.
    unfold procesar_documento_con_control_duplicado, controlar_duplicado.
    destruct (generar_asiento documento db') as [[r|e0] db0] eqn:Hga; [discriminate|].
    destruct (generar_asiento_fallo _ _ _ _ Hga) as [-> [H|[H|H]]].
    + exfalso. destruct H as (n & Hin & Hn & _). exact (Hc n Hin Hn).
    + destruct H as (_ & ->). cbn [clase]. intros H. inversion H. reflexivity.
    + destruct H as (_ & Hcl & _). rewrite Hcl. discriminate.
Qed.

Lemma semilla_luego_contabilizar_testigo :
  (forall n, In n cuentas_obligatorias -> cuenta_por_nombre n Ejemplos.db_sembrada <> None) /\
  (forall documento, razon_social documento = None ->
     exists r db'',
       procesar_documento_con_control_duplicado documento Ejemplos.db_sembrada
         = (Retorna r, db'')) /\
  (forall documento e db'',
     procesar_documento_con_control_duplicado documento Ejemplos.db_sembrada
       = (Lanza e, db'') ->
     clase e = TypeError).
Proof.
  apply (semilla_luego_contabilizar Casos.plan_csv Casos.db_vacia Ejemplos.db_sembrada).
  - vm_compute. reflexivity.
  - vm_compute. repeat constructor; cbn; intuition discriminate.
  - intros row [<-|[<-|[<-|[<-|[]]]]]; reflexivity.
  - intros n [<-|[<-|[<-|[]]]];
      [ exists (Casos.fila_de "5101" "Gastos Generales (Por Clasificar)" "Gasto")
      | exists (Casos.fila_de "1105" "IVA Crédito Fiscal" "Activo")
      | exists (Casos.fila_de "2101" "Proveedores por Pagar" "Pasivo") ];
      (split; [cbn; tauto|reflexivity]).
Defined.


Lemma subscript_casos (row : fila_csv) (c : string) :
  (existsb (String.eqb c) (map fst row) = true /\ exists v, subscript row c = Bien v) \/
  (existsb (String.eqb c) (map fst row) = false /\ subscript row c = Falla (KeyError c)).
Proof.
  unfold subscript. induction row as [ | [k v] row IH ]; [now right|].
  cbn [map fst existsb find]. rewrite (String.eqb_sym c k).
  destruct (String.eqb k c); [left; split; [reflexivity|eauto]|exact IH].
Qed.

(** A file without one of the three columns.  The rows of a reader all have
    the names of the header as keys; where the header lacks ["codigo"],
    ["nombre"] or ["tipo"] and the file has a row, the seed raises the
    [KeyError] of the first of the three that is missing, at the first row,
    and the store is as it was. *)
Theorem semilla_sin_columna
    (fieldnames : list string) (reader : list fila_csv) (db : BaseDatos) (clave : string) :
  Forall (fun row => map fst row = fieldnames) reader ->
  reader <> [] ->
  find (fun c => negb (existsb (String.eqb c) fieldnames)) ["codigo"; "nombre"; "tipo"]
    = Some clave ->
  init_db (Some reader) db = (Falla (KeyError clave), db).
Proof.
  intros Hall Hne Hfalta. unfold init_db, seed_plan_cuentas.
  destruct reader as [ | row resto ]; [now elim Hne|].
  inversion Hall as [ | x l Hrow _ ]; subst x l. subst fieldnames.
  cbn [sembrar]. revert Hfalta. cbn [find].
  destruct (subscript_casos row "codigo") as [[-> [v ->]]|[-> ->]]; cbn [negb];
    [|intros H; inversion H; reflexivity].
  destruct (subscript_casos row "nombre") as [[-> [v' ->]]|[-> ->]]; cbn [negb];
    [|intros H; inversion H; reflexivity].
  destruct (subscript_casos row "tipo") as [[-> [v'' ->]]|[-> ->]]; cbn [negb];
    [discriminate|intros H; inversion H; reflexivity].
Qed.

Lemma semilla_sin_columna_testigo :
  init_db (Some Casos.plan_csv_sin_tipo) Casos.db_vacia = (Falla (KeyError "tipo"), Casos.db_vacia).
Proof.
  apply (semilla_sin_columna ["codigo"; "nombre"] Casos.plan_csv_sin_tipo Casos.db_vacia "tipo").
  - repeat constructor.
  - discriminate.
  - reflexivity.
Defined.


(** A line shorter than the header.  Where the rows before it were seeded
    and the row has no account in the chart under its code, a row with
    [None] for the code, the name or the type stops the seed with the
    [IntegrityError] of the store; the accounts of the rows before it stay,
    and the rows after it are not read. *)
Theorem semilla_fila_incompleta
    (antes despues : list fila_csv) (row : fila_csv) (codigo nombre tipo : option string)
    (db db1 : BaseDatos) :
  init_db (Some antes) db = (Bien tt, db1) ->
  subscript row "codigo" = Bien codigo ->
  subscript row "nombre" = Bien nombre ->
  subscript row "tipo" = Bien tipo ->
  cuenta_por_codigo codigo db1 = None ->
  codigo = None \/ nombre = None \/ tipo = None ->
  exists e : excepcion,
    clase e = IntegrityError /\
    init_db (Some (antes ++ row :: despues)) db = (Falla (Error e), db1).
Proof.
  unfold init_db, seed_plan_cuentas. intros Hs Hc Hn Ht Hcod Hnone.
  assert (Hfila : exists e, clase e = IntegrityError /\
            sembrar (row :: despues) db1 = (Falla (Error e), db1)).
  { cbn [sembrar]. rewrite Hc, Hn, Ht. unfold _upsert_cuenta. rewrite Hcod.
    unfold insertar_cuenta.
    destruct codigo as [c|]; [|eexists; split; [|reflexivity]; reflexivity].
    destruct nombre as [n|]; [|eexists; split; [|reflexivity]; reflexivity].
    destruct tipo as [t|]; [|eexists; split; [|reflexivity]; reflexivity].
    exfalso. destruct Hnone as [H|[H|H]]; discriminate. }
  destruct Hfila as (e & Hcl & Hfila). exists e. split; [exact Hcl|].
  clear Hc Hn Ht Hcod Hnone. revert db Hs.
  induction antes as [ | r antes IH ]; intros db Hs.
  - cbn [sembrar] in Hs. inversion Hs; subst db1. exact Hfila.
  - cbn [app sembrar] in Hs |- *.
    destruct (subscript r "codigo") as [cod|]; [|discriminate].
    destruct (subscript r "nombre") as [nom|]; [|discriminate].
    destruct (subscript r "tipo") as [tip|]; [|discriminate].
    destruct (_upsert_cuenta cod nom tip db) as [[[]|e0] db0]; [|discriminate].
    exact (IH db0 Hs).
Qed.

Lemma semilla_fila_incompleta_testigo :
  exists e : excepcion,
    clase e = IntegrityError /\
    init_db (Some (Casos.plan_csv ++ Casos.fila_corta :: [Casos.fila_de "1102" "Banco" "Activo"]))
      Casos.db_vacia
    = (Falla (Error e), Ejemplos.db_sembrada).
Proof.
  apply (semilla_fila_incompleta Casos.plan_csv [Casos.fila_de "1102" "Banco" "Activo"]
           Casos.fila_corta (Some "1101") (Some "Caja") None
           Casos.db_vacia Ejemplos.db_sembrada).
  - vm_compute. reflexivity.
  - reflexivity.
  - reflexivity.
  - reflexivity.
  - reflexivity.
  - right. right. reflexivity.
Defined.


End PropiedadesSemilla.

(** * The upload of a batch of files *)

Section PropiedadesCarga.

Import ProcesadorXml LogicaContable App.

Variable xmltodict_parse : list Byte.byte -> resultado valor.
Variable float_de_str : string -> option float.
Variable strptime_ymd : string -> resultado date.
Variable repr_contenedor : valor -> string.
Variable strip : string -> string.

Local Notation "'parsear'" :=
  (parsear_dte_xml xmltodict_parse float_de_str strptime_ymd repr_contenedor strip).
Local Notation "'archivo_a_archivo'" :=
  (procesar_archivo xmltodict_parse float_de_str strptime_ymd repr_contenedor strip).
Local Notation "'es_detalle'" :=
  (detalle_de_error xmltodict_parse float_de_str strptime_ymd repr_contenedor strip).
Local Notation "'lote'" :=
  (procesar_archivos xmltodict_parse float_de_str strptime_ymd repr_contenedor strip).

Lemma procesar_archivo_es_error (c : carga) (a : UploadedFile) (db : BaseDatos) :
  exists exc : excepcion,
    archivo_a_archivo c a db = (con_error c a exc, db) /\
    es_detalle a db (mensaje exc).
Proof.
  unfold procesar_archivo, detalle_de_error.
  destruct (parsear (getvalue a) (name a)) as [documento|exc] eqn:Hp.
  - pose proof (parsear_con_razon_social _ _ _ _ _ _ _ _ Hp) as Hrs.
    unfold procesar_documento_con_control_duplicado, controlar_duplicado.
    destruct (generar_asiento documento db) as [[r|e] db'] eqn:Hga.
    + exfalso.
      destruct (generar_asiento_exito _ _ _ _ Hga)
        as (_ & _ & _ & _ & _ & _ & _ & _ & _ & Hr & _).
      exact (Hrs Hr).
    + destruct (generar_asiento_fallo _ _ _ _ Hga) as [-> [H|[H|H]]].
      * destruct H as (n & Hin & Hn & ->). eexists. split; [reflexivity|].
        right. left. exists n. auto.
      * destruct H as (_ & ->). eexists. split; [reflexivity|]. right. now right.
      * exfalso. destruct H as (Hr & _). exact (Hrs Hr).
  - exists exc. split; [reflexivity|]. left.
    revert Hp. unfold parsear_dte_xml.
    destruct (cuerpo_parsear _ _ _ _ _ (getvalue a) (name a)) as [d|causa] eqn:Hc;
      [discriminate|].
    intros H; inversion H. exists causa. split; reflexivity.
Qed.

Lemma procesar_archivos_desde (archivos : list UploadedFile) (c : carga) (db : BaseDatos) :
  exists entradas : list entrada,
    fold_left (fun (s : carga * BaseDatos) a => archivo_a_archivo (fst s) a (snd s))
      archivos (c, db)
    = ({| insertados := insertados c;
          duplicados := duplicados c;
          errores := errores c + Z.of_nat (length archivos);
          log := log c ++ entradas |}, db) /\
    Forall2 (fun a l =>
               archivo l = name a /\ estado l = "error" /\
               es_detalle a db (detalle l))
            archivos entradas.
Proof.
  revert c. induction archivos as [ | a resto IH ]; intros c.
  - exists []. cbn [fold_left length Z.of_nat]. rewrite app_nil_r, Z.add_0_r.
    split; [destruct c; reflexivity|constructor].
  - cbn [fold_left fst snd].
    destruct (procesar_archivo_es_error c a db) as (exc & -> & Hdet).
    destruct (IH (con_error c a exc)) as (entradas & -> & Hall).
    exists (Entrada (name a) "error" (mensaje exc) :: entradas).
    split.
    + unfold con_error. cbn [insertados duplicados errores log length].
      rewrite <- app_assoc, Nat2Z.inj_succ. cbn [app]. f_equal. f_equal. lia.
    + constructor; [|exact Hall]. cbn [archivo estado detalle]. auto.
Qed.

(** No upload posts anything.  Whatever the files and the store, the loop
    ends, with no file inserted and none reported as duplicate: every file
    is counted as an error and has one entry of the log, in the order of the
    upload, whose detail is the error of the normalizer, the error of a
    missing account or, for a file that is normalized where the three
    accounts exist, the [TypeError] of the document row.  The store is as it
    was. *)
Theorem carga_sin_asientos (archivos : list UploadedFile) (db : BaseDatos) :
  snd (lote archivos db) = db /\
  insertados (fst (lote archivos db)) = 0 /\
  duplicados (fst (lote archivos db)) = 0 /\
  errores (fst (lote archivos db)) = Z.of_nat (length archivos) /\
  Forall2 (fun a l =>
             archivo l = name a /\ estado l = "error" /\
             es_detalle a db (detalle l))
          archivos (log (fst (lote archivos db))).
Proof.
  unfold procesar_archivos.
  destruct (procesar_archivos_desde archivos
              {| insertados := 0; duplicados := 0; errores := 0; log := [] |} db)
    as (entradas & -> & Hall).
  cbn [fst snd insertados duplicados errores log app]. repeat split. exact Hall.
Qed.

End PropiedadesCarga.

(** * The classification of suppliers *)

Section PropiedadesClasificacion.

Import LogicaContable App Esquema.

Lemma insertar_ordenado_In (c x : TblPlanCuentas.fila) (l : list TblPlanCuentas.fila) :
  In x (insertar_ordenado c l) <-> x = c \/ In x l.
Proof.
  induction l as [ | y l IH ]; cbn [insertar_ordenado In].
  - split; [intros [H|[]]; now left|intros [H|[]]; now left].
  - destruct (String.leb _ _); cbn [In]; [split; intros [H|H]; auto|].
    rewrite IH. split; [intros [H|[H|H]]|intros [H|[H|H]]]; auto.
Qed.

Lemma cuentas_In (c : TblPlanCuentas.fila) (db : BaseDatos) :
  In c (cuentas db) <-> In c (plan_cuentas db).
Proof.
  unfold cuentas, ordenar_por_codigo.
  induction (plan_cuentas db) as [ | y l IH ]; cbn [fold_right In]; [tauto|].
  rewrite insertar_ordenado_In, IH. split; intros [H|H]; auto.
Qed.

Lemma insertar_ordenado_NoDup {K : Type} (clave : TblPlanCuentas.fila -> K)
    (c : TblPlanCuentas.fila) (l : list TblPlanCuentas.fila) :
  ~ In (clave c) (map clave l) -> NoDup (map clave l) ->
  NoDup (map clave (insertar_ordenado c l)).
Proof.
  induction l as [ | y l IH ]; cbn [insertar_ordenado map]; intros Hc Hl.
  - constructor; [exact Hc|constructor].
  - destruct (String.leb _ _); cbn [map]; [constructor; assumption|].
    inversion Hl as [ | k ks Hy Hl' ]; subst k ks.
    constructor.
    + intros Hin. apply in_map_iff in Hin. destruct Hin as (z & Hz & Hin).
      apply insertar_ordenado_In in Hin. destruct Hin as [->|Hin].
      * apply Hc. left. symmetry. exact Hz.
      * apply Hy. rewrite <- Hz. apply in_map, Hin.
    + apply IH; [|exact Hl']. intros Hin. apply Hc. now right.
Qed.

Lemma cuentas_NoDup {K : Type} (clave : TblPlanCuentas.fila -> K) (db : BaseDatos) :
  NoDup (map clave (plan_cuentas db)) -> NoDup (map clave (rev (cuentas db))).
Proof.
  intros H. rewrite map_rev. apply NoDup_rev.
  unfold cuentas, ordenar_por_codigo.
  induction (plan_cuentas db) as [ | y l IH ]; cbn [fold_right map]; [constructor|].
  inversion H as [ | k ks Hy Hl ]; subst k ks.
  apply insertar_ordenado_NoDup; [|exact (IH Hl)].
  intros Hin. apply Hy. apply in_map_iff in Hin. destruct Hin as (z & Hz & Hin).
  rewrite <- Hz. apply in_map.
  clear - Hin. induction l as [ | w l IHl ]; cbn [fold_right] in Hin; [destruct Hin|].
  apply insertar_ordenado_In in Hin. destruct Hin as [->|Hin]; [now left|right; auto].
Qed.

(** In a list without two elements of the same key, the search by key
    finds the element that has it. *)
Lemma find_por_llave {A K : Type} (clave : A -> K) (igual : K -> K -> bool)
    (l : list A) (c : A) :
  (forall a b, igual a b = true <-> a = b) ->
  NoDup (map clave l) -> In c l ->
  find (fun x => igual (clave x) (clave c)) l = Some c.
Proof.
  intros Hig. induction l as [ | y l IH ]; cbn [map find]; intros Hnd Hin; [destruct Hin|].
  inversion Hnd as [ | k ks Hy Hl ]; subst k ks.
  destruct Hin as [->|Hin].
  - rewrite (proj2 (Hig _ _) eq_refl). reflexivity.
  - destruct (igual (clave y) (clave c)) eqn:Heq; [|exact (IH Hl Hin)].
    exfalso. apply Hig in Heq. apply Hy. rewrite Heq. apply in_map, Hin.
Qed.

(** The text of the placeholder is the label of no account: a label has
    [" - "] after the code. *)
Lemma sin_asignar_no_es_etiqueta (c : TblPlanCuentas.fila) : etiqueta c <> "Sin asignar".
Proof.
  unfold etiqueta. destruct c as [i cod nom tip]. cbn [TblPlanCuentas.codigo TblPlanCuentas.nombre].
  intros H.
  repeat (destruct cod as [ | ? cod ]; cbn [append] in H; [discriminate H|];
          injection H as _ H).
  destruct cod; discriminate H.
Qed.

Lemma opciones_subscript_bien (db : BaseDatos) (label : string) (id : Z) :
  opciones_subscript (cuentas db) label = Bien id ->
  exists c, In c (plan_cuentas db) /\ etiqueta c = label /\ id = TblPlanCuentas.id_cuenta c.
Proof.
  unfold opciones_subscript.
  destruct (find _ (rev (cuentas db))) as [c|] eqn:Hf; [|discriminate].
  intros H; inversion H. apply find_some in Hf. destruct Hf as [Hin Heq].
  exists c. apply in_rev, cuentas_In in Hin. apply String.eqb_eq in Heq. auto.
Qed.

Lemma opciones_subscript_falla (db : BaseDatos) (label : string) (e : error_py) :
  opciones_subscript (cuentas db) label = Falla e ->
  e = KeyError label /\ forall c, In c (plan_cuentas db) -> etiqueta c <> label.
Proof.
  unfold opciones_subscript.
  destruct (find _ (rev (cuentas db))) as [c|] eqn:Hf; [discriminate|].
  intros H; inversion H. split; [reflexivity|].
  intros c Hin Heq. apply cuentas_In, in_rev in Hin.
  pose proof (find_none _ _ Hf c Hin) as Hx. cbv beta in Hx.
  rewrite Heq, String.eqb_refl in Hx. discriminate.
Qed.

Lemma Forall2_componer {A : Type} (P Q R : A -> A -> Prop) (l1 l2 l3 : list A) :
  (forall a b c, P a b -> Q b c -> R a c) ->
  Forall2 P l1 l2 -> Forall2 Q l2 l3 -> Forall2 R l1 l3.
Proof.
  intros H H12. revert l3. induction H12 as [ | a b l1 l2 Hab _ IH ]; intros l3 H23.
  - inversion H23. constructor.
  - inversion H23 as [ | b' c l2' l3' Hbc H23' ]; subst. constructor; [eauto|auto].
Qed.

Lemma Forall2_mismo {A : Type} (P : A -> A -> Prop) (l : list A) :
  (forall a, P a a) -> Forall2 P l l.
Proof. intros H. induction l; constructor; auto. Qed.

Lemma Forall2_map_derecha {A : Type} (P : A -> A -> Prop) (f : A -> A) (l : list A) :
  (forall a, P a (f a)) -> Forall2 P l (map f l).
Proof. intros H. induction l; cbn [map]; constructor; auto. Qed.

Lemma reclasificado_mismo (db : BaseDatos) (edited : list fila_prov) (p : TblProveedores.fila) :
  reclasificado db edited p p.
Proof. unfold reclasificado. auto. Qed.

(** The loop of the save, from a store with the chart of the screen. *)
Lemma guardar_filas_efecto (db0 : BaseDatos) (edited : list fila_prov) (db : BaseDatos) :
  plan_cuentas (snd (guardar_filas (cuentas db0) edited db)) = plan_cuentas db /\
  documentos (snd (guardar_filas (cuentas db0) edited db)) = documentos db /\
  asientos (snd (guardar_filas (cuentas db0) edited db)) = asientos db /\
  movimientos (snd (guardar_filas (cuentas db0) edited db)) = movimientos db /\
  Forall2 (reclasificado db0 edited)
    (proveedores db) (proveedores (snd (guardar_filas (cuentas db0) edited db))) /\
  forall e, fst (guardar_filas (cuentas db0) edited db) = Falla e ->
    exists row, In row edited /\ e = KeyError (nueva_cuenta row) /\
      In (rut row) (map TblProveedores.rut (proveedores db)) /\
      forall c, In c (plan_cuentas db0) -> etiqueta c <> nueva_cuenta row.
Proof.
  revert db. induction edited as [ | row resto IH ]; intros db.
  - cbn [guardar_filas fst snd]. repeat split.
    + apply Forall2_mismo, reclasificado_mismo.
    + discriminate.
  - cbn [guardar_filas].
    assert (Hmas : forall p p', reclasificado db0 resto p p' ->
              reclasificado db0 (row :: resto) p p').
    { intros p p' (Hr & Hn & [Hd|(c & row' & Hc & Hin & Hrr & Hl & Hd)]);
        repeat split; auto. right. exists c, row'. repeat split; auto. now right. }
    destruct (proveedor_por_rut (rut row) db) as [prov|] eqn:Hprov.
    + destruct (opciones_subscript (cuentas db0) (nueva_cuenta row)) as [id|e] eqn:Hop.
      * destruct (opciones_subscript_bien _ _ _ Hop) as (c & Hc & Hl & ->).
        destruct (IH (asignar_cuenta (rut row) (TblPlanCuentas.id_cuenta c) db))
          as (Hp & Hd & Ha & Hm & Hf & He).
        cbn [asignar_cuenta plan_cuentas documentos asientos movimientos proveedores]
          in Hp, Hd, Ha, Hm, Hf, He.
        repeat split; try assumption.
        -- refine (Forall2_componer (reclasificado db0 (row :: resto))
                     (reclasificado db0 resto) _ _ _ _ _ _ Hf).
           ++ intros p p1 p' (Hr1 & Hn1 & Hd1) (Hr2 & Hn2 & Hd2).
              repeat split; try congruence.
              destruct Hd2 as [Hd2|(c2 & row2 & Hc2 & Hin2 & Hrr2 & Hl2 & Hd2)].
              ** rewrite Hd2. exact Hd1.
              ** right. exists c2, row2. repeat split; auto; [now right|congruence].
           ++ apply Forall2_map_derecha. intros p.
              destruct (String.eqb (TblProveedores.rut p) (rut row)) eqn:Heq;
                [|apply reclasificado_mismo].
              apply String.eqb_eq in Heq. repeat split.
              right. exists c, row. repeat split; auto. now left.
        -- intros e' Hfe. destruct (He e' Hfe) as (row' & Hin & -> & Hrut & Hno).
           exists row'. repeat split; auto; [now right|].
           rewrite map_map in Hrut. apply in_map_iff in Hrut.
           destruct Hrut as (p & Hp' & Hinp). apply in_map_iff. exists p. split; [|exact Hinp].
           rewrite <- Hp'. destruct (String.eqb (TblProveedores.rut p) (rut row)); reflexivity.
      * cbn [fst snd]. repeat split.
        -- apply Forall2_mismo, reclasificado_mismo.
        -- intros e' He'. inversion He'; subst e'.
           destruct (opciones_subscript_falla _ _ _ Hop) as [-> Hno].
           exists row. repeat split; auto; [now left|].
           unfold proveedor_por_rut in Hprov. apply find_some in Hprov.
           destruct Hprov as [Hin Heq]. apply String.eqb_eq in Heq.
           rewrite <- Heq. apply in_map, Hin.
    + destruct (IH db) as (Hp & Hd & Ha & Hm & Hf & He).
      repeat split; try assumption.
      * eapply Forall2_impl; [|exact Hf]. exact Hmas.
      * intros e Hfe. destruct (He e Hfe) as (row' & Hin & -> & Hrut & Hno).
        exists row'. repeat split; auto. now right.
Qed.

(** A save touches nothing but the default account of suppliers.  Whatever
    the rows of the table, the chart, the documents, the entries and the
    movements are as they were, and so are the suppliers, their ruts and
    their names, each with its account as it was or with the account of the
    label of a row with its rut.  When a label is that of no account, at a
    row of a known supplier, the save raises [KeyError] and the whole save
    is undone. *)
Theorem guardar_solo_cambia_cuenta (edited : list fila_prov) (db : BaseDatos) :
  plan_cuentas (snd (guardar_clasificacion edited db)) = plan_cuentas db /\
  documentos (snd (guardar_clasificacion edited db)) = documentos db /\
  asientos (snd (guardar_clasificacion edited db)) = asientos db /\
  movimientos (snd (guardar_clasificacion edited db)) = movimientos db /\
  Forall2 (reclasificado db edited)
    (proveedores db) (proveedores (snd (guardar_clasificacion edited db))) /\
  forall e, fst (guardar_clasificacion edited db) = Falla e ->
    snd (guardar_clasificacion edited db) = db /\
    exists row, In row edited /\ e = KeyError (nueva_cuenta row) /\
      In (rut row) (map TblProveedores.rut (proveedores db)) /\
      forall c, In c (plan_cuentas db) -> etiqueta c <> nueva_cuenta row.
Proof.
  unfold guardar_clasificacion.
  destruct (guardar_filas_efecto db edited db) as (Hp & Hd & Ha & Hm & Hf & He).
  destruct (guardar_filas (cuentas db) edited db) as [[[]|e0] db'] eqn:Hg;
    cbn [fst snd] in *.
  - do 5 (split; [assumption|]). discriminate.
  - do 4 (split; [reflexivity|]). split; [apply Forall2_mismo, reclasificado_mismo|].
    intros e Hfe. inversion Hfe; subst e. split; [reflexivity|exact (He e0 eq_refl)].
Qed.

Lemma find_map_mismo {A : Type} (g : A -> bool) (f : A -> A) (l : list A) :
  (forall x, g (f x) = g x) -> find g (map f l) = option_map f (find g l).
Proof.
  intros H. induction l as [ | x l IH ]; cbn [map find option_map]; [reflexivity|].
  rewrite H. destruct (g x); [reflexivity|exact IH].
Qed.

(** The supplier of a rut after an assignment: the one of before, with the
    account assigned if the rut is that of the assignment. *)
Lemma proveedor_tras_asignar (r r' : string) (id : Z) (db : BaseDatos) :
  proveedor_por_rut r (asignar_cuenta r' id db) =
    match proveedor_por_rut r db with
    | Some p =>
        Some (if String.eqb r r'
              then TblProveedores.Fila (TblProveedores.rut p) (TblProveedores.razon_social p)
                     (Some id)
              else p)
    | None => None
    end.
Proof.
  unfold proveedor_por_rut, asignar_cuenta. cbn [proveedores].
  rewrite find_map_mismo.
  - destruct (find _ (proveedores db)) as [p|] eqn:Hf; [|reflexivity].
    cbn [option_map]. apply find_some in Hf. destruct Hf as [_ Heq].
    apply String.eqb_eq in Heq. rewrite Heq. reflexivity.
  - intros x. destruct (String.eqb (TblProveedores.rut x) r'); reflexivity.
Qed.

Lemma guardar_filas_sin_asignar (ops : list TblPlanCuentas.fila) (edited : list fila_prov)
    (db : BaseDatos) (row : fila_prov) :
  (forall c, In c ops -> etiqueta c <> "Sin asignar") ->
  In row edited -> nueva_cuenta row = "Sin asignar" ->
  proveedor_por_rut (rut row) db <> None ->
  exists label, fst (guardar_filas ops edited db) = Falla (KeyError label).
Proof.
  intros Hno. revert db. induction edited as [ | x resto IH ]; intros db Hin Hl Hp;
    [destruct Hin|].
  cbn [guardar_filas].
  assert (Hfalla : forall y, In y (x :: resto) -> y = x -> nueva_cuenta y = "Sin asignar" ->
            opciones_subscript ops (nueva_cuenta x) = Falla (KeyError "Sin asignar")).
  { intros y _ -> Hy. rewrite Hy. unfold opciones_subscript.
    destruct (find _ (rev ops)) as [c|] eqn:Hf; [|reflexivity].
    exfalso. apply find_some in Hf. destruct Hf as [Hc Heq].
    apply String.eqb_eq in Heq. apply in_rev in Hc. exact (Hno c Hc Heq). }
  destruct Hin as [<-|Hin].
  - destruct (proveedor_por_rut (rut x) db); [|now elim Hp].
    rewrite (Hfalla x (or_introl eq_refl) eq_refl Hl). cbn [fst]. eauto.
  - destruct (proveedor_por_rut (rut x) db) as [q|] eqn:Hq; [|exact (IH db Hin Hl Hp)].
    destruct (opciones_subscript ops (nueva_cuenta x)) as [id|e] eqn:Hop.
    + apply IH; [exact Hin|exact Hl|]. rewrite proveedor_tras_asignar.
      destruct (proveedor_por_rut (rut row) db); [discriminate|now elim Hp].
    + cbn [fst]. revert Hop. unfold opciones_subscript.
      destruct (find _ (rev ops)); [discriminate|]. intros H; inversion H. eauto.
Qed.

(** A supplier left unassigned blocks the save.  ["Sin asignar"], the text
    the table shows for a supplier without account, is the label of no
    account; a table with a row of a known supplier under that text is not
    saved: the save raises [KeyError] and the store is as it was, also for
    the rows with a valid label. *)
Theorem sin_asignar_impide_guardar (edited : list fila_prov) (db : BaseDatos) (row : fila_prov) :
  In row edited ->
  nueva_cuenta row = "Sin asignar" ->
  proveedor_por_rut (rut row) db <> None ->
  exists label, guardar_clasificacion edited db = (Falla (KeyError label), db).
Proof.
  intros Hin Hl Hp. unfold guardar_clasificacion.
  destruct (guardar_filas_sin_asignar (cuentas db) edited db row) as [label Hf]; auto.
  { intros c _. apply sin_asignar_no_es_etiqueta. }
  destruct (guardar_filas (cuentas db) edited db) as [[[]|e] db']; cbn [fst] in Hf;
    [discriminate|]. inversion Hf. eauto.
Qed.

Lemma sin_asignar_impide_guardar_testigo :
  exists label,
    guardar_clasificacion
      (Casos.acme_a_gastos ++ [FilaProv "11111111-1" "Beta" "Sin asignar"])
      Casos.db_sin_clasificar
    = (Falla (KeyError label), Casos.db_sin_clasificar).
Proof.
  apply (sin_asignar_impide_guardar
           (Casos.acme_a_gastos ++ [FilaProv "11111111-1" "Beta" "Sin asignar"])
           Casos.db_sin_clasificar (FilaProv "11111111-1" "Beta" "Sin asignar")).
  - cbn. tauto.
  - reflexivity.
  - vm_compute. discriminate.
Defined.


Lemma asignar_cuenta_misma (p : TblProveedores.fila) (a : Z) (db : BaseDatos) :
  NoDup (map TblProveedores.rut (proveedores db)) ->
  In p (proveedores db) ->
  TblProveedores.cuenta_contable_default_id p = Some a ->
  asignar_cuenta (TblProveedores.rut p) a db = db.
Proof.
  intros Hnd Hin Hd. unfold asignar_cuenta. destruct db as [pc pr dc ass mv].
  cbn [plan_cuentas proveedores documentos asientos movimientos] in *. f_equal.
  rewrite <- (map_id pr) at 2. apply map_ext_in. intros q Hq.
  destruct (String.eqb (TblProveedores.rut q) (TblProveedores.rut p)) eqn:Heq; [|reflexivity].
  apply String.eqb_eq in Heq.
  assert (q = p).
  { clear Hd. induction pr as [ | x pr IH ]; [destruct Hin|].
    cbn [map] in Hnd. inversion Hnd as [ | k ks Hx Hnd' ]; subst k ks.
    destruct Hin as [->|Hin], Hq as [->|Hq]; auto.
    - exfalso. apply Hx. rewrite <- Heq. apply in_map, Hq.
    - exfalso. apply Hx. rewrite Heq. apply in_map, Hin. }
  subst q. destruct p as [r n d]. cbn in *. rewrite Hd. reflexivity.
Qed.

(** A row of the table on the screen, for the store it was drawn from:
    the label of the account of its supplier, which the save reads back as
    that account, or the placeholder, which it cannot read. *)
Lemma fila_mostrada (db : BaseDatos) (row : fila_prov) :
  llaves_unicas db -> NoDup (map etiqueta (plan_cuentas db)) ->
  In row (df_prov db) ->
  exists p, proveedor_por_rut (rut row) db = Some p /\
    ((nueva_cuenta row <> "Sin asignar" /\
      exists a, opciones_subscript (cuentas db) (nueva_cuenta row) = Bien a /\
                asignar_cuenta (rut row) a db = db) \/
     (nueva_cuenta row = "Sin asignar" /\
      opciones_subscript (cuentas db) (nueva_cuenta row) = Falla (KeyError "Sin asignar"))).
Proof.
  intros (Hci & _ & Hpr & _) Het Hin. unfold df_prov in Hin.
  apply in_map_iff in Hin. destruct Hin as (p & <- & Hp). cbn [rut nueva_cuenta].
  exists p. split.
  { unfold proveedor_por_rut.
    apply (find_por_llave TblProveedores.rut String.eqb _ _ String.eqb_eq Hpr Hp). }
  assert (Hsin : opciones_subscript (cuentas db) "Sin asignar" = Falla (KeyError "Sin asignar")).
  { unfold opciones_subscript. destruct (find _ (rev (cuentas db))) as [c|] eqn:Hf; [|reflexivity].
    exfalso. apply find_some in Hf. destruct Hf as [_ Heq]. apply String.eqb_eq in Heq.
    exact (sin_asignar_no_es_etiqueta c Heq). }
  unfold map_cuentas_get.
  destruct (TblProveedores.cuenta_contable_default_id p) as [a|] eqn:Hd; [|now right].
  destruct (find (fun c => Z.eqb (TblPlanCuentas.id_cuenta c) a) (rev (cuentas db)))
    as [c|] eqn:Hf; [|now right].
  left. split; [apply sin_asignar_no_es_etiqueta|].
  apply find_some in Hf. destruct Hf as [Hc Ha]. apply Z.eqb_eq in Ha.
  exists a. split.
  - unfold opciones_subscript.
    rewrite (find_por_llave etiqueta String.eqb _ c String.eqb_eq (cuentas_NoDup _ _ Het) Hc).
    rewrite Ha. reflexivity.
  - apply asignar_cuenta_misma; assumption.
Qed.

(** Saving the table as the screen shows it changes nothing.  Where the
    keys of the store are unique and no two accounts have the same label,
    the save of rows of the table it was drawn from leaves the store as it
    is; it returns when every row has an account, and raises when a row
    shows a supplier without one. *)
Theorem guardar_lo_mostrado (edited : list fila_prov) (db : BaseDatos) :
  llaves_unicas db ->
  NoDup (map etiqueta (plan_cuentas db)) ->
  incl edited (df_prov db) ->
  snd (guardar_clasificacion edited db) = db /\
  (fst (guardar_clasificacion edited db) = Bien tt <->
   forall row, In row edited -> nueva_cuenta row <> "Sin asignar").
Proof.
  intros Hll Het Hincl.
  assert (Hf : (exists e, guardar_filas (cuentas db) edited db = (Falla e, db) /\
                          exists row, In row edited /\ nueva_cuenta row = "Sin asignar") \/
               (guardar_filas (cuentas db) edited db = (Bien tt, db) /\
                forall row, In row edited -> nueva_cuenta row <> "Sin asignar")).
  { induction edited as [ | row resto IH ]; [right; split; [reflexivity|intros ? []]|].
    cbn [guardar_filas].
    destruct (fila_mostrada db row Hll Het (Hincl row (or_introl eq_refl)))
      as (p & -> & [(Hno & a & -> & ->)|(Hsi & ->)]).
    - destruct IH as [(e & -> & row' & Hin & Hl)|(-> & Hall)].
      + intros x Hx. apply Hincl. now right.
      + left. exists e. split; [reflexivity|]. exists row'. split; [now right|exact Hl].
      + right. split; [reflexivity|]. intros x [<-|Hx]; auto.
    - left. eexists. split; [reflexivity|]. exists row. split; [now left|exact Hsi]. }
  unfold guardar_clasificacion.
  destruct Hf as [(e & -> & row & Hin & Hl)|(-> & Hall)]; cbn [fst snd].
  - split; [reflexivity|]. split; [discriminate|]. intros H. elim (H row Hin Hl).
  - split; [reflexivity|]. split; auto.
Qed.

Lemma guardar_lo_mostrado_testigo :
  snd (guardar_clasificacion (df_prov Ejemplos.db_con_proveedor) Ejemplos.db_con_proveedor)
    = Ejemplos.db_con_proveedor /\
  (fst (guardar_clasificacion (df_prov Ejemplos.db_con_proveedor) Ejemplos.db_con_proveedor)
     = Bien tt <->
   forall row, In row (df_prov Ejemplos.db_con_proveedor) ->
     nueva_cuenta row <> "Sin asignar").
Proof.
  apply (guardar_lo_mostrado (df_prov Ejemplos.db_con_proveedor) Ejemplos.db_con_proveedor).
  - exact llaves_unicas_con_proveedor.
  - vm_compute. repeat constructor; cbn; intuition discriminate.
  - intros row H. exact H.
Defined.


Lemma guardar_filas_ajeno (ops : list TblPlanCuentas.fila) (edited : list fila_prov)
    (db : BaseDatos) (r : string) :
  (forall row, In row edited -> rut row <> r) ->
  proveedor_por_rut r (snd (guardar_filas ops edited db)) = proveedor_por_rut r db.
Proof.
  revert db. induction edited as [ | x resto IH ]; intros db Hno; [reflexivity|].
  cbn [guardar_filas].
  assert (Hresto : forall row, In row resto -> rut row <> r)
    by (intros row Hin; apply Hno; now right).
  destruct (proveedor_por_rut (rut x) db); [|exact (IH db Hresto)].
  destruct (opciones_subscript ops (nueva_cuenta x)) as [id|e]; [|reflexivity].
  rewrite (IH _ Hresto), proveedor_tras_asignar.
  destruct (proveedor_por_rut r db) as [p|]; [|reflexivity].
  destruct (String.eqb r (rut x)) eqn:Heq; [|reflexivity].
  apply String.eqb_eq in Heq. elim (Hno x (or_introl eq_refl)). auto.
Qed.

(** The account a save that returned left to the supplier of a row. *)
Lemma guardar_filas_asigna (ops : list TblPlanCuentas.fila) (edited : list fila_prov)
    (db db' : BaseDatos) (row : fila_prov) (p : TblProveedores.fila) :
  guardar_filas ops edited db = (Bien tt, db') ->
  NoDup (map rut edited) -> In row edited ->
  proveedor_por_rut (rut row) db = Some p ->
  exists id,
    opciones_subscript ops (nueva_cuenta row) = Bien id /\
    proveedor_por_rut (rut row) db' =
      Some (TblProveedores.Fila (TblProveedores.rut p) (TblProveedores.razon_social p) (Some id)).
Proof.
  revert db. induction edited as [ | x resto IH ]; intros db Hg Hnd Hin Hp; [destruct Hin|].
  cbn [map] in Hnd. inversion Hnd as [ | k ks Hx Hnd' ]; subst k ks.
  cbn [guardar_filas] in Hg.
  destruct Hin as [->|Hin].
  - rewrite Hp in Hg.
    destruct (opciones_subscript ops (nueva_cuenta row)) as [id|e]; [|discriminate].
    exists id. split; [reflexivity|].
    assert (Hdb' : db' = snd (guardar_filas ops resto (asignar_cuenta (rut row) id db)))
      by (rewrite Hg; reflexivity).
    rewrite Hdb', guardar_filas_ajeno, proveedor_tras_asignar, Hp, String.eqb_refl;
      [reflexivity|].
    intros y Hy Heq. apply Hx. rewrite <- Heq. apply in_map, Hy.
  - assert (Hne : rut row <> rut x).
    { intros Heq. apply Hx. rewrite <- Heq. apply in_map, Hin. }
    destruct (proveedor_por_rut (rut x) db) as [q|]; [|exact (IH db Hg Hnd' Hin Hp)].
    destruct (opciones_subscript ops (nueva_cuenta x)) as [id|e]; [|discriminate].
    apply (IH _ Hg Hnd' Hin). rewrite proveedor_tras_asignar, Hp.
    apply String.eqb_neq in Hne. rewrite Hne. reflexivity.
Qed.

(** Classify, then post.  After a save that returned, of a table with one
    row per rut, a document of the supplier of a row is posted with its net
    amount debited on the account of the label of that row. *)
Theorem clasificar_luego_contabilizar
    (edited : list fila_prov) (row : fila_prov) (documento : Documento)
    (db db' db'' : BaseDatos) (doc_id asiento_id : Z) :
  bien_formada db ->
  NoDup (map rut edited) ->
  In row edited ->
  proveedor_por_rut (rut row) db <> None ->
  guardar_clasificacion edited db = (Bien tt, db') ->
  rut_emisor documento = rut row ->
  procesar_documento_con_control_duplicado documento db'
    = (Retorna (Ok doc_id asiento_id), db'') ->
  exists (c : TblPlanCuentas.fila) (m1 m2 m3 : TblMovimientosContables.fila),
    In c (plan_cuentas db) /\ etiqueta c = nueva_cuenta row /\
    movimientos_creados db' db'' = [m1; m2; m3] /\
    TblMovimientosContables.id_cuenta m1 = TblPlanCuentas.id_cuenta c /\
    TblMovimientosContables.debe m1 = monto_neto documento /\
    TblMovimientosContables.haber m1 = cero.
Proof.
  intros Hbf Hnd Hin Hp Hg Hrut Hpost.
  destruct (proveedor_por_rut (rut row) db) as [p|] eqn:Hprov; [clear Hp|now elim Hp].
  unfold guardar_clasificacion in Hg.
  destruct (guardar_filas (cuentas db) edited db) as [[[]|e] db1] eqn:Hgf; [|discriminate].
  inversion Hg; subst db1; clear Hg.
  destruct (guardar_filas_asigna _ _ _ _ _ _ Hgf Hnd Hin Hprov) as (id & Hop & Hp').
  destruct (opciones_subscript_bien _ _ _ Hop) as (c & Hc & Hl & ->).
  revert Hpost. unfold procesar_documento_con_control_duplicado, controlar_duplicado.
  destruct (generar_asiento documento db') as [[r|e] db0] eqn:Hga;
    [|destruct (clase e); discriminate].
  intros H; inversion H; subst r db0; clear H.
  destruct (generar_asiento_exito _ _ _ _ Hga)
    as (g & i & pp & i1 & i2 & i3 & _ & _ & _ & _ & _ & _ & _ & _ & _ & _ & Hmov).
  cbv zeta in Hmov.
  assert (Hcre : movimientos_creados db' db'' = skipn (length (movimientos db')) (movimientos db''))
    by reflexivity.
  rewrite Hmov, skipn_length_app in Hcre.
  exists c. eexists _, _, _.
  split; [exact Hc|]. split; [exact Hl|]. split; [exact Hcre|].
  cbn [TblMovimientosContables.id_cuenta TblMovimientosContables.debe
       TblMovimientosContables.haber].
  split; [|split; reflexivity].
  unfold proveedor_vigente. rewrite Hrut, Hp'.
  cbn [TblProveedores.cuenta_contable_default_id].
  apply o_bien_no_nulo.
  destruct Hbf as (Hpos & _). specialize (Hpos c Hc). lia.
Qed.

Lemma clasificar_luego_contabilizar_testigo :
  exists (c : TblPlanCuentas.fila) (m1 m2 m3 : TblMovimientosContables.fila),
    In c (plan_cuentas Ejemplos.db_con_proveedor) /\
    etiqueta c = "5101 - Gastos Generales (Por Clasificar)" /\
    movimientos_creados Casos.db_reclasificada Casos.db_reclasificada_y_contabilizada
      = [m1; m2; m3] /\
    TblMovimientosContables.id_cuenta m1 = TblPlanCuentas.id_cuenta c /\
    TblMovimientosContables.debe m1 = float_de_Z 1000 /\
    TblMovimientosContables.haber m1 = cero.
Proof.
  apply (clasificar_luego_contabilizar Casos.acme_a_gastos
           (FilaProv "76543210-1" "Acme" "5101 - Gastos Generales (Por Clasificar)")
           Ejemplos.doc_sin_razon Ejemplos.db_con_proveedor Casos.db_reclasificada
           Casos.db_reclasificada_y_contabilizada 1 1).
  - exact bien_formada_con_proveedor.
  - repeat constructor. intros [].
  - left. reflexivity.
  - vm_compute. discriminate.
  - vm_compute. reflexivity.
  - reflexivity.
  - vm_compute. reflexivity.
Defined.


End PropiedadesClasificacion.
